(** * Media session reconciliation: request manager, state manager,
    idle detector and ad session controller.

    Shallow embedding of
    - [player/media/controller/request-manager.ts],
    - [player/media/controller/use-media-state-manager.ts],
    - the idle detector [useMediaUser],
    - [core/ads/controller.ts],
    followed by the properties established about them.

    JavaScript numbers are IEEE 754 binary64 values and are modelled by
    the kernel's primitive floats, so [===], [<], [-] and [isNaN] are the
    operations the engine computes.

    The request manager and the state manager are two revisions of the
    same pair: the request manager's [$store], [requests._queue] and
    [requests._$isLooping] are the state manager's [$media],
    [requestQueue] and [requestManager.$isLooping], and an event named
    [x] by one is the event named [vds-x] by the other.  The model has one
    session record for both.

    Time is explicit: a timer is a field of the session, and its firing is
    a step of its own. *)

From Stdlib Require Import ZArith List Bool Lia Floats.PrimFloat.
From stdpp Require Import base option list gmap strings.
Import ListNotations.

Set Warnings "-inexact-float".
Open Scope string_scope.
Open Scope list_scope.

(** ** JavaScript values *)

(** A [TimeRanges] object: its [(start, end)] pairs in order. *)
Definition TimeRanges : Type := list (float * float).

(** [new TimeRange(start, end)]. *)
Definition TimeRange (start end_ : float) : TimeRanges := [(start, end_)].

(** [ranges.end(ranges.length - 1)], guarded as in [onProgress]. *)
Definition lastEnd (r : TimeRanges) : float :=
  match last r with
  | Some (_, e) => e
  | None => 0%float
  end.

(** A thrown or rejected value: an [Error] object or anything else. *)
Inductive Thrown : Type :=
| ErrorObject (message : string)
| OtherValue (json : string).

(** Modelled from the spec: [coerceToError] of [utils/error] is not among
    the sources.  A failure event carries "the original error wrapped":
    an [Error] is kept, any other value becomes the message of a new one. *)
Definition coerceToError (e : Thrown) : Thrown :=
  match e with
  | ErrorObject m => ErrorObject m
  | OtherValue j => ErrorObject j
  end.

(** How an awaited provider call settles. *)
Inductive Settled : Type :=
| Fulfilled
| Rejected (e : Thrown).

(** ** Request events *)

Inductive FullscreenTarget : Type :=
| PreferMedia   (* 'prefer-media' *)
| TargetMedia   (* 'media' *)
| TargetProvider (* 'provider' *).

Inductive MediaRequest : Type :=
| MediaStartLoading
| MediaMuteRequest
| MediaUnmuteRequest
| MediaPlayRequest
| MediaPauseRequest
| MediaSeekingRequest (detail : float)
| MediaSeekRequest (detail : float)
| MediaVolumeChangeRequest (detail : float)
| MediaEnterFullscreenRequest (detail : option FullscreenTarget)
| MediaExitFullscreenRequest (detail : option FullscreenTarget)
| MediaResumeUserIdleRequest
| MediaPauseUserIdleRequest
| MediaShowPosterRequest
| MediaHidePosterRequest
| MediaLoopRequest.

(** A request event object; [request_id] is its identity. *)
Record RequestEvent : Type := {
  request : MediaRequest;
  request_id : nat
}.

Definition request_type (r : MediaRequest) : string :=
  match r with
  | MediaStartLoading => "media-start-loading"
  | MediaMuteRequest => "media-mute-request"
  | MediaUnmuteRequest => "media-unmute-request"
  | MediaPlayRequest => "media-play-request"
  | MediaPauseRequest => "media-pause-request"
  | MediaSeekingRequest _ => "media-seeking-request"
  | MediaSeekRequest _ => "media-seek-request"
  | MediaVolumeChangeRequest _ => "media-volume-change-request"
  | MediaEnterFullscreenRequest _ => "media-enter-fullscreen-request"
  | MediaExitFullscreenRequest _ => "media-exit-fullscreen-request"
  | MediaResumeUserIdleRequest => "media-resume-user-idle-request"
  | MediaPauseUserIdleRequest => "media-pause-user-idle-request"
  | MediaShowPosterRequest => "media-show-poster-request"
  | MediaHidePosterRequest => "media-hide-poster-request"
  | MediaLoopRequest => "media-loop-request"
  end.

(** ** Media events *)

(** A reference to an event object: what a trigger chain and the tracked
    event map hold. *)
Record EventRef : Type := {
  ref_type : string;
  ref_id : nat
}.

Inductive MediaEventKind : Type :=
| VdsViewTypeChange (detail : string)
| VdsCanLoad
| VdsSourcesChange (detail : list string)
| VdsSourceChange (detail : string)
| VdsMediaTypeChange (detail : string)
| VdsLoadStart
| VdsAbort
| VdsError (detail : Thrown)
| VdsLoadedMetadata
| VdsLoadedData
| VdsCanPlay (duration : float)
| VdsCanPlayThrough (duration : float)
| VdsDurationChange (detail : float)
| VdsProgress (buffered seekable : TimeRanges)
| VdsAutoplay
| VdsAutoplayFail (detail : Thrown)
| VdsPause
| VdsPlay
| VdsPlayFail (detail : Thrown) (autoplay : option bool)
| VdsPlaying
| VdsTimeUpdate (currentTime : float) (played : TimeRanges)
| VdsVolumeChange (volume : float) (muted : bool)
| VdsSeeking (detail : float)
| VdsSeeked (detail : float)
| VdsWaiting
| VdsEnded
| VdsFullscreenChange (detail : bool)
| VdsFullscreenError (detail : Thrown)
| VdsReplay
| VdsStarted
| VdsAdEnded.

Definition event_type (k : MediaEventKind) : string :=
  match k with
  | VdsViewTypeChange _ => "vds-view-type-change"
  | VdsCanLoad => "vds-can-load"
  | VdsSourcesChange _ => "vds-sources-change"
  | VdsSourceChange _ => "vds-source-change"
  | VdsMediaTypeChange _ => "vds-media-type-change"
  | VdsLoadStart => "vds-load-start"
  | VdsAbort => "vds-abort"
  | VdsError _ => "vds-error"
  | VdsLoadedMetadata => "vds-loaded-metadata"
  | VdsLoadedData => "vds-loaded-data"
  | VdsCanPlay _ => "vds-can-play"
  | VdsCanPlayThrough _ => "vds-can-play-through"
  | VdsDurationChange _ => "vds-duration-change"
  | VdsProgress _ _ => "vds-progress"
  | VdsAutoplay => "vds-autoplay"
  | VdsAutoplayFail _ => "vds-autoplay-fail"
  | VdsPause => "vds-pause"
  | VdsPlay => "vds-play"
  | VdsPlayFail _ _ => "vds-play-fail"
  | VdsPlaying => "vds-playing"
  | VdsTimeUpdate _ _ => "vds-time-update"
  | VdsVolumeChange _ _ => "vds-volume-change"
  | VdsSeeking _ => "vds-seeking"
  | VdsSeeked _ => "vds-seeked"
  | VdsWaiting => "vds-waiting"
  | VdsEnded => "vds-ended"
  | VdsFullscreenChange _ => "vds-fullscreen-change"
  | VdsFullscreenError _ => "vds-fullscreen-error"
  | VdsReplay => "vds-replay"
  | VdsStarted => "vds-started"
  | VdsAdEnded => "vds-ad-ended"
  end.

(** An event object while it is being handled.  [triggerChain] is the
    chain reached through [triggerEvent], nearest first; [stopped] records
    [stopImmediatePropagation]; [fromProvider] is [event.target === provider]. *)
Record MediaEvent : Type := {
  kind : MediaEventKind;
  event_id : nat;
  triggerChain : list EventRef;
  requestEvent : option RequestEvent;
  stopped : bool;
  fromProvider : bool
}.

Definition ref_of (e : MediaEvent) : EventRef :=
  {| ref_type := event_type (kind e); ref_id := event_id e |}.

Definition ref_of_request (r : RequestEvent) : EventRef :=
  {| ref_type := request_type (request r); ref_id := request_id r |}.

(** [appendTriggerEvent(event, trigger)]: nothing for an absent trigger,
    otherwise the trigger is attached at the end of the chain. *)
Definition appendTriggerEvent (event : MediaEvent) (trigger : option EventRef)
  : MediaEvent :=
  match trigger with
  | None => event
  | Some t =>
      {| kind := kind event; event_id := event_id event;
         triggerChain := triggerChain event ++ [t];
         requestEvent := requestEvent event;
         stopped := stopped event; fromProvider := fromProvider event |}
  end.

Definition stopImmediatePropagation (event : MediaEvent) : MediaEvent :=
  {| kind := kind event; event_id := event_id event;
     triggerChain := triggerChain event;
     requestEvent := requestEvent event;
     stopped := true; fromProvider := fromProvider event |}.

Definition set_requestEvent (r : RequestEvent) (event : MediaEvent)
  : MediaEvent :=
  {| kind := kind event; event_id := event_id event;
     triggerChain := triggerChain event;
     requestEvent := Some r;
     stopped := stopped event; fromProvider := fromProvider event |}.

(** [createEvent(target, type, { detail })] / [new DOMEvent(type, init)]. *)
Definition createEvent (k : MediaEventKind) (id : nat) (trigger : option EventRef)
  : MediaEvent :=
  {| kind := k; event_id := id;
     triggerChain := match trigger with Some t => [t] | None => [] end;
     requestEvent := None; stopped := false; fromProvider := false |}.

(** ** MediaState *)

Module Media.

Record MediaState : Type := Build_MediaState {
  paused : bool;
  playing : bool;
  seeking : bool;
  waiting : bool;
  ended : bool;
  started : bool;
  currentTime : float;
  duration : float;
  volume : float;
  muted : bool;
  played : TimeRanges;
  buffered : TimeRanges;
  bufferedAmount : float;
  seekable : TimeRanges;
  seekableAmount : float;
  fullscreen : bool;
  canLoad : bool;
  canLoadPoster : bool;
  canFullscreen : bool;
  canPlay : bool;
  viewType : string;
  mediaType : string;
  live : bool;
  source : string;
  sources : list string;
  error : option Thrown;
  attemptingAutoplay : bool;
  autoplayError : option Thrown;
  adStarted : bool;
  adsLoaded : bool;
  adCuePoints : list float;
  playedPreroll : bool
}.

Definition set_paused (v : bool) (x : MediaState) : MediaState :=
  Build_MediaState v (playing x) (seeking x) (waiting x) (ended x) (started x)
    (currentTime x) (duration x) (volume x) (muted x) (played x) (buffered x)
    (bufferedAmount x) (seekable x) (seekableAmount x) (fullscreen x)
    (canLoad x) (canLoadPoster x) (canFullscreen x) (canPlay x) (viewType x)
    (mediaType x) (live x) (source x) (sources x) (error x)
    (attemptingAutoplay x) (autoplayError x) (adStarted x) (adsLoaded x)
    (adCuePoints x) (playedPreroll x).
Definition set_playing (v : bool) (x : MediaState) : MediaState :=
  Build_MediaState (paused x) v (seeking x) (waiting x) (ended x) (started x)
    (currentTime x) (duration x) (volume x) (muted x) (played x) (buffered x)
    (bufferedAmount x) (seekable x) (seekableAmount x) (fullscreen x)
    (canLoad x) (canLoadPoster x) (canFullscreen x) (canPlay x) (viewType x)
    (mediaType x) (live x) (source x) (sources x) (error x)
    (attemptingAutoplay x) (autoplayError x) (adStarted x) (adsLoaded x)
    (adCuePoints x) (playedPreroll x).
Definition set_seeking (v : bool) (x : MediaState) : MediaState :=
  Build_MediaState (paused x) (playing x) v (waiting x) (ended x) (started x)
    (currentTime x) (duration x) (volume x) (muted x) (played x) (buffered x)
    (bufferedAmount x) (seekable x) (seekableAmount x) (fullscreen x)
    (canLoad x) (canLoadPoster x) (canFullscreen x) (canPlay x) (viewType x)
    (mediaType x) (live x) (source x) (sources x) (error x)
    (attemptingAutoplay x) (autoplayError x) (adStarted x) (adsLoaded x)
    (adCuePoints x) (playedPreroll x).
Definition set_waiting (v : bool) (x : MediaState) : MediaState :=
  Build_MediaState (paused x) (playing x) (seeking x) v (ended x) (started x)
    (currentTime x) (duration x) (volume x) (muted x) (played x) (buffered x)
    (bufferedAmount x) (seekable x) (seekableAmount x) (fullscreen x)
    (canLoad x) (canLoadPoster x) (canFullscreen x) (canPlay x) (viewType x)
    (mediaType x) (live x) (source x) (sources x) (error x)
    (attemptingAutoplay x) (autoplayError x) (adStarted x) (adsLoaded x)
    (adCuePoints x) (playedPreroll x).
Definition set_ended (v : bool) (x : MediaState) : MediaState :=
  Build_MediaState (paused x) (playing x) (seeking x) (waiting x) v
    (started x) (currentTime x) (duration x) (volume x) (muted x) (played x)
    (buffered x) (bufferedAmount x) (seekable x) (seekableAmount x)
    (fullscreen x) (canLoad x) (canLoadPoster x) (canFullscreen x) (canPlay x)
    (viewType x) (mediaType x) (live x) (source x) (sources x) (error x)
    (attemptingAutoplay x) (autoplayError x) (adStarted x) (adsLoaded x)
    (adCuePoints x) (playedPreroll x).
Definition set_started (v : bool) (x : MediaState) : MediaState :=
  Build_MediaState (paused x) (playing x) (seeking x) (waiting x) (ended x) v
    (currentTime x) (duration x) (volume x) (muted x) (played x) (buffered x)
    (bufferedAmount x) (seekable x) (seekableAmount x) (fullscreen x)
    (canLoad x) (canLoadPoster x) (canFullscreen x) (canPlay x) (viewType x)
    (mediaType x) (live x) (source x) (sources x) (error x)
    (attemptingAutoplay x) (autoplayError x) (adStarted x) (adsLoaded x)
    (adCuePoints x) (playedPreroll x).
Definition set_currentTime (v : float) (x : MediaState) : MediaState :=
  Build_MediaState (paused x) (playing x) (seeking x) (waiting x) (ended x)
    (started x) v (duration x) (volume x) (muted x) (played x) (buffered x)
    (bufferedAmount x) (seekable x) (seekableAmount x) (fullscreen x)
    (canLoad x) (canLoadPoster x) (canFullscreen x) (canPlay x) (viewType x)
    (mediaType x) (live x) (source x) (sources x) (error x)
    (attemptingAutoplay x) (autoplayError x) (adStarted x) (adsLoaded x)
    (adCuePoints x) (playedPreroll x).
Definition set_duration (v : float) (x : MediaState) : MediaState :=
  Build_MediaState (paused x) (playing x) (seeking x) (waiting x) (ended x)
    (started x) (currentTime x) v (volume x) (muted x) (played x) (buffered x)
    (bufferedAmount x) (seekable x) (seekableAmount x) (fullscreen x)
    (canLoad x) (canLoadPoster x) (canFullscreen x) (canPlay x) (viewType x)
    (mediaType x) (live x) (source x) (sources x) (error x)
    (attemptingAutoplay x) (autoplayError x) (adStarted x) (adsLoaded x)
    (adCuePoints x) (playedPreroll x).
Definition set_volume (v : float) (x : MediaState) : MediaState :=
  Build_MediaState (paused x) (playing x) (seeking x) (waiting x) (ended x)
    (started x) (currentTime x) (duration x) v (muted x) (played x)
    (buffered x) (bufferedAmount x) (seekable x) (seekableAmount x)
    (fullscreen x) (canLoad x) (canLoadPoster x) (canFullscreen x) (canPlay x)
    (viewType x) (mediaType x) (live x) (source x) (sources x) (error x)
    (attemptingAutoplay x) (autoplayError x) (adStarted x) (adsLoaded x)
    (adCuePoints x) (playedPreroll x).
Definition set_muted (v : bool) (x : MediaState) : MediaState :=
  Build_MediaState (paused x) (playing x) (seeking x) (waiting x) (ended x)
    (started x) (currentTime x) (duration x) (volume x) v (played x)
    (buffered x) (bufferedAmount x) (seekable x) (seekableAmount x)
    (fullscreen x) (canLoad x) (canLoadPoster x) (canFullscreen x) (canPlay x)
    (viewType x) (mediaType x) (live x) (source x) (sources x) (error x)
    (attemptingAutoplay x) (autoplayError x) (adStarted x) (adsLoaded x)
    (adCuePoints x) (playedPreroll x).
Definition set_played (v : TimeRanges) (x : MediaState) : MediaState :=
  Build_MediaState (paused x) (playing x) (seeking x) (waiting x) (ended x)
    (started x) (currentTime x) (duration x) (volume x) (muted x) v
    (buffered x) (bufferedAmount x) (seekable x) (seekableAmount x)
    (fullscreen x) (canLoad x) (canLoadPoster x) (canFullscreen x) (canPlay x)
    (viewType x) (mediaType x) (live x) (source x) (sources x) (error x)
    (attemptingAutoplay x) (autoplayError x) (adStarted x) (adsLoaded x)
    (adCuePoints x) (playedPreroll x).
Definition set_buffered (v : TimeRanges) (x : MediaState) : MediaState :=
  Build_MediaState (paused x) (playing x) (seeking x) (waiting x) (ended x)
    (started x) (currentTime x) (duration x) (volume x) (muted x) (played x) v
    (bufferedAmount x) (seekable x) (seekableAmount x) (fullscreen x)
    (canLoad x) (canLoadPoster x) (canFullscreen x) (canPlay x) (viewType x)
    (mediaType x) (live x) (source x) (sources x) (error x)
    (attemptingAutoplay x) (autoplayError x) (adStarted x) (adsLoaded x)
    (adCuePoints x) (playedPreroll x).
Definition set_bufferedAmount (v : float) (x : MediaState) : MediaState :=
  Build_MediaState (paused x) (playing x) (seeking x) (waiting x) (ended x)
    (started x) (currentTime x) (duration x) (volume x) (muted x) (played x)
    (buffered x) v (seekable x) (seekableAmount x) (fullscreen x) (canLoad x)
    (canLoadPoster x) (canFullscreen x) (canPlay x) (viewType x) (mediaType x)
    (live x) (source x) (sources x) (error x) (attemptingAutoplay x)
    (autoplayError x) (adStarted x) (adsLoaded x) (adCuePoints x)
    (playedPreroll x).
Definition set_seekable (v : TimeRanges) (x : MediaState) : MediaState :=
  Build_MediaState (paused x) (playing x) (seeking x) (waiting x) (ended x)
    (started x) (currentTime x) (duration x) (volume x) (muted x) (played x)
    (buffered x) (bufferedAmount x) v (seekableAmount x) (fullscreen x)
    (canLoad x) (canLoadPoster x) (canFullscreen x) (canPlay x) (viewType x)
    (mediaType x) (live x) (source x) (sources x) (error x)
    (attemptingAutoplay x) (autoplayError x) (adStarted x) (adsLoaded x)
    (adCuePoints x) (playedPreroll x).
Definition set_seekableAmount (v : float) (x : MediaState) : MediaState :=
  Build_MediaState (paused x) (playing x) (seeking x) (waiting x) (ended x)
    (started x) (currentTime x) (duration x) (volume x) (muted x) (played x)
    (buffered x) (bufferedAmount x) (seekable x) v (fullscreen x) (canLoad x)
    (canLoadPoster x) (canFullscreen x) (canPlay x) (viewType x) (mediaType x)
    (live x) (source x) (sources x) (error x) (attemptingAutoplay x)
    (autoplayError x) (adStarted x) (adsLoaded x) (adCuePoints x)
    (playedPreroll x).
Definition set_fullscreen (v : bool) (x : MediaState) : MediaState :=
  Build_MediaState (paused x) (playing x) (seeking x) (waiting x) (ended x)
    (started x) (currentTime x) (duration x) (volume x) (muted x) (played x)
    (buffered x) (bufferedAmount x) (seekable x) (seekableAmount x) v
    (canLoad x) (canLoadPoster x) (canFullscreen x) (canPlay x) (viewType x)
    (mediaType x) (live x) (source x) (sources x) (error x)
    (attemptingAutoplay x) (autoplayError x) (adStarted x) (adsLoaded x)
    (adCuePoints x) (playedPreroll x).
Definition set_canLoad (v : bool) (x : MediaState) : MediaState :=
  Build_MediaState (paused x) (playing x) (seeking x) (waiting x) (ended x)
    (started x) (currentTime x) (duration x) (volume x) (muted x) (played x)
    (buffered x) (bufferedAmount x) (seekable x) (seekableAmount x)
    (fullscreen x) v (canLoadPoster x) (canFullscreen x) (canPlay x)
    (viewType x) (mediaType x) (live x) (source x) (sources x) (error x)
    (attemptingAutoplay x) (autoplayError x) (adStarted x) (adsLoaded x)
    (adCuePoints x) (playedPreroll x).
Definition set_canLoadPoster (v : bool) (x : MediaState) : MediaState :=
  Build_MediaState (paused x) (playing x) (seeking x) (waiting x) (ended x)
    (started x) (currentTime x) (duration x) (volume x) (muted x) (played x)
    (buffered x) (bufferedAmount x) (seekable x) (seekableAmount x)
    (fullscreen x) (canLoad x) v (canFullscreen x) (canPlay x) (viewType x)
    (mediaType x) (live x) (source x) (sources x) (error x)
    (attemptingAutoplay x) (autoplayError x) (adStarted x) (adsLoaded x)
    (adCuePoints x) (playedPreroll x).
Definition set_canFullscreen (v : bool) (x : MediaState) : MediaState :=
  Build_MediaState (paused x) (playing x) (seeking x) (waiting x) (ended x)
    (started x) (currentTime x) (duration x) (volume x) (muted x) (played x)
    (buffered x) (bufferedAmount x) (seekable x) (seekableAmount x)
    (fullscreen x) (canLoad x) (canLoadPoster x) v (canPlay x) (viewType x)
    (mediaType x) (live x) (source x) (sources x) (error x)
    (attemptingAutoplay x) (autoplayError x) (adStarted x) (adsLoaded x)
    (adCuePoints x) (playedPreroll x).
Definition set_canPlay (v : bool) (x : MediaState) : MediaState :=
  Build_MediaState (paused x) (playing x) (seeking x) (waiting x) (ended x)
    (started x) (currentTime x) (duration x) (volume x) (muted x) (played x)
    (buffered x) (bufferedAmount x) (seekable x) (seekableAmount x)
    (fullscreen x) (canLoad x) (canLoadPoster x) (canFullscreen x) v
    (viewType x) (mediaType x) (live x) (source x) (sources x) (error x)
    (attemptingAutoplay x) (autoplayError x) (adStarted x) (adsLoaded x)
    (adCuePoints x) (playedPreroll x).
Definition set_viewType (v : string) (x : MediaState) : MediaState :=
  Build_MediaState (paused x) (playing x) (seeking x) (waiting x) (ended x)
    (started x) (currentTime x) (duration x) (volume x) (muted x) (played x)
    (buffered x) (bufferedAmount x) (seekable x) (seekableAmount x)
    (fullscreen x) (canLoad x) (canLoadPoster x) (canFullscreen x) (canPlay x)
    v (mediaType x) (live x) (source x) (sources x) (error x)
    (attemptingAutoplay x) (autoplayError x) (adStarted x) (adsLoaded x)
    (adCuePoints x) (playedPreroll x).
Definition set_mediaType (v : string) (x : MediaState) : MediaState :=
  Build_MediaState (paused x) (playing x) (seeking x) (waiting x) (ended x)
    (started x) (currentTime x) (duration x) (volume x) (muted x) (played x)
    (buffered x) (bufferedAmount x) (seekable x) (seekableAmount x)
    (fullscreen x) (canLoad x) (canLoadPoster x) (canFullscreen x) (canPlay x)
    (viewType x) v (live x) (source x) (sources x) (error x)
    (attemptingAutoplay x) (autoplayError x) (adStarted x) (adsLoaded x)
    (adCuePoints x) (playedPreroll x).
Definition set_live (v : bool) (x : MediaState) : MediaState :=
  Build_MediaState (paused x) (playing x) (seeking x) (waiting x) (ended x)
    (started x) (currentTime x) (duration x) (volume x) (muted x) (played x)
    (buffered x) (bufferedAmount x) (seekable x) (seekableAmount x)
    (fullscreen x) (canLoad x) (canLoadPoster x) (canFullscreen x) (canPlay x)
    (viewType x) (mediaType x) v (source x) (sources x) (error x)
    (attemptingAutoplay x) (autoplayError x) (adStarted x) (adsLoaded x)
    (adCuePoints x) (playedPreroll x).
Definition set_source (v : string) (x : MediaState) : MediaState :=
  Build_MediaState (paused x) (playing x) (seeking x) (waiting x) (ended x)
    (started x) (currentTime x) (duration x) (volume x) (muted x) (played x)
    (buffered x) (bufferedAmount x) (seekable x) (seekableAmount x)
    (fullscreen x) (canLoad x) (canLoadPoster x) (canFullscreen x) (canPlay x)
    (viewType x) (mediaType x) (live x) v (sources x) (error x)
    (attemptingAutoplay x) (autoplayError x) (adStarted x) (adsLoaded x)
    (adCuePoints x) (playedPreroll x).
Definition set_sources (v : list string) (x : MediaState) : MediaState :=
  Build_MediaState (paused x) (playing x) (seeking x) (waiting x) (ended x)
    (started x) (currentTime x) (duration x) (volume x) (muted x) (played x)
    (buffered x) (bufferedAmount x) (seekable x) (seekableAmount x)
    (fullscreen x) (canLoad x) (canLoadPoster x) (canFullscreen x) (canPlay x)
    (viewType x) (mediaType x) (live x) (source x) v (error x)
    (attemptingAutoplay x) (autoplayError x) (adStarted x) (adsLoaded x)
    (adCuePoints x) (playedPreroll x).
Definition set_error (v : option Thrown) (x : MediaState) : MediaState :=
  Build_MediaState (paused x) (playing x) (seeking x) (waiting x) (ended x)
    (started x) (currentTime x) (duration x) (volume x) (muted x) (played x)
    (buffered x) (bufferedAmount x) (seekable x) (seekableAmount x)
    (fullscreen x) (canLoad x) (canLoadPoster x) (canFullscreen x) (canPlay x)
    (viewType x) (mediaType x) (live x) (source x) (sources x) v
    (attemptingAutoplay x) (autoplayError x) (adStarted x) (adsLoaded x)
    (adCuePoints x) (playedPreroll x).
Definition set_attemptingAutoplay (v : bool) (x : MediaState) : MediaState :=
  Build_MediaState (paused x) (playing x) (seeking x) (waiting x) (ended x)
    (started x) (currentTime x) (duration x) (volume x) (muted x) (played x)
    (buffered x) (bufferedAmount x) (seekable x) (seekableAmount x)
    (fullscreen x) (canLoad x) (canLoadPoster x) (canFullscreen x) (canPlay x)
    (viewType x) (mediaType x) (live x) (source x) (sources x) (error x) v
    (autoplayError x) (adStarted x) (adsLoaded x) (adCuePoints x)
    (playedPreroll x).
Definition set_autoplayError (v : option Thrown) (x : MediaState) : MediaState :=
  Build_MediaState (paused x) (playing x) (seeking x) (waiting x) (ended x)
    (started x) (currentTime x) (duration x) (volume x) (muted x) (played x)
    (buffered x) (bufferedAmount x) (seekable x) (seekableAmount x)
    (fullscreen x) (canLoad x) (canLoadPoster x) (canFullscreen x) (canPlay x)
    (viewType x) (mediaType x) (live x) (source x) (sources x) (error x)
    (attemptingAutoplay x) v (adStarted x) (adsLoaded x) (adCuePoints x)
    (playedPreroll x).
Definition set_adStarted (v : bool) (x : MediaState) : MediaState :=
  Build_MediaState (paused x) (playing x) (seeking x) (waiting x) (ended x)
    (started x) (currentTime x) (duration x) (volume x) (muted x) (played x)
    (buffered x) (bufferedAmount x) (seekable x) (seekableAmount x)
    (fullscreen x) (canLoad x) (canLoadPoster x) (canFullscreen x) (canPlay x)
    (viewType x) (mediaType x) (live x) (source x) (sources x) (error x)
    (attemptingAutoplay x) (autoplayError x) v (adsLoaded x) (adCuePoints x)
    (playedPreroll x).
Definition set_adsLoaded (v : bool) (x : MediaState) : MediaState :=
  Build_MediaState (paused x) (playing x) (seeking x) (waiting x) (ended x)
    (started x) (currentTime x) (duration x) (volume x) (muted x) (played x)
    (buffered x) (bufferedAmount x) (seekable x) (seekableAmount x)
    (fullscreen x) (canLoad x) (canLoadPoster x) (canFullscreen x) (canPlay x)
    (viewType x) (mediaType x) (live x) (source x) (sources x) (error x)
    (attemptingAutoplay x) (autoplayError x) (adStarted x) v (adCuePoints x)
    (playedPreroll x).
Definition set_adCuePoints (v : list float) (x : MediaState) : MediaState :=
  Build_MediaState (paused x) (playing x) (seeking x) (waiting x) (ended x)
    (started x) (currentTime x) (duration x) (volume x) (muted x) (played x)
    (buffered x) (bufferedAmount x) (seekable x) (seekableAmount x)
    (fullscreen x) (canLoad x) (canLoadPoster x) (canFullscreen x) (canPlay x)
    (viewType x) (mediaType x) (live x) (source x) (sources x) (error x)
    (attemptingAutoplay x) (autoplayError x) (adStarted x) (adsLoaded x) v
    (playedPreroll x).
Definition set_playedPreroll (v : bool) (x : MediaState) : MediaState :=
  Build_MediaState (paused x) (playing x) (seeking x) (waiting x) (ended x)
    (started x) (currentTime x) (duration x) (volume x) (muted x) (played x)
    (buffered x) (bufferedAmount x) (seekable x) (seekableAmount x)
    (fullscreen x) (canLoad x) (canLoadPoster x) (canFullscreen x) (canPlay x)
    (viewType x) (mediaType x) (live x) (source x) (sources x) (error x)
    (attemptingAutoplay x) (autoplayError x) (adStarted x) (adsLoaded x)
    (adCuePoints x) v.

End Media.

(** ** Idle detector ([useMediaUser]) *)

Module User.

(** [IDLE_EVENTS]. *)
Inductive IdleEventType : Type :=
| pointerdown
| pointermove
| focus
| keydown.

Record InputEvent : Type := {
  input_type : IdleEventType;
  input_id : nat
}.

(** The closure of [useMediaUser]: the observables [$idle] ([idling]) and
    [$paused], the locals [delay], [triggerEvent] and [idleTimeout] (the
    pending timer: its deadline and the event its callback captured), the
    clock in milliseconds, and the [vds-user-idle-change] events dispatched
    so far as (detail, triggerEvent). *)
Record MediaUser : Type := Build_MediaUser {
  idling : bool;
  paused : bool;
  delay : Z;
  triggerEvent : option InputEvent;
  idleTimeout : option (Z * InputEvent);
  clock : Z;
  dispatched : list (bool * option InputEvent)
}.

Definition set_idling (v : bool) (x : MediaUser) : MediaUser :=
  Build_MediaUser v (paused x) (delay x) (triggerEvent x) (idleTimeout x)
    (clock x) (dispatched x).
Definition set_paused (v : bool) (x : MediaUser) : MediaUser :=
  Build_MediaUser (idling x) v (delay x) (triggerEvent x) (idleTimeout x)
    (clock x) (dispatched x).
Definition set_delay (v : Z) (x : MediaUser) : MediaUser :=
  Build_MediaUser (idling x) (paused x) v (triggerEvent x) (idleTimeout x)
    (clock x) (dispatched x).
Definition set_triggerEvent (v : option InputEvent) (x : MediaUser) : MediaUser :=
  Build_MediaUser (idling x) (paused x) (delay x) v (idleTimeout x) (clock x)
    (dispatched x).
Definition set_idleTimeout (v : option (Z * InputEvent)) (x : MediaUser) : MediaUser :=
  Build_MediaUser (idling x) (paused x) (delay x) (triggerEvent x) v (clock x)
    (dispatched x).
Definition set_clock (v : Z) (x : MediaUser) : MediaUser :=
  Build_MediaUser (idling x) (paused x) (delay x) (triggerEvent x)
    (idleTimeout x) v (dispatched x).
Definition set_dispatched (v : list (bool * option InputEvent)) (x : MediaUser) : MediaUser :=
  Build_MediaUser (idling x) (paused x) (delay x) (triggerEvent x)
    (idleTimeout x) (clock x) v.

Definition useMediaUser : MediaUser :=
  {| idling := false; paused := false; delay := 2000;
     triggerEvent := None; idleTimeout := None; clock := 0;
     dispatched := [] |}.

(** The effect on [$idle]: [clearTimeout], [dispatchIdleChange], then
    [triggerEvent = undefined]. *)
Definition effectIdle (u : MediaUser) : MediaUser :=
  let u := set_idleTimeout None u in
  let u := set_dispatched (dispatched u ++ [(idling u, triggerEvent u)]) u in
  set_triggerEvent None u.

(** [$idle.set(v)]: observers run only when the value changes. *)
Definition idle_set (v : bool) (u : MediaUser) : MediaUser :=
  if Bool.eqb (idling u) v then u else effectIdle (set_idling v u).

(** The effect on [$paused]. *)
Definition effectPaused (u : MediaUser) : MediaUser :=
  if paused u then idle_set true (set_triggerEvent None u) else u.

(** [$paused.set(v)], also the [idle.paused] setter. *)
Definition paused_set (v : bool) (u : MediaUser) : MediaUser :=
  if Bool.eqb (paused u) v then u else effectPaused (set_paused v u).

(** The effect on [$media.paused], once the host is connected. *)
Definition effectMediaPaused (mediaPaused : bool) (u : MediaUser) : MediaUser :=
  if mediaPaused then paused_set true u else u.

(** The first run of that effect, in the body of [useMediaUser]: the two
    effects of [onConnect] do not exist yet. *)
Definition setup (mediaPaused : bool) (u : MediaUser) : MediaUser :=
  if mediaPaused then set_paused true u else u.

(** [onConnect]: the first run of the effect on [$paused], before the
    effect on [$idle] exists, and then the first run of the latter. *)
Definition onConnect (u : MediaUser) : MediaUser :=
  let u := if paused u then set_idling true (set_triggerEvent None u) else u in
  effectIdle u.

(** The disconnect callback returned from [onConnect]. *)
Definition onDisconnect (u : MediaUser) : MediaUser :=
  idle_set true (set_triggerEvent None u).

(** The callback handed to [setTimeout] by [handleIdleChange]. *)
Definition idleTimerCallback (event : InputEvent) (u : MediaUser) : MediaUser :=
  idle_set false (set_triggerEvent (Some event) u).

(** [handleIdleChange(event)]: a negative delay is a delay of 0 for
    [setTimeout]. *)
Definition handleIdleChange (event : InputEvent) (u : MediaUser) : MediaUser :=
  if paused u then u
  else set_idleTimeout (Some (clock u + Z.max 0 (delay u), event)%Z) u.

(** [ms] milliseconds pass with no input; a timer whose deadline is
    reached runs its callback, once. *)
Definition elapse (ms : Z) (u : MediaUser) : MediaUser :=
  let u := set_clock (clock u + ms)%Z u in
  match idleTimeout u with
  | Some (deadline, event) =>
      if (deadline <=? clock u)%Z
      then idleTimerCallback event (set_idleTimeout None u)
      else u
  | None => u
  end.

End User.

(** ** Provider, adapters and the effect trace *)

Record FullscreenAdapter : Type := {
  fs_supported : bool;
  fs_active : bool
}.

Record ScreenOrientationAdapter : Type := {
  so_supported : bool;
  so_locked : bool
}.

(** The attached provider: the properties the request manager writes. *)
Record Provider : Type := {
  provider_muted : bool;
  provider_volume : float;
  provider_currentTime : float;
  provider_fullscreen : option FullscreenAdapter
}.

Definition provider_set_muted (v : bool) (p : Provider) : Provider :=
  {| provider_muted := v; provider_volume := provider_volume p;
     provider_currentTime := provider_currentTime p;
     provider_fullscreen := provider_fullscreen p |}.

Definition provider_set_volume (v : float) (p : Provider) : Provider :=
  {| provider_muted := provider_muted p; provider_volume := v;
     provider_currentTime := provider_currentTime p;
     provider_fullscreen := provider_fullscreen p |}.

Definition provider_set_currentTime (v : float) (p : Provider) : Provider :=
  {| provider_muted := provider_muted p; provider_volume := provider_volume p;
     provider_currentTime := v;
     provider_fullscreen := provider_fullscreen p |}.

(** What a handler does to its collaborators, in order. *)
Inductive Effect : Type :=
| Enqueue (category : string) (event : RequestEvent)
| Serve (category : string) (event : RequestEvent)
| Delete (category : string)
| ResetQueue
| SetMuted (v : bool)
| SetVolume (v : float)
| SetCurrentTime (v : float)
| CallPlay
| CallPause
| CallFullscreenEnter
| CallFullscreenExit
| CallOrientationLock (lockType : string)
| CallOrientationUnlock
| Handle (event : MediaEvent)
| Dispatch (event : MediaEvent)
| LogError (label : string) (e : Thrown)
| RemotePlay
| RemotePause
| AdsManagerResize (bottomMargin : Z)
| AdsLoaderContentComplete
| AdsManagerDestroy
| AdsLoaderDestroy.

(** ** Ad session *)

(** What the SDK reports about an ad. *)
Record Ad : Type := {
  isLinear : bool;
  getDuration : float
}.

Inductive AdEventType : Type :=
| adBuffering
| start
| adProgress
| complete
| contentPauseRequested
| contentResumeRequested
| loaded
| click
| skip
| linearChanged.

(** An SDK event: its type, [getAd()], its identity, and what
    [adsManager.getRemainingTime()] answers while it is handled. *)
Record AdEvent : Type := {
  ad_type : AdEventType;
  getAd : option Ad;
  ad_id : nat;
  getRemainingTime : float
}.

(** The fields of [AdsController] its event handlers read and write. *)
Record AdsController : Type := {
  previousPlaybackPosition : float;
  previousPlayedTimeranges : option TimeRanges;
  playingNonLinear : bool;
  adsManager : bool;
  adsLoader : bool
}.

Definition set_previousPlaybackPosition (v : float) (a : AdsController)
  : AdsController :=
  {| previousPlaybackPosition := v;
     previousPlayedTimeranges := previousPlayedTimeranges a;
     playingNonLinear := playingNonLinear a;
     adsManager := adsManager a; adsLoader := adsLoader a |}.

Definition set_previousPlayedTimeranges (v : option TimeRanges)
    (a : AdsController) : AdsController :=
  {| previousPlaybackPosition := previousPlaybackPosition a;
     previousPlayedTimeranges := v;
     playingNonLinear := playingNonLinear a;
     adsManager := adsManager a; adsLoader := adsLoader a |}.

Definition set_playingNonLinear (v : bool) (a : AdsController)
  : AdsController :=
  {| previousPlaybackPosition := previousPlaybackPosition a;
     previousPlayedTimeranges := previousPlayedTimeranges a;
     playingNonLinear := v;
     adsManager := adsManager a; adsLoader := adsLoader a |}.

Definition set_adsManager (v : bool) (a : AdsController) : AdsController :=
  {| previousPlaybackPosition := previousPlaybackPosition a;
     previousPlayedTimeranges := previousPlayedTimeranges a;
     playingNonLinear := playingNonLinear a;
     adsManager := v; adsLoader := adsLoader a |}.

Definition set_adsLoader (v : bool) (a : AdsController) : AdsController :=
  {| previousPlaybackPosition := previousPlaybackPosition a;
     previousPlayedTimeranges := previousPlayedTimeranges a;
     playingNonLinear := playingNonLinear a;
     adsManager := adsManager a; adsLoader := v |}.

(** The initial values of the controller's signals. *)
Definition newAdsController : AdsController :=
  {| previousPlaybackPosition := 0%float;
     previousPlayedTimeranges := None;
     playingNonLinear := false;
     adsManager := false; adsLoader := false |}.

(** ** The session: store, request context and state manager closure *)

Import Media.

Record World : Type := Build_World {
  media : MediaState;
  provider : option Provider;
  withRequestManager : bool;
  queue : gmap string RequestEvent;
  isSeeking : bool;
  isLooping : bool;
  isReplay : bool;
  trackedEvents : gmap string EventRef;
  skipInitialSrcChange : bool;
  attachedCanLoadListeners : bool;
  attachedLoadStartListeners : bool;
  attachedCanPlayListeners : bool;
  firingWaiting : bool;
  connected : bool;
  lastWaitingEvent : option EventRef;
  waitingTimer : bool;
  resetTimers : nat;
  loopFrames : nat;
  ariaBusy : option string;
  nextEventId : nat;
  user : User.MediaUser;
  fullscreenAdapter : FullscreenAdapter;
  orientation : ScreenOrientationAdapter;
  fullscreenOrientation : option string;
  trace : list Effect
}.

Definition set_media (v : MediaState) (x : World) : World :=
  Build_World v (provider x) (withRequestManager x) (queue x) (isSeeking x)
    (isLooping x) (isReplay x) (trackedEvents x) (skipInitialSrcChange x)
    (attachedCanLoadListeners x) (attachedLoadStartListeners x)
    (attachedCanPlayListeners x) (firingWaiting x) (connected x)
    (lastWaitingEvent x) (waitingTimer x) (resetTimers x) (loopFrames x)
    (ariaBusy x) (nextEventId x) (user x) (fullscreenAdapter x)
    (orientation x) (fullscreenOrientation x) (trace x).
Definition set_provider (v : option Provider) (x : World) : World :=
  Build_World (media x) v (withRequestManager x) (queue x) (isSeeking x)
    (isLooping x) (isReplay x) (trackedEvents x) (skipInitialSrcChange x)
    (attachedCanLoadListeners x) (attachedLoadStartListeners x)
    (attachedCanPlayListeners x) (firingWaiting x) (connected x)
    (lastWaitingEvent x) (waitingTimer x) (resetTimers x) (loopFrames x)
    (ariaBusy x) (nextEventId x) (user x) (fullscreenAdapter x)
    (orientation x) (fullscreenOrientation x) (trace x).
Definition set_withRequestManager (v : bool) (x : World) : World :=
  Build_World (media x) (provider x) v (queue x) (isSeeking x) (isLooping x)
    (isReplay x) (trackedEvents x) (skipInitialSrcChange x)
    (attachedCanLoadListeners x) (attachedLoadStartListeners x)
    (attachedCanPlayListeners x) (firingWaiting x) (connected x)
    (lastWaitingEvent x) (waitingTimer x) (resetTimers x) (loopFrames x)
    (ariaBusy x) (nextEventId x) (user x) (fullscreenAdapter x)
    (orientation x) (fullscreenOrientation x) (trace x).
Definition set_queue (v : gmap string RequestEvent) (x : World) : World :=
  Build_World (media x) (provider x) (withRequestManager x) v (isSeeking x)
    (isLooping x) (isReplay x) (trackedEvents x) (skipInitialSrcChange x)
    (attachedCanLoadListeners x) (attachedLoadStartListeners x)
    (attachedCanPlayListeners x) (firingWaiting x) (connected x)
    (lastWaitingEvent x) (waitingTimer x) (resetTimers x) (loopFrames x)
    (ariaBusy x) (nextEventId x) (user x) (fullscreenAdapter x)
    (orientation x) (fullscreenOrientation x) (trace x).
Definition set_isSeeking (v : bool) (x : World) : World :=
  Build_World (media x) (provider x) (withRequestManager x) (queue x) v
    (isLooping x) (isReplay x) (trackedEvents x) (skipInitialSrcChange x)
    (attachedCanLoadListeners x) (attachedLoadStartListeners x)
    (attachedCanPlayListeners x) (firingWaiting x) (connected x)
    (lastWaitingEvent x) (waitingTimer x) (resetTimers x) (loopFrames x)
    (ariaBusy x) (nextEventId x) (user x) (fullscreenAdapter x)
    (orientation x) (fullscreenOrientation x) (trace x).
Definition set_isLooping (v : bool) (x : World) : World :=
  Build_World (media x) (provider x) (withRequestManager x) (queue x)
    (isSeeking x) v (isReplay x) (trackedEvents x) (skipInitialSrcChange x)
    (attachedCanLoadListeners x) (attachedLoadStartListeners x)
    (attachedCanPlayListeners x) (firingWaiting x) (connected x)
    (lastWaitingEvent x) (waitingTimer x) (resetTimers x) (loopFrames x)
    (ariaBusy x) (nextEventId x) (user x) (fullscreenAdapter x)
    (orientation x) (fullscreenOrientation x) (trace x).
Definition set_isReplay (v : bool) (x : World) : World :=
  Build_World (media x) (provider x) (withRequestManager x) (queue x)
    (isSeeking x) (isLooping x) v (trackedEvents x) (skipInitialSrcChange x)
    (attachedCanLoadListeners x) (attachedLoadStartListeners x)
    (attachedCanPlayListeners x) (firingWaiting x) (connected x)
    (lastWaitingEvent x) (waitingTimer x) (resetTimers x) (loopFrames x)
    (ariaBusy x) (nextEventId x) (user x) (fullscreenAdapter x)
    (orientation x) (fullscreenOrientation x) (trace x).
Definition set_trackedEvents (v : gmap string EventRef) (x : World) : World :=
  Build_World (media x) (provider x) (withRequestManager x) (queue x)
    (isSeeking x) (isLooping x) (isReplay x) v (skipInitialSrcChange x)
    (attachedCanLoadListeners x) (attachedLoadStartListeners x)
    (attachedCanPlayListeners x) (firingWaiting x) (connected x)
    (lastWaitingEvent x) (waitingTimer x) (resetTimers x) (loopFrames x)
    (ariaBusy x) (nextEventId x) (user x) (fullscreenAdapter x)
    (orientation x) (fullscreenOrientation x) (trace x).
Definition set_skipInitialSrcChange (v : bool) (x : World) : World :=
  Build_World (media x) (provider x) (withRequestManager x) (queue x)
    (isSeeking x) (isLooping x) (isReplay x) (trackedEvents x) v
    (attachedCanLoadListeners x) (attachedLoadStartListeners x)
    (attachedCanPlayListeners x) (firingWaiting x) (connected x)
    (lastWaitingEvent x) (waitingTimer x) (resetTimers x) (loopFrames x)
    (ariaBusy x) (nextEventId x) (user x) (fullscreenAdapter x)
    (orientation x) (fullscreenOrientation x) (trace x).
Definition set_attachedCanLoadListeners (v : bool) (x : World) : World :=
  Build_World (media x) (provider x) (withRequestManager x) (queue x)
    (isSeeking x) (isLooping x) (isReplay x) (trackedEvents x)
    (skipInitialSrcChange x) v (attachedLoadStartListeners x)
    (attachedCanPlayListeners x) (firingWaiting x) (connected x)
    (lastWaitingEvent x) (waitingTimer x) (resetTimers x) (loopFrames x)
    (ariaBusy x) (nextEventId x) (user x) (fullscreenAdapter x)
    (orientation x) (fullscreenOrientation x) (trace x).
Definition set_attachedLoadStartListeners (v : bool) (x : World) : World :=
  Build_World (media x) (provider x) (withRequestManager x) (queue x)
    (isSeeking x) (isLooping x) (isReplay x) (trackedEvents x)
    (skipInitialSrcChange x) (attachedCanLoadListeners x) v
    (attachedCanPlayListeners x) (firingWaiting x) (connected x)
    (lastWaitingEvent x) (waitingTimer x) (resetTimers x) (loopFrames x)
    (ariaBusy x) (nextEventId x) (user x) (fullscreenAdapter x)
    (orientation x) (fullscreenOrientation x) (trace x).
Definition set_attachedCanPlayListeners (v : bool) (x : World) : World :=
  Build_World (media x) (provider x) (withRequestManager x) (queue x)
    (isSeeking x) (isLooping x) (isReplay x) (trackedEvents x)
    (skipInitialSrcChange x) (attachedCanLoadListeners x)
    (attachedLoadStartListeners x) v (firingWaiting x) (connected x)
    (lastWaitingEvent x) (waitingTimer x) (resetTimers x) (loopFrames x)
    (ariaBusy x) (nextEventId x) (user x) (fullscreenAdapter x)
    (orientation x) (fullscreenOrientation x) (trace x).
Definition set_firingWaiting (v : bool) (x : World) : World :=
  Build_World (media x) (provider x) (withRequestManager x) (queue x)
    (isSeeking x) (isLooping x) (isReplay x) (trackedEvents x)
    (skipInitialSrcChange x) (attachedCanLoadListeners x)
    (attachedLoadStartListeners x) (attachedCanPlayListeners x) v
    (connected x) (lastWaitingEvent x) (waitingTimer x) (resetTimers x)
    (loopFrames x) (ariaBusy x) (nextEventId x) (user x) (fullscreenAdapter x)
    (orientation x) (fullscreenOrientation x) (trace x).
Definition set_connected (v : bool) (x : World) : World :=
  Build_World (media x) (provider x) (withRequestManager x) (queue x)
    (isSeeking x) (isLooping x) (isReplay x) (trackedEvents x)
    (skipInitialSrcChange x) (attachedCanLoadListeners x)
    (attachedLoadStartListeners x) (attachedCanPlayListeners x)
    (firingWaiting x) v (lastWaitingEvent x) (waitingTimer x) (resetTimers x)
    (loopFrames x) (ariaBusy x) (nextEventId x) (user x) (fullscreenAdapter x)
    (orientation x) (fullscreenOrientation x) (trace x).
Definition set_lastWaitingEvent (v : option EventRef) (x : World) : World :=
  Build_World (media x) (provider x) (withRequestManager x) (queue x)
    (isSeeking x) (isLooping x) (isReplay x) (trackedEvents x)
    (skipInitialSrcChange x) (attachedCanLoadListeners x)
    (attachedLoadStartListeners x) (attachedCanPlayListeners x)
    (firingWaiting x) (connected x) v (waitingTimer x) (resetTimers x)
    (loopFrames x) (ariaBusy x) (nextEventId x) (user x) (fullscreenAdapter x)
    (orientation x) (fullscreenOrientation x) (trace x).
Definition set_waitingTimer (v : bool) (x : World) : World :=
  Build_World (media x) (provider x) (withRequestManager x) (queue x)
    (isSeeking x) (isLooping x) (isReplay x) (trackedEvents x)
    (skipInitialSrcChange x) (attachedCanLoadListeners x)
    (attachedLoadStartListeners x) (attachedCanPlayListeners x)
    (firingWaiting x) (connected x) (lastWaitingEvent x) v (resetTimers x)
    (loopFrames x) (ariaBusy x) (nextEventId x) (user x) (fullscreenAdapter x)
    (orientation x) (fullscreenOrientation x) (trace x).
Definition set_resetTimers (v : nat) (x : World) : World :=
  Build_World (media x) (provider x) (withRequestManager x) (queue x)
    (isSeeking x) (isLooping x) (isReplay x) (trackedEvents x)
    (skipInitialSrcChange x) (attachedCanLoadListeners x)
    (attachedLoadStartListeners x) (attachedCanPlayListeners x)
    (firingWaiting x) (connected x) (lastWaitingEvent x) (waitingTimer x) v
    (loopFrames x) (ariaBusy x) (nextEventId x) (user x) (fullscreenAdapter x)
    (orientation x) (fullscreenOrientation x) (trace x).
Definition set_loopFrames (v : nat) (x : World) : World :=
  Build_World (media x) (provider x) (withRequestManager x) (queue x)
    (isSeeking x) (isLooping x) (isReplay x) (trackedEvents x)
    (skipInitialSrcChange x) (attachedCanLoadListeners x)
    (attachedLoadStartListeners x) (attachedCanPlayListeners x)
    (firingWaiting x) (connected x) (lastWaitingEvent x) (waitingTimer x)
    (resetTimers x) v (ariaBusy x) (nextEventId x) (user x)
    (fullscreenAdapter x) (orientation x) (fullscreenOrientation x) (trace x).
Definition set_ariaBusy (v : option string) (x : World) : World :=
  Build_World (media x) (provider x) (withRequestManager x) (queue x)
    (isSeeking x) (isLooping x) (isReplay x) (trackedEvents x)
    (skipInitialSrcChange x) (attachedCanLoadListeners x)
    (attachedLoadStartListeners x) (attachedCanPlayListeners x)
    (firingWaiting x) (connected x) (lastWaitingEvent x) (waitingTimer x)
    (resetTimers x) (loopFrames x) v (nextEventId x) (user x)
    (fullscreenAdapter x) (orientation x) (fullscreenOrientation x) (trace x).
Definition set_nextEventId (v : nat) (x : World) : World :=
  Build_World (media x) (provider x) (withRequestManager x) (queue x)
    (isSeeking x) (isLooping x) (isReplay x) (trackedEvents x)
    (skipInitialSrcChange x) (attachedCanLoadListeners x)
    (attachedLoadStartListeners x) (attachedCanPlayListeners x)
    (firingWaiting x) (connected x) (lastWaitingEvent x) (waitingTimer x)
    (resetTimers x) (loopFrames x) (ariaBusy x) v (user x)
    (fullscreenAdapter x) (orientation x) (fullscreenOrientation x) (trace x).
Definition set_user (v : User.MediaUser) (x : World) : World :=
  Build_World (media x) (provider x) (withRequestManager x) (queue x)
    (isSeeking x) (isLooping x) (isReplay x) (trackedEvents x)
    (skipInitialSrcChange x) (attachedCanLoadListeners x)
    (attachedLoadStartListeners x) (attachedCanPlayListeners x)
    (firingWaiting x) (connected x) (lastWaitingEvent x) (waitingTimer x)
    (resetTimers x) (loopFrames x) (ariaBusy x) (nextEventId x) v
    (fullscreenAdapter x) (orientation x) (fullscreenOrientation x) (trace x).
Definition set_fullscreenAdapter (v : FullscreenAdapter) (x : World) : World :=
  Build_World (media x) (provider x) (withRequestManager x) (queue x)
    (isSeeking x) (isLooping x) (isReplay x) (trackedEvents x)
    (skipInitialSrcChange x) (attachedCanLoadListeners x)
    (attachedLoadStartListeners x) (attachedCanPlayListeners x)
    (firingWaiting x) (connected x) (lastWaitingEvent x) (waitingTimer x)
    (resetTimers x) (loopFrames x) (ariaBusy x) (nextEventId x) (user x) v
    (orientation x) (fullscreenOrientation x) (trace x).
Definition set_orientation (v : ScreenOrientationAdapter) (x : World) : World :=
  Build_World (media x) (provider x) (withRequestManager x) (queue x)
    (isSeeking x) (isLooping x) (isReplay x) (trackedEvents x)
    (skipInitialSrcChange x) (attachedCanLoadListeners x)
    (attachedLoadStartListeners x) (attachedCanPlayListeners x)
    (firingWaiting x) (connected x) (lastWaitingEvent x) (waitingTimer x)
    (resetTimers x) (loopFrames x) (ariaBusy x) (nextEventId x) (user x)
    (fullscreenAdapter x) v (fullscreenOrientation x) (trace x).
Definition set_fullscreenOrientation (v : option string) (x : World) : World :=
  Build_World (media x) (provider x) (withRequestManager x) (queue x)
    (isSeeking x) (isLooping x) (isReplay x) (trackedEvents x)
    (skipInitialSrcChange x) (attachedCanLoadListeners x)
    (attachedLoadStartListeners x) (attachedCanPlayListeners x)
    (firingWaiting x) (connected x) (lastWaitingEvent x) (waitingTimer x)
    (resetTimers x) (loopFrames x) (ariaBusy x) (nextEventId x) (user x)
    (fullscreenAdapter x) (orientation x) v (trace x).
Definition set_trace (v : list Effect) (x : World) : World :=
  Build_World (media x) (provider x) (withRequestManager x) (queue x)
    (isSeeking x) (isLooping x) (isReplay x) (trackedEvents x)
    (skipInitialSrcChange x) (attachedCanLoadListeners x)
    (attachedLoadStartListeners x) (attachedCanPlayListeners x)
    (firingWaiting x) (connected x) (lastWaitingEvent x) (waitingTimer x)
    (resetTimers x) (loopFrames x) (ariaBusy x) (nextEventId x) (user x)
    (fullscreenAdapter x) (orientation x) (fullscreenOrientation x) v.

(** How the awaited calls of one request settle. *)
Record Outcomes : Type := {
  playResult : Settled;
  pauseResult : Settled;
  lockResult : Settled;
  unlockResult : Settled;
  enterResult : Settled;
  exitResult : Settled
}.

(** ** Reading the trace *)

(** The records enqueued under a category, oldest first. *)
Definition enqueued (category : string) (tr : list Effect) : list RequestEvent :=
  flat_map (fun e => match e with
                     | Enqueue c r => if String.eqb c category then [r] else []
                     | _ => []
                     end) tr.

(** The events handed to the state manager's [handle], oldest first. *)
Definition handled (tr : list Effect) : list MediaEvent :=
  flat_map (fun e => match e with Handle ev => [ev] | _ => [] end) tr.

(** The events dispatched on the provider, oldest first. *)
Definition dispatchedOnProvider (tr : list Effect) : list MediaEvent :=
  flat_map (fun e => match e with Dispatch ev => [ev] | _ => [] end) tr.

(** ** Concrete sessions

    Closed values on which the model is evaluated. *)

Definition mediaAtRest : MediaState :=
  {| paused := true; playing := false; seeking := false; waiting := false;
     ended := false; started := false;
     currentTime := 0%float; duration := 0%float;
     volume := 1%float; muted := false;
     played := []; buffered := []; bufferedAmount := 0%float;
     seekable := []; seekableAmount := 0%float;
     fullscreen := false; canLoad := false; canLoadPoster := true;
     canFullscreen := false; canPlay := false;
     viewType := "unknown"; mediaType := "unknown"; live := false;
     source := ""; sources := [];
     error := None; attemptingAutoplay := false; autoplayError := None;
     adStarted := false; adsLoaded := false; adCuePoints := [];
     playedPreroll := false |}.

(** A soft reset in the sense of the data model: playback fields go back
    to their values at rest, the source, the load and view settings and
    [volume]/[muted] are kept.  It instantiates the parameter
    [softResetMediaState] where a closed term is needed. *)
Definition softResetAtRest (m : MediaState) : MediaState :=
  set_volume (volume m)
    (set_muted (muted m)
       (set_source (source m)
          (set_sources (sources m)
             (set_canLoad (canLoad m)
                (set_canFullscreen (canFullscreen m)
                   (set_viewType (viewType m) mediaAtRest)))))).

(** The end of the last seekable range, as [onProgress] computes
    [seekableAmount]; it instantiates the parameter [seekableEnd]. *)
Definition seekableEndOfRanges (m : MediaState) : float := lastEnd (seekable m).

(** A provider whose properties agree with the store. *)
Definition aProvider (m : MediaState) : Provider :=
  {| provider_muted := muted m; provider_volume := volume m;
     provider_currentTime := currentTime m;
     provider_fullscreen := Some {| fs_supported := true; fs_active := false |} |}.

(** A session with a provider attached and all listener groups installed. *)
Definition aSession (m : MediaState) : World :=
  {| media := m;
     provider := Some (aProvider m);
     withRequestManager := true;
     queue := ∅;
     isSeeking := false; isLooping := false; isReplay := false;
     trackedEvents := ∅;
     skipInitialSrcChange := true;
     attachedCanLoadListeners := true;
     attachedLoadStartListeners := true;
     attachedCanPlayListeners := true;
     firingWaiting := false; connected := true;
     lastWaitingEvent := None;
     waitingTimer := false; resetTimers := 0; loopFrames := 0;
     ariaBusy := None;
     nextEventId := 1000;
     user := User.useMediaUser;
     fullscreenAdapter := {| fs_supported := true; fs_active := false |};
     orientation := {| so_supported := false; so_locked := false |};
     fullscreenOrientation := None;
     trace := [] |}.

Definition aRequest (r : MediaRequest) (id : nat) : RequestEvent :=
  {| request := r; request_id := id |}.

Definition anEvent (k : MediaEventKind) (id : nat) : MediaEvent :=
  {| kind := k; event_id := id; triggerChain := []; requestEvent := None;
     stopped := false; fromProvider := true |}.

(** Content playing at 42s of 100s, seekable up to 80s. *)
Definition contentAt42 : MediaState :=
  set_paused false
    (set_playing true
       (set_started true
          (set_canPlay true
             (set_currentTime 42%float
                (set_duration 100%float
                   (set_played [(0%float, 42%float)]
                      (set_seekable [(0%float, 80%float)]
                         (set_seekableAmount 80%float mediaAtRest)))))))).

(** A linear ad of 30s: its start, a progress report with 10s left, its
    completion and a skip. *)
Definition aLinearAd : Ad := {| isLinear := true; getDuration := 30%float |}.

Definition anAdEvent (t : AdEventType) (id : nat) (remaining : float) : AdEvent :=
  {| ad_type := t; getAd := Some aLinearAd; ad_id := id;
     getRemainingTime := remaining |}.

Definition aPointerMove : User.InputEvent :=
  {| User.input_type := User.pointermove; User.input_id := 1 |}.

Definition rejectEverything (e : Thrown) : Outcomes :=
  {| playResult := Rejected e; pauseResult := Rejected e;
     lockResult := Rejected e; unlockResult := Rejected e;
     enterResult := Rejected e; exitResult := Rejected e |}.

(** ** State manager ([useMediaStateManager]) *)

Section Player.

(** [softResetMediaState] of the store module, which is not among the
    sources: taken as a parameter. *)
Variable softResetMediaState : MediaState → MediaState.

(** The store's computed [seekableEnd], declared in the same absent
    module: taken as a parameter. *)
Variable seekableEnd : MediaState → float.

(** The build flag [__DEV__], and whether the context holds a [logger]. *)
Variable DEV : bool.
Variable hasLogger : bool.

Definition Handler : Type := MediaEvent → World → World * MediaEvent.

(** A write to a field of the store. *)
Definition upd (f : MediaState → MediaState) (w : World) : World :=
  set_media (f (media w)) w.

Definition emit (e : Effect) (w : World) : World :=
  set_trace (trace w ++ [e]) w.

(** *** Request queue *)

(** Modelled from the spec: the [Queue] class of [foundation/queue] is not
    among the sources.  One slot per category: [enqueue] stores or replaces
    the record, [serve] hands a present record to the callback and then
    removes it, [delete] removes without serving, [reset] clears all. *)
Definition _enqueue (category : string) (event : RequestEvent) (w : World)
  : World :=
  emit (Enqueue category event)
       (set_queue (<[category := event]> (queue w)) w).

Definition _serve (category : string)
    (callback : RequestEvent → MediaEvent → MediaEvent)
    (event : MediaEvent) (w : World) : World * MediaEvent :=
  match queue w !! category with
  | Some r =>
      (emit (Serve category r) (set_queue (delete category (queue w)) w),
       callback r event)
  | None => (w, event)
  end.

Definition _delete (category : string) (w : World) : World :=
  emit (Delete category) (set_queue (delete category (queue w)) w).

Definition _reset (w : World) : World :=
  emit ResetQueue (set_queue ∅ w).

(** *** Flags read through the optional request manager *)

Definition looping (w : World) : bool := withRequestManager w && isLooping w.
Definition replaying (w : World) : bool := withRequestManager w && isReplay w.
Definition seekingRequest (w : World) : bool :=
  withRequestManager w && isSeeking w.

Definition isLooping_set (v : bool) (w : World) : World :=
  if withRequestManager w then set_isLooping v w else w.
Definition isReplay_set (v : bool) (w : World) : World :=
  if withRequestManager w then set_isReplay v w else w.

(** [dispatchEvent(provider, type, { triggerEvent })]. *)
Definition dispatchEvent (k : MediaEventKind) (trigger : option EventRef)
    (w : World) : World :=
  let event := createEvent k (nextEventId w) trigger in
  emit (Dispatch event) (set_nextEventId (S (nextEventId w)) w).

(** *** Tracking *)

Definition stopWaiting (w : World) : World :=
  let w := set_waitingTimer false w in            (* fireWaitingEvent?.cancel() *)
  upd (set_waiting false) w.

Definition resetTracking (w : World) : World :=
  let w := stopWaiting w in
  let w := isReplay_set false w in
  let w := isLooping_set false w in
  let w := set_firingWaiting false w in
  let w := set_lastWaitingEvent None w in
  set_trackedEvents ∅ w.

Definition tracked (type : string) (w : World) : option EventRef :=
  trackedEvents w !! type.

Definition trackEvent (callback : Handler) : Handler :=
  fun event w =>
    let w := set_trackedEvents
               (<[event_type (kind event) := ref_of event]> (trackedEvents w)) w in
    callback event w.

Definition satisfyMediaRequest (request : string) : Handler :=
  fun event w =>
    if withRequestManager w
    then _serve request
           (fun requestEvent event =>
              appendTriggerEvent (set_requestEvent requestEvent event)
                                 (Some (ref_of_request requestEvent)))
           event w
    else (w, event).

(** *** Handlers, in source order *)

Definition attachCanLoadEventListeners (w : World) : World :=
  if attachedCanLoadListeners w then w
  else set_attachedCanLoadListeners true w.

(** [detail.includes('live')]. *)
Definition includes_live (detail : string) : bool :=
  match String.index 0 "live" detail with
  | Some _ => true
  | None => false
  end.

Definition onMediaTypeChange (detail : string) : Handler :=
  fun event w =>
    let event := appendTriggerEvent event (tracked "vds-source-change" w) in
    let w := upd (set_mediaType detail) w in
    let w := upd (set_live (includes_live detail)) w in
    (w, event).

Definition onViewTypeChange (detail : string) : Handler :=
  fun event w => (upd (set_viewType detail) w, event).

Definition onCanLoad : Handler :=
  fun event w =>
    let w := upd (set_canLoad true) w in
    let w := attachCanLoadEventListeners w in
    satisfyMediaRequest "load" event w.

Definition onSourcesChange (detail : list string) : Handler :=
  fun event w => (upd (set_sources detail) w, event).

(** [$target()] is set whenever a provider is connected, so the
    [aria-busy] attribute is always written. *)
Definition onSourceChange (detail : string) : Handler :=
  fun event w =>
    let event := appendTriggerEvent event (tracked "vds-sources-change" w) in
    let w := upd (set_source detail) w in
    let w := set_ariaBusy (Some "true") w in
    (* Skip resets before first playback. *)
    if skipInitialSrcChange w then
      (set_skipInitialSrcChange false w, event)
    else
      let w := resetTracking w in
      let w := upd softResetMediaState w in
      let w := set_trackedEvents
                 (<[event_type (kind event) := ref_of event]> (trackedEvents w)) w in
      (w, event).

Definition attachLoadStartEventListeners (w : World) : World :=
  if attachedLoadStartListeners w then w
  else set_attachedLoadStartListeners true w.

Definition onAbort : Handler :=
  fun event w =>
    let event := appendTriggerEvent event (tracked "vds-source-change" w) in
    let event := appendTriggerEvent event (tracked "vds-can-load" w) in
    (w, event).

Definition onLoadStart : Handler :=
  fun event w =>
    let w := attachLoadStartEventListeners w in
    let event := appendTriggerEvent event (tracked "vds-source-change" w) in
    let event := appendTriggerEvent event (tracked "vds-can-load" w) in
    (w, event).

Definition onError (detail : Thrown) : Handler :=
  fun event w =>
    let w := upd (set_error (Some detail)) w in
    (w, appendTriggerEvent event (tracked "vds-abort" w)).

Definition onLoadedMetadata : Handler :=
  fun event w => (w, appendTriggerEvent event (tracked "vds-load-start" w)).

Definition onLoadedData : Handler :=
  fun event w => (w, appendTriggerEvent event (tracked "vds-load-start" w)).

Definition attachCanPlayListeners (w : World) : World :=
  if attachedCanPlayListeners w then w
  else set_attachedCanPlayListeners true w.

(** [event.triggerEvent?.type !== 'loadedmetadata']. *)
Definition notTriggeredByLoadedMetadata (event : MediaEvent) : bool :=
  match triggerChain event with
  | t :: _ => negb (String.eqb (ref_type t) "loadedmetadata")
  | [] => true
  end.

Definition onCanPlay (duration : float) : Handler :=
  fun event w =>
    let w := attachCanPlayListeners w in
    (* Avoid infinite chain - hls.js will not fire the canplay event. *)
    let event :=
      if notTriggeredByLoadedMetadata event
      then appendTriggerEvent event (tracked "vds-loaded-metadata" w)
      else event in
    let w := upd (set_canPlay true) w in
    let w := upd (set_duration duration) w in
    let w := set_ariaBusy (Some "false") w in
    (w, event).

Definition onCanPlayThrough (duration : float) : Handler :=
  fun event w =>
    let w := upd (set_canPlay true) w in
    let w := upd (set_duration duration) w in
    (w, appendTriggerEvent event (tracked "vds-can-play" w)).

Definition onDurationChange (detail : float) : Handler :=
  fun event w =>
    let duration := detail in
    let w := upd (set_duration
                    (if negb (is_nan duration) then duration else 0%float)) w in
    (w, event).

Definition onAutoplay : Handler :=
  fun event w =>
    let event := appendTriggerEvent event (tracked "vds-play" w) in
    let event := appendTriggerEvent event (tracked "vds-can-play" w) in
    (upd (set_autoplayError None) w, event).

Definition onAutoplayFail (detail : Thrown) : Handler :=
  fun event w =>
    let event := appendTriggerEvent event (tracked "vds-play-fail" w) in
    let event := appendTriggerEvent event (tracked "vds-can-play" w) in
    let w := upd (set_autoplayError (Some detail)) w in
    (resetTracking w, event).

Definition onPlay : Handler :=
  fun event w =>
    if looping w || negb (paused (media w)) then
      (w, stopImmediatePropagation event)
    else
      let event := appendTriggerEvent event (tracked "vds-waiting" w) in
      let '(w, event) := satisfyMediaRequest "play" event w in
      let w := upd (set_paused false) w in
      let w := upd (set_autoplayError None) w in
      if ended (media w) || replaying w then
        let w := isReplay_set false w in
        let w := upd (set_ended false) w in
        (dispatchEvent VdsReplay (Some (ref_of event)) w, event)
      else (w, event).

Definition onPlayFail : Handler :=
  fun event w =>
    let event := appendTriggerEvent event (tracked "vds-play" w) in
    let '(w, event) := satisfyMediaRequest "play" event w in
    let w := upd (set_paused true) w in
    let w := upd (set_playing false) w in
    (resetTracking w, event).

Definition onPlaying : Handler :=
  fun event w =>
    let playEvent := tracked "vds-play" w in
    let event :=
      match playEvent with
      | Some _ =>
          let event := appendTriggerEvent event (tracked "vds-waiting" w) in
          appendTriggerEvent event playEvent
      | None => appendTriggerEvent event (tracked "vds-seeked" w)
      end in
    let w := set_resetTimers (S (resetTimers w)) w in (* setTimeout(resetTracking, 0) *)
    let w := upd (set_paused false) w in
    let w := upd (set_playing true) w in
    let w := upd (set_seeking false) w in
    let w := upd (set_ended false) w in
    if looping w then
      (set_isLooping false w, stopImmediatePropagation event)
    else if negb (started (media w)) then
      let w := upd (set_started true) w in
      (dispatchEvent VdsStarted (Some (ref_of event)) w, event)
    else (w, event).

Definition onPause : Handler :=
  fun event w =>
    if looping w then (w, stopImmediatePropagation event)
    else
      let event := appendTriggerEvent event (tracked "vds-seeked" w) in
      let '(w, event) := satisfyMediaRequest "pause" event w in
      let w := upd (set_paused true) w in
      let w := upd (set_playing false) w in
      let w := upd (set_seeking false) w in
      (resetTracking w, event).

Definition onTimeUpdate (currentTime : float) (played : TimeRanges) : Handler :=
  fun event w =>
    let w := upd (set_currentTime currentTime) w in
    let w := upd (set_played played) w in
    let w := upd (set_waiting false) w in
    (w, event).

Definition onVolumeChange (volume : float) (muted : bool) : Handler :=
  fun event w =>
    let w := upd (set_volume volume) w in
    let w := upd (set_muted (muted || (volume =? 0)%float)) w in
    satisfyMediaRequest "volume" event w.

Definition onSeeking (detail : float) : Handler :=
  fun event w =>
    let w := upd (set_seeking true) w in
    let w := upd (set_currentTime detail) w in
    satisfyMediaRequest "seeking" event w.

Definition onSeeked (detail : float) : Handler :=
  fun event w =>
    if seekingRequest w then
      (upd (set_seeking true) w, stopImmediatePropagation event)
    else if seeking (media w) then
      let event := appendTriggerEvent event (tracked "vds-waiting" w) in
      let event := appendTriggerEvent event (tracked "vds-seeking" w) in
      let w := if paused (media w) then stopWaiting w else w in
      let w := upd (set_seeking false) w in
      let w := if negb (detail =? duration (media w))%float
               then upd (set_ended false) w else w in
      let w := upd (set_currentTime detail) w in
      satisfyMediaRequest "seeked" event w
    else (w, event).

(** The body debounced as [fireWaitingEvent] (300ms). *)
Definition fireWaitingEvent_body (w : World) : World :=
  match lastWaitingEvent w with
  | None => w
  | Some last =>
      let w := set_firingWaiting true w in
      let event := createEvent VdsWaiting (nextEventId w) (Some last) in
      let w := set_nextEventId (S (nextEventId w)) w in
      let w := set_trackedEvents
                 (<["vds-waiting" := ref_of event]> (trackedEvents w)) w in
      let w := upd (set_waiting true) w in
      let w := upd (set_playing false) w in
      (* provider?.dispatchEvent(event): the manager's own listener,
         [onWaiting], runs with [firingWaiting] set and returns at once. *)
      let w := if connected w then emit (Dispatch event) w else w in
      let w := set_lastWaitingEvent None w in
      set_firingWaiting false w
  end.

Definition onWaiting : Handler :=
  fun event w =>
    if firingWaiting w || seekingRequest w then (w, event)
    else
      let event := stopImmediatePropagation event in
      let w := set_lastWaitingEvent (Some (ref_of event)) w in
      (set_waitingTimer true w, event).                  (* fireWaitingEvent() *)

Definition onEnded : Handler :=
  fun event w =>
    if looping w then (w, stopImmediatePropagation event)
    else
      let w := upd (set_paused true) w in
      let w := upd (set_playing false) w in
      let w := upd (set_seeking false) w in
      let w := upd (set_ended true) w in
      (resetTracking w, event).

Definition onFullscreenChange (detail : bool) : Handler :=
  fun event w =>
    let w := upd (set_fullscreen detail) w in
    let '(w, event) := satisfyMediaRequest "fullscreen" event w in
    (* Forward event on media provider for any listeners. *)
    if negb (fromProvider event)
    then (dispatchEvent (VdsFullscreenChange detail) (Some (ref_of event)) w, event)
    else (w, event).

Definition onFullscreenError (detail : Thrown) : Handler :=
  fun event w =>
    let '(w, event) := satisfyMediaRequest "fullscreen" event w in
    if negb (fromProvider event)
    then (dispatchEvent (VdsFullscreenError detail) (Some (ref_of event)) w, event)
    else (w, event).

Definition onProgress (buffered seekable : TimeRanges) : Handler :=
  fun event w =>
    let bufferedAmount := lastEnd buffered in
    let seekableAmount := lastEnd seekable in
    let w := upd (set_buffered buffered) w in
    let w := upd (set_bufferedAmount bufferedAmount) w in
    let w := upd (set_seekable seekable) w in
    let w := upd (set_seekableAmount seekableAmount) w in
    (w, event).

(** *** Listener registration and dispatch *)

(** Where a listener is registered: on the provider while it is connected,
    on the fullscreen target, or in one of the three staged groups. *)
Inductive Tier : Type :=
| OnProvider
| OnTarget
| CanLoadTier
| LoadStartTier
| CanPlayTier.

Definition attached (t : Tier) (w : World) : bool :=
  match t with
  | OnProvider => connected w
  | OnTarget => true
  | CanLoadTier => attachedCanLoadListeners w
  | LoadStartTier => attachedLoadStartListeners w
  | CanPlayTier => attachedCanPlayListeners w
  end.

(** The [listenEvent] registrations for an event type, in registration
    order.  [vds-seeking] is registered behind a 150ms leading throttle:
    the events given to the model are the ones the throttle lets through. *)
Definition listeners (k : MediaEventKind) : list (Tier * Handler) :=
  match k with
  | VdsViewTypeChange d => [(OnProvider, onViewTypeChange d)]
  | VdsCanLoad => [(OnProvider, trackEvent onCanLoad)]
  | VdsSourcesChange d => [(OnProvider, trackEvent (onSourcesChange d))]
  | VdsSourceChange d => [(OnProvider, trackEvent (onSourceChange d))]
  | VdsMediaTypeChange d => [(CanLoadTier, onMediaTypeChange d)]
  | VdsLoadStart => [(CanLoadTier, trackEvent onLoadStart)]
  | VdsAbort => [(CanLoadTier, trackEvent onAbort)]
  | VdsError d => [(CanLoadTier, trackEvent (onError d))]
  | VdsLoadedMetadata => [(LoadStartTier, trackEvent onLoadedMetadata)]
  | VdsLoadedData => [(LoadStartTier, trackEvent onLoadedData)]
  | VdsCanPlay d => [(LoadStartTier, trackEvent (onCanPlay d))]
  | VdsCanPlayThrough d => [(LoadStartTier, onCanPlayThrough d)]
  | VdsDurationChange d =>
      [(LoadStartTier, onDurationChange d); (CanPlayTier, onDurationChange d)]
  | VdsProgress b s => [(LoadStartTier, onProgress b s)]
  | VdsAutoplay => [(CanPlayTier, trackEvent onAutoplay)]
  | VdsAutoplayFail d => [(CanPlayTier, trackEvent (onAutoplayFail d))]
  | VdsPause => [(CanPlayTier, trackEvent onPause)]
  | VdsPlay => [(CanPlayTier, trackEvent onPlay)]
  | VdsPlayFail _ _ => [(CanPlayTier, trackEvent onPlayFail)]
  | VdsPlaying => [(CanPlayTier, trackEvent onPlaying)]
  | VdsTimeUpdate t p => [(CanPlayTier, onTimeUpdate t p)]
  | VdsVolumeChange v m => [(CanPlayTier, onVolumeChange v m)]
  | VdsSeeking d => [(CanPlayTier, trackEvent (onSeeking d))]
  | VdsSeeked d => [(CanPlayTier, trackEvent (onSeeked d))]
  | VdsWaiting => [(CanPlayTier, onWaiting)]
  | VdsEnded => [(CanPlayTier, onEnded)]
  | VdsFullscreenChange d => [(OnTarget, onFullscreenChange d)]
  | VdsFullscreenError d => [(OnTarget, onFullscreenError d)]
  | VdsReplay | VdsStarted | VdsAdEnded => []
  end.

(** The event visits the attached listeners in order until one of them
    stops its propagation. *)
Fixpoint runListeners (ls : list (Tier * Handler)) (event : MediaEvent)
    (w : World) : World * MediaEvent :=
  match ls with
  | [] => (w, event)
  | (t, h) :: rest =>
      if stopped event then (w, event)
      else if attached t w then
        let '(w, event) := h event w in runListeners rest event w
      else runListeners rest event w
  end.

(** An event fired by the provider (or by the fullscreen target). *)
Definition handle (event : MediaEvent) (w : World) : World * MediaEvent :=
  runListeners (listeners (kind event)) event w.

(** The effect on [$connectedMediaProvider]. *)
Definition onProviderConnect (p : Provider) (w : World) : World :=
  let w := set_provider (Some p) w in
  set_connected true w.

Definition onProviderDisconnect (w : World) : World :=
  let w := set_provider None w in
  if connected w then
    let w := resetTracking w in
    let w := upd softResetMediaState w in
    (* disposal.empty() removes the staged listener groups *)
    let w := if withRequestManager w then _reset w else w in
    let w := set_skipInitialSrcChange true w in
    let w := set_attachedCanLoadListeners false w in
    let w := set_attachedLoadStartListeners false w in
    let w := set_attachedCanPlayListeners false w in
    let w := upd (set_viewType "unknown") w in
    set_connected false w
  else w.

(** The two timers of the state manager: a pending
    [setTimeout(() => resetTracking(), 0)] and the debounced
    [fireWaitingEvent]. *)
Definition runResetTimer (w : World) : World :=
  match resetTimers w with
  | O => w
  | S n => resetTracking (set_resetTimers n w)
  end.

Definition runWaitingTimer (w : World) : World :=
  if waitingTimer w then fireWaitingEvent_body (set_waitingTimer false w)
  else w.

(** One step of the state manager. *)
Inductive Step : Type :=
| ProviderEvent (event : MediaEvent)
| ProviderConnect (p : Provider)
| ProviderDisconnect
| ResetTimerFires
| WaitingTimerFires.

Definition step (s : Step) (w : World) : World :=
  match s with
  | ProviderEvent event => fst (handle event w)
  | ProviderConnect p => onProviderConnect p w
  | ProviderDisconnect => onProviderDisconnect w
  | ResetTimerFires => runResetTimer w
  | WaitingTimerFires => runWaitingTimer w
  end.

Definition run (steps : list Step) (w : World) : World :=
  fold_left (fun w s => step s w) steps w.

(** Modelled from the spec: the manager's [handle] entry point
    ([state-manager.ts]) and the delegate's [_notify] are not among the
    sources.  They are "the same notify state change entry point that the
    State Manager uses": the event goes to the handler registered for its
    type, whatever the listener stage, and is then surfaced to subscribers. *)
Definition handler_handle (event : MediaEvent) (w : World) : World :=
  let '(w, event) :=
    match listeners (kind event) with
    | (_, h) :: _ => h event w
    | [] => (w, event)
    end in
  emit (Handle event) w.

Definition _notify (k : MediaEventKind) (trigger : option EventRef)
    (w : World) : World :=
  let event := createEvent k (nextEventId w) trigger in
  handler_handle event (set_nextEventId (S (nextEventId w)) w).

(** ** Request manager ([createMediaRequestManager]) *)

(** A write to a property of the attached provider.  The request listener
    calls a handler only with a provider attached ([peek($provider)]). *)
Definition providerWrite (f : Provider → Provider) (e : Effect) (w : World)
  : World :=
  match provider w with
  | Some p => emit e (set_provider (Some (f p)) w)
  | None => w
  end.

Definition fresh (k : MediaEventKind) (w : World) : MediaEvent * World :=
  (createEvent k (nextEventId w) None, set_nextEventId (S (nextEventId w)) w).

(** The effect keeping [user.idle.delay] equal to the [userIdleDelay] prop. *)
Definition effectUserIdleDelay (userIdleDelay : Z) (w : World) : World :=
  set_user (User.set_delay userIdleDelay (user w)) w.

(** The effect keeping [canFullscreen] in the store. *)
Definition effectCanFullscreen (w : World) : World :=
  let supported :=
    fs_supported (fullscreenAdapter w)
    || match provider w ≫= provider_fullscreen with
       | Some fs => fs_supported fs
       | None => false
       end in
  if canLoad (media w) && Bool.eqb (canFullscreen (media w)) supported then w
  else upd (set_canFullscreen supported) w.

Definition onStartLoading (event : RequestEvent) (w : World) : World :=
  if canLoad (media w) then w
  else
    let w := _enqueue "load" event w in
    let '(e, w) := fresh VdsCanLoad w in
    handler_handle e w.

Definition onMuteRequest (event : RequestEvent) (w : World) : World :=
  if muted (media w) then w
  else
    let w := _enqueue "volume" event w in
    providerWrite (provider_set_muted true) (SetMuted true) w.

Definition onUnmuteRequest (event : RequestEvent) (w : World) : World :=
  if negb (muted (media w)) then w
  else
    let w := _enqueue "volume" event w in
    let w := providerWrite (provider_set_muted false) (SetMuted false) w in
    if (volume (media w) =? 0)%float then
      let w := _enqueue "volume" event w in
      providerWrite (provider_set_volume 0.25%float) (SetVolume 0.25%float) w
    else w.

(** The [catch] block of [onPlayRequest]. *)
Definition onPlayRequest_catch (e : Thrown) (w : World) : World :=
  let '(errorEvent, w) := fresh (VdsPlayFail (coerceToError e) None) w in
  handler_handle errorEvent w.

Definition onPlayRequest (event : RequestEvent) (o : Outcomes) (w : World)
  : World :=
  if negb (paused (media w)) then w
  else
    let w := _enqueue "play" event w in
    let w := emit CallPlay w in
    match playResult o with
    | Fulfilled => w
    | Rejected e => onPlayRequest_catch e w
    end.

(** The [catch] block of [onPauseRequest]. *)
Definition onPauseRequest_catch (e : Thrown) (w : World) : World :=
  let w := _delete "pause" w in
  if DEV && hasLogger then emit (LogError "pause-fail" e) w else w.

Definition onPauseRequest (event : RequestEvent) (o : Outcomes) (w : World)
  : World :=
  if paused (media w) then w
  else
    let w := _enqueue "pause" event w in
    let w := emit CallPause w in
    match pauseResult o with
    | Fulfilled => w
    | Rejected e => onPauseRequest_catch e w
    end.

Definition onSeekingRequest (event : RequestEvent) (w : World) : World :=
  let w := _enqueue "seeking" event w in
  let w := upd (set_seeking true) w in
  set_isSeeking true w.

Definition onSeekRequest (event : RequestEvent) (detail : float) (w : World)
  : World :=
  let w := if ended (media w) then set_isReplay true w else w in
  let w := _enqueue "seeked" event w in
  let w := set_isSeeking false w in
  (* Span to end if close enough. *)
  let target :=
    if (duration (media w) - detail <? 0.25)%float
    then duration (media w) else detail in
  providerWrite (provider_set_currentTime target) (SetCurrentTime target) w.

Definition onVolumeChangeRequest (event : RequestEvent) (detail : float)
    (w : World) : World :=
  let volume := detail in
  if (Media.volume (media w) =? volume)%float then w
  else
    let w := _enqueue "volume" event w in
    let w := providerWrite (provider_set_volume volume) (SetVolume volume) w in
    if (0 <? volume)%float && muted (media w) then
      let w := _enqueue "volume" event w in
      providerWrite (provider_set_muted false) (SetMuted false) w
    else w.

Definition target_name (t : FullscreenTarget) : string :=
  match t with
  | PreferMedia => "prefer-media"
  | TargetMedia => "media"
  | TargetProvider => "provider"
  end.

(** The adapter picked by [enterFullscreen] and [exitFullscreen]. *)
Definition fullscreenFor (target : FullscreenTarget) (w : World)
  : option FullscreenAdapter :=
  let preferMedia := match target with PreferMedia => true | _ => false end in
  let isMedia := match target with TargetMedia => true | _ => false end in
  if (preferMedia && fs_supported (fullscreenAdapter w)) || isMedia
  then Some (fullscreenAdapter w)
  else provider w ≫= provider_fullscreen.

(** [throwIfFullscreenNotSupported]: the error thrown, if any. *)
Definition throwIfFullscreenNotSupported (target : FullscreenTarget)
    (fs : option FullscreenAdapter) : option Thrown :=
  match fs with
  | Some a =>
      if fs_supported a then None
      else Some (ErrorObject
        (if DEV
         then ("[vidstack] fullscreen is not currently available on target `"
               ++ target_name target ++ "`")%string
         else "[vidstack] no fullscreen support"))
  | None =>
      Some (ErrorObject
        (if DEV
         then ("[vidstack] fullscreen is not currently available on target `"
               ++ target_name target ++ "`")%string
         else "[vidstack] no fullscreen support"))
  end.

(** [throwIfNotReadyForPlayback]. *)
Definition notReadyError : Thrown :=
  ErrorObject
    (if DEV then "[vidstack] media is not ready - wait for `can-play` event."
     else "[vidstack] media not ready").

(** [play()].  The provider's promise is returned, not awaited, inside the
    [try]: only the readiness error reaches the [catch]. *)
Definition play (o : Outcomes) (w : World) : World * Settled :=
  if negb (paused (media w)) then (w, Fulfilled)
  else
    match provider w with
    | Some _ =>
        if canPlay (media w) then
          let w :=
            if ended (media w) || (currentTime (media w) =? 0)%float
            then providerWrite (provider_set_currentTime 0%float)
                               (SetCurrentTime 0%float) w
            else w in
          (emit CallPlay w, playResult o)
        else
          let error := notReadyError in
          let '(errorEvent, w) :=
            fresh (VdsPlayFail (coerceToError error)
                               (Some (attemptingAutoplay (media w)))) w in
          (handler_handle errorEvent w, Rejected error)
    | None =>
        let error := notReadyError in
        let '(errorEvent, w) :=
          fresh (VdsPlayFail (coerceToError error)
                             (Some (attemptingAutoplay (media w)))) w in
        (handler_handle errorEvent w, Rejected error)
    end.

(** [pause()]. *)
Definition pause (o : Outcomes) (w : World) : World * Settled :=
  if paused (media w) then (w, Fulfilled)
  else
    match provider w with
    | Some _ =>
        if canPlay (media w) then (emit CallPause w, pauseResult o)
        else (w, Rejected notReadyError)
    | None => (w, Rejected notReadyError)
    end.

(** [enterFullscreen(target = 'prefer-media')]. *)
Definition enterFullscreen (target : option FullscreenTarget) (o : Outcomes)
    (w : World) : World * Settled :=
  let target := default PreferMedia target in
  let fs := fullscreenFor target w in
  match throwIfFullscreenNotSupported target fs with
  | Some error => (w, Rejected error)
  | None =>
      if match fs with Some a => fs_active a | None => false end
      then (w, Fulfilled)
      else
        let lockType := fullscreenOrientation w in
        match (if so_supported (orientation w) then lockType else None) with
        | Some t =>
            let w := emit (CallOrientationLock t) w in
            match lockResult o with
            | Rejected e => (w, Rejected e)
            | Fulfilled => (emit CallFullscreenEnter w, enterResult o)
            end
        | None => (emit CallFullscreenEnter w, enterResult o)
        end
  end.

(** [exitFullscreen(target = 'prefer-media')]. *)
Definition exitFullscreen (target : option FullscreenTarget) (o : Outcomes)
    (w : World) : World * Settled :=
  let target := default PreferMedia target in
  let fs := fullscreenFor target w in
  match throwIfFullscreenNotSupported target fs with
  | Some error => (w, Rejected error)
  | None =>
      if negb (match fs with Some a => fs_active a | None => false end)
      then (w, Fulfilled)
      else if so_locked (orientation w) then
        let w := emit CallOrientationUnlock w in
        match unlockResult o with
        | Rejected e => (w, Rejected e)
        | Fulfilled => (emit CallFullscreenExit w, exitResult o)
        end
      else (emit CallFullscreenExit w, exitResult o)
  end.

(** The [catch] block shared by the two fullscreen request handlers. *)
Definition onFullscreenRequest_catch (e : Thrown) (w : World) : World :=
  let '(errorEvent, w) := fresh (VdsFullscreenError (coerceToError e)) w in
  handler_handle errorEvent w.

Definition onEnterFullscreenRequest (event : RequestEvent)
    (detail : option FullscreenTarget) (o : Outcomes) (w : World) : World :=
  let w := _enqueue "fullscreen" event w in
  match enterFullscreen detail o w with
  | (w, Fulfilled) => w
  | (w, Rejected e) => onFullscreenRequest_catch e w
  end.

Definition onExitFullscreenRequest (event : RequestEvent)
    (detail : option FullscreenTarget) (o : Outcomes) (w : World) : World :=
  let w := _enqueue "fullscreen" event w in
  match exitFullscreen detail o w with
  | (w, Fulfilled) => w
  | (w, Rejected e) => onFullscreenRequest_catch e w
  end.

Definition onResumeIdlingRequest (event : RequestEvent) (w : World) : World :=
  let w := _enqueue "userIdle" event w in
  set_user (User.paused_set false (user w)) w.

Definition onPauseIdlingRequest (event : RequestEvent) (w : World) : World :=
  let w := _enqueue "userIdle" event w in
  set_user (User.paused_set true (user w)) w.

Definition onShowPosterRequest (event : RequestEvent) (w : World) : World :=
  upd (set_canLoadPoster true) w.

Definition onHidePosterRequest (event : RequestEvent) (w : World) : World :=
  upd (set_canLoadPoster false) w.

(** [onLoopRequest] only schedules an animation frame; [loopFrame] is the
    callback it scheduled. *)
Definition onLoopRequest (event : RequestEvent) (w : World) : World :=
  set_loopFrames (S (loopFrames w)) w.

Definition loopFrame (o : Outcomes) (w : World) : World :=
  match loopFrames w with
  | O => w
  | S n =>
      let w := set_loopFrames n w in
      let w := set_isLooping true w in
      let w := set_isReplay true w in
      match play o w with
      | (w, Fulfilled) => w
      | (w, Rejected _) =>
          let w := set_isLooping false w in
          set_isReplay false w
      end
  end.

(** The listener installed for every request type: the handler runs only
    with a provider attached. *)
Definition onRequest (event : RequestEvent) (o : Outcomes) (w : World)
  : World :=
  match provider w with
  | None => w
  | Some _ =>
      match request event with
      | MediaStartLoading => onStartLoading event w
      | MediaMuteRequest => onMuteRequest event w
      | MediaUnmuteRequest => onUnmuteRequest event w
      | MediaPlayRequest => onPlayRequest event o w
      | MediaPauseRequest => onPauseRequest event o w
      | MediaSeekingRequest _ => onSeekingRequest event w
      | MediaSeekRequest detail => onSeekRequest event detail w
      | MediaVolumeChangeRequest detail => onVolumeChangeRequest event detail w
      | MediaEnterFullscreenRequest detail =>
          onEnterFullscreenRequest event detail o w
      | MediaExitFullscreenRequest detail =>
          onExitFullscreenRequest event detail o w
      | MediaResumeUserIdleRequest => onResumeIdlingRequest event w
      | MediaPauseUserIdleRequest => onPauseIdlingRequest event w
      | MediaShowPosterRequest => onShowPosterRequest event w
      | MediaHidePosterRequest => onHidePosterRequest event w
      | MediaLoopRequest => onLoopRequest event w
      end
  end.

(** ** Ad session controller ([AdsController]) *)

Definition AdsHandler : Type :=
  AdEvent → World * AdsController → World * AdsController.

Definition ad_ref (e : AdEvent) : EventRef :=
  {| ref_type := "ad"; ref_id := ad_id e |}.

Definition _defaultBottomMargin : Z := 50.

Definition _onResized (s : World * AdsController) : World * AdsController :=
  let '(w, a) := s in
  if adsManager a then
    (emit (AdsManagerResize
             (if playingNonLinear a then _defaultBottomMargin else 0%Z)) w, a)
  else (w, a).

Definition _onContentEnded (s : World * AdsController)
  : World * AdsController :=
  let '(w, a) := s in
  if adsLoader a then (emit AdsLoaderContentComplete w, a) else (w, a).

Definition _onAdsLoaderError (s : World * AdsController)
  : World * AdsController :=
  let '(w, a) := s in
  if adsLoader a then (emit AdsLoaderDestroy w, a) else (w, a).

Definition _onAdsManagerAdError (s : World * AdsController)
  : World * AdsController :=
  let '(w, a) := s in
  if adsManager a then (emit AdsManagerDestroy w, a) else (w, a).

Definition _onAdBuffering : AdsHandler :=
  fun adEvent '(w, a) => (_notify VdsWaiting None w, a).

Definition _onContentPauseRequested : AdsHandler :=
  fun adEvent '(w, a) => (emit RemotePause w, a).

Definition _onContentResumeRequested : AdsHandler :=
  fun adEvent '(w, a) =>
    if negb (ended (media w)) then (emit RemotePlay w, a) else (w, a).

Definition _onAdLoaded : AdsHandler :=
  fun adEvent '(w, a) =>
    let ad := getAd adEvent in
    let w := if negb (playedPreroll (media w))
             then upd (set_playedPreroll true) w else w in
    match ad with
    | Some ad' =>
        if negb (isLinear ad') then
          (* non linear ads overlay the content while the content plays *)
          let w := _notify VdsPause (Some (ad_ref adEvent)) w in
          (emit RemotePlay w, a)
        else (w, a)
    | None => (w, a)
    end.

Definition _onAdStart : AdsHandler :=
  fun adEvent '(w, a) =>
    let ad := getAd adEvent in
    let linear := match ad with Some ad' => isLinear ad' | None => false end in
    (* non linear ads overlay the content and the content should keep playing *)
    let '(w, a) :=
      if linear then
        let a := set_playingNonLinear false a in
        let a := set_previousPlaybackPosition (currentTime (media w)) a in
        let a := set_previousPlayedTimeranges (Some (played (media w))) a in
        let w := _notify
                   (VdsDurationChange
                      (match ad with Some ad' => getDuration ad' | None => 0%float end))
                   (Some (ad_ref adEvent)) w in
        let w := _notify VdsPlay (Some (ad_ref adEvent)) w in
        (upd (set_adStarted true) w, a)
      else (w, set_playingNonLinear true a) in
    _onResized (w, a).

(** This is called when a linear ad is completed. *)
Definition _onAdComplete (s : World * AdsController) : World * AdsController :=
  let '(w, a) := s in
  let w := _notify (VdsDurationChange (seekableEnd (media w))) None w in
  let w := _notify
             (VdsTimeUpdate (previousPlaybackPosition a)
                (default (TimeRange 0%float 0%float) (previousPlayedTimeranges a)))
             None w in
  (_notify VdsAdEnded None w, a).

Definition _onAdSkip : AdsHandler :=
  (* if the ad is skipped the complete callback is not called *)
  fun adEvent s => _onAdComplete s.

Definition _onAdLinearChanged : AdsHandler :=
  fun event '(w, a) =>
    let ad := getAd event in
    let linear := match ad with Some ad' => isLinear ad' | None => false end in
    let a := if linear then set_playingNonLinear false a
             else set_playingNonLinear true a in
    _onResized (w, a).

(** [x || 0] on a number. *)
Definition or_zero (x : float) : float :=
  if is_nan x || (x =? 0)%float then 0%float else x.

Definition _onAdProgress : AdsHandler :=
  fun adEvent '(w, a) =>
    let remainingTime :=
      if adsManager a then or_zero (getRemainingTime adEvent) else 0%float in
    let currentTime := (duration (media w) - remainingTime)%float in
    (_notify (VdsTimeUpdate currentTime (TimeRange 0%float currentTime)) None w,
     a).

Definition _onAdClick : AdsHandler :=
  fun adEvent '(w, a) => (_notify VdsPause None w, a).

(** [_adEventHandlerMapping]. *)
Definition onAdEvent : AdsHandler :=
  fun adEvent s =>
    match ad_type adEvent with
    | adBuffering => _onAdBuffering adEvent s
    | start => _onAdStart adEvent s
    | adProgress => _onAdProgress adEvent s
    | complete => _onAdComplete s
    | contentPauseRequested => _onContentPauseRequested adEvent s
    | contentResumeRequested => _onContentResumeRequested adEvent s
    | loaded => _onAdLoaded adEvent s
    | click => _onAdClick adEvent s
    | skip => _onAdSkip adEvent s
    | linearChanged => _onAdLinearChanged adEvent s
    end.

(** What can happen to a session while an ad break lasts: an SDK event or
    a step of the state manager. *)
Inductive AdStep : Type :=
| SdkEvent (adEvent : AdEvent)
| ManagerStep (s : Step).

Definition adStep (s : AdStep) (st : World * AdsController)
  : World * AdsController :=
  match s with
  | SdkEvent adEvent => onAdEvent adEvent st
  | ManagerStep s => (step s (fst st), snd st)
  end.

Definition runAds (steps : list AdStep) (st : World * AdsController)
  : World * AdsController :=
  fold_left (fun st s => adStep s st) steps st.

(** The start of a linear ad. *)
Definition isLinearAdStart (s : AdStep) : bool :=
  match s with
  | SdkEvent adEvent =>
      match ad_type adEvent, getAd adEvent with
      | start, Some ad => isLinear ad
      | _, _ => false
      end
  | ManagerStep _ => false
  end.

(** * Properties *)

(** ** Duration change *)

Lemma onDurationChange_media (detail : float) (event : MediaEvent) (w : World) :
  media (fst (onDurationChange detail event w))
  = set_duration (if is_nan detail then 0%float else detail) (media w).
Proof. unfold onDurationChange; cbn. now destruct (is_nan detail). Qed.

(** C10: a duration-change event stores its payload as the duration when
    the payload is a number and stores 0 when it is NaN; no other field of
    the state changes, and the stored duration is never NaN.  Delivered
    through the listeners, the event does this as soon as one of the two
    groups that register [onDurationChange] is installed. *)
Theorem onDurationChange_stores_number
    (detail : float) (event : MediaEvent) (w : World)
    (id : nat) (trigger : option EventRef) :
  let w' := fst (onDurationChange detail event w) in
  let delivered :=
    fst (handle (createEvent (VdsDurationChange detail) id trigger) w) in
  media w' = set_duration (if is_nan detail then 0%float else detail) (media w)
  ∧ duration (media w') = (if is_nan detail then 0%float else detail)
  ∧ is_nan (duration (media w')) = false
  ∧ media delivered
    = (if attachedLoadStartListeners w || attachedCanPlayListeners w
       then media w' else media w).
Proof.
  cbv zeta. rewrite onDurationChange_media. split; [reflexivity|].
  cbn [duration set_duration]. split; [reflexivity|]. split.
  - destruct (is_nan detail) eqn:Hnan.
    + reflexivity.
    + exact Hnan.
  - unfold handle. cbn [kind createEvent listeners runListeners stopped attached].
    unfold onDurationChange, upd. destruct w as [m]. simpl.
    destruct attachedLoadStartListeners0, attachedCanPlayListeners0; simpl;
      try reflexivity; destruct (is_nan detail); destruct m; reflexivity.
Qed.

(** ** Seek requests *)

(** The provider property written by [onSeekRequest], in closed form. *)
Lemma onSeekRequest_provider
    (event : RequestEvent) (detail : float) (w : World) (p : Provider) :
  provider w = Some p →
  provider (onSeekRequest event detail w)
  = Some (provider_set_currentTime
            (if (duration (media w) - detail <? 0.25)%float
             then duration (media w) else detail) p).
Proof.
  intros Hp. unfold onSeekRequest, providerWrite.
  destruct (ended (media w)); cbn; rewrite Hp; reflexivity.
Qed.

(** C5: a seek request whose distance to the end of the media
    ([duration - detail]) is below 0.25 targets exactly [duration]; any
    other seek request targets the requested time.  With a duration of 10,
    a request for 9.9 targets 10 and a request for 9 targets 9. *)
Theorem onSeekRequest_spans_to_end
    (event : RequestEvent) (detail : float) (w : World) (p : Provider) :
  provider w = Some p →
  let d := duration (media w) in
  let target := provider_currentTime <$> provider (onSeekRequest event detail w) in
  ((d - detail <? 0.25)%float = true → target = Some d)
  ∧ ((d - detail <? 0.25)%float = false → target = Some detail)
  ∧ (d = 10%float → detail = 9.9%float → target = Some 10%float)
  ∧ (d = 10%float → detail = 9%float → target = Some 9%float).
Proof.
  intros Hp d target. subst target.
  rewrite (onSeekRequest_provider event detail w p Hp). fold d. cbn.
  repeat split.
  - intros ->. reflexivity.
  - intros ->. reflexivity.
  - intros -> ->. reflexivity.
  - intros -> ->. reflexivity.
Qed.

(** ** Ended while looping *)

Lemma runListeners_single (t : Tier) (h : Handler) (event : MediaEvent) (w : World) :
  runListeners [(t, h)] event w
  = if stopped event then (w, event)
    else if attached t w then h event w else (w, event).
Proof.
  cbn. destruct (stopped event); [reflexivity|].
  destruct (attached t w); [|reflexivity].
  now destruct (h event w).
Qed.

(** C6: while the looping flag is set, the handler of the engine's "ended"
    event returns the session as it found it, so no field of the state is
    written and [ended] is not set; it only stops the event's propagation.
    The same holds for an "ended" event delivered through the listeners. *)
Theorem onEnded_suppressed_while_looping (event : MediaEvent) (w : World) :
  looping w = true →
  onEnded event w = (w, stopImmediatePropagation event)
  ∧ media (fst (onEnded event w)) = media w
  ∧ ended (media (fst (onEnded event w))) = ended (media w)
  ∧ stopped (snd (onEnded event w)) = true
  ∧ (kind event = VdsEnded → fst (handle event w) = w).
Proof.
  intros Hloop.
  assert (Hon : onEnded event w = (w, stopImmediatePropagation event)).
  { unfold onEnded. now rewrite Hloop. }
  rewrite Hon. cbn. repeat split.
  intros Hkind. unfold handle. rewrite Hkind.
  change (listeners VdsEnded) with [(CanPlayTier, onEnded)].
  rewrite runListeners_single.
  destruct (stopped event); [reflexivity|].
  destruct (attached CanPlayTier w); [|reflexivity].
  now rewrite Hon.
Qed.

(** ** Volume requests *)

(** C9: a volume-change request for a volume above 0 that differs from
    the current one, arriving while the state is muted, enqueues the
    request twice under "volume" and writes the volume and then
    [muted = false] to the provider; a request for the current volume
    changes nothing and enqueues nothing. *)
Theorem onVolumeChangeRequest_unmutes
    (event : RequestEvent) (detail : float) (w : World) (p : Provider) :
  provider w = Some p →
  ((volume (media w) =? detail)%float = false →
   (0 <? detail)%float = true →
   muted (media w) = true →
   let w' := onVolumeChangeRequest event detail w in
   trace w' = trace w ++ [Enqueue "volume" event; SetVolume detail;
                          Enqueue "volume" event; SetMuted false]
   ∧ enqueued "volume" (trace w') = enqueued "volume" (trace w) ++ [event; event]
   ∧ provider w' = Some (provider_set_muted false (provider_set_volume detail p))
   ∧ queue w' !! "volume" = Some event)
  ∧ ((volume (media w) =? detail)%float = true →
     onVolumeChangeRequest event detail w = w).
Proof.
  intros Hp. split.
  - intros Hne Hpos Hmuted w'. subst w'.
    unfold onVolumeChangeRequest, providerWrite.
    rewrite Hne. cbn. rewrite Hp. cbn. rewrite Hpos, Hmuted. cbn.
    assert (Htr : ((((trace w ++ [Enqueue "volume" event]) ++ [SetVolume detail])
                    ++ [Enqueue "volume" event]) ++ [SetMuted false])
                  = trace w ++ [Enqueue "volume" event; SetVolume detail;
                                Enqueue "volume" event; SetMuted false]).
    { now rewrite <- !app_assoc. }
    rewrite Htr. repeat split.
    + unfold enqueued. rewrite flat_map_app. reflexivity.
    + apply lookup_insert_eq.
  - intros Heq. unfold onVolumeChangeRequest. now rewrite Heq.
Qed.

(** ** Mute and unmute requests *)

Lemma onMuteRequest_effect (event : RequestEvent) (w : World) (p : Provider) :
  provider w = Some p →
  muted (media w) = false →
  let w' := onMuteRequest event w in
  trace w' = trace w ++ [Enqueue "volume" event; SetMuted true]
  ∧ provider w' = Some (provider_set_muted true p)
  ∧ media w' = media w.
Proof.
  intros Hp Hm w'. subst w'. unfold onMuteRequest, providerWrite.
  rewrite Hm. cbn. rewrite Hp. cbn. rewrite <- app_assoc. repeat split.
Qed.

(** C2, as the code has it: a mute request received while [muted] is false
    enqueues one record under "volume" and only writes [muted = true] to
    the provider, whose volume stays what it was (0 included).  The two
    records and the forced volume of 0.25 belong to an unmute request
    received while [muted] is true and the volume is exactly 0: it leaves
    the provider with [muted = false] and [volume = 0.25]. *)
Theorem mute_once_unmute_restores_volume
    (event : RequestEvent) (w : World) (p : Provider) :
  provider w = Some p →
  (muted (media w) = false →
   let w' := onMuteRequest event w in
   enqueued "volume" (trace w') = enqueued "volume" (trace w) ++ [event]
   ∧ provider w' = Some (provider_set_muted true p)
   ∧ (provider_volume <$> provider w') = Some (provider_volume p))
  ∧ (muted (media w) = true →
     (volume (media w) =? 0)%float = true →
     let w' := onUnmuteRequest event w in
     enqueued "volume" (trace w') = enqueued "volume" (trace w) ++ [event; event]
     ∧ trace w' = trace w ++ [Enqueue "volume" event; SetMuted false;
                              Enqueue "volume" event; SetVolume 0.25%float]
     ∧ (provider_muted <$> provider w') = Some false
     ∧ (provider_volume <$> provider w') = Some 0.25%float).
Proof.
  intros Hp. split.
  - intros Hm w'.
    destruct (onMuteRequest_effect event w p Hp Hm) as (Htr & Hprov & _).
    subst w'. rewrite Htr, Hprov. repeat split.
    unfold enqueued. rewrite flat_map_app. reflexivity.
  - intros Hm Hz w'. subst w'. unfold onUnmuteRequest, providerWrite.
    rewrite Hm. cbn. rewrite Hp. cbn. rewrite Hz. cbn.
    assert (Htr : ((((trace w ++ [Enqueue "volume" event]) ++ [SetMuted false])
                    ++ [Enqueue "volume" event]) ++ [SetVolume 0.25%float])
                  = trace w ++ [Enqueue "volume" event; SetMuted false;
                                Enqueue "volume" event; SetVolume 0.25%float]).
    { now rewrite <- !app_assoc. }
    rewrite Htr. repeat split.
    unfold enqueued. rewrite flat_map_app. reflexivity.
Qed.

(** ** Rejected provider calls *)

Lemma handled_app (tr1 tr2 : list Effect) :
  handled (tr1 ++ tr2) = handled tr1 ++ handled tr2.
Proof. apply flat_map_app. Qed.

Lemma dispatchedOnProvider_app (tr1 tr2 : list Effect) :
  dispatchedOnProvider (tr1 ++ tr2)
  = dispatchedOnProvider tr1 ++ dispatchedOnProvider tr2.
Proof. apply flat_map_app. Qed.

Lemma enqueued_app (category : string) (tr1 tr2 : list Effect) :
  enqueued category (tr1 ++ tr2) = enqueued category tr1 ++ enqueued category tr2.
Proof. apply flat_map_app. Qed.

Lemma appendTriggerEvent_kind (event : MediaEvent) (trigger : option EventRef) :
  kind (appendTriggerEvent event trigger) = kind event.
Proof. now destruct trigger. Qed.

Lemma ref_of_appendTriggerEvent (event : MediaEvent) (trigger : option EventRef) :
  ref_of (appendTriggerEvent event trigger) = ref_of event.
Proof. now destruct trigger. Qed.

Lemma appendTriggerEvent_fromProvider (event : MediaEvent) (trigger : option EventRef) :
  fromProvider (appendTriggerEvent event trigger) = fromProvider event.
Proof. now destruct trigger. Qed.

Lemma resetTracking_trace (w : World) : trace (resetTracking w) = trace w.
Proof.
  unfold resetTracking, stopWaiting, isReplay_set, isLooping_set.
  destruct w as [? ? [|]]; reflexivity.
Qed.

Lemma resetTracking_media (w : World) :
  media (resetTracking w) = set_waiting false (media w).
Proof.
  unfold resetTracking, stopWaiting, isReplay_set, isLooping_set.
  destruct w as [? ? [|]]; reflexivity.
Qed.

Lemma resetTracking_trackedEvents (w : World) :
  trackedEvents (resetTracking w) = ∅.
Proof. reflexivity. Qed.

(** Serving a request keeps the event's kind and hands nothing to
    [handle]. *)
Lemma satisfyMediaRequest_frame (request : string) (event : MediaEvent) (w : World) :
  kind (snd (satisfyMediaRequest request event w)) = kind event
  ∧ fromProvider (snd (satisfyMediaRequest request event w)) = fromProvider event
  ∧ handled (trace (fst (satisfyMediaRequest request event w))) = handled (trace w)
  ∧ media (fst (satisfyMediaRequest request event w)) = media w.
Proof.
  unfold satisfyMediaRequest, _serve.
  destruct (withRequestManager w); [|now cbn].
  destruct (queue w !! request); cbn; [|easy].
  rewrite handled_app, app_nil_r. easy.
Qed.

Lemma onPlayFail_handled (event : MediaEvent) (w : World) :
  kind (snd (trackEvent onPlayFail event w)) = kind event
  ∧ handled (trace (fst (trackEvent onPlayFail event w))) = handled (trace w).
Proof.
  unfold trackEvent, onPlayFail.
  match goal with
  | |- context [satisfyMediaRequest ?r ?e ?w0] =>
      destruct (satisfyMediaRequest_frame r e w0) as (Hk & _ & Hh & _);
      destruct (satisfyMediaRequest r e w0) as [w1 e1]
  end.
  cbn [fst snd] in *. split.
  - rewrite Hk. apply appendTriggerEvent_kind.
  - rewrite resetTracking_trace. exact Hh.
Qed.

Lemma onFullscreenError_handled (detail : Thrown) (event : MediaEvent) (w : World) :
  kind (snd (onFullscreenError detail event w)) = kind event
  ∧ handled (trace (fst (onFullscreenError detail event w))) = handled (trace w).
Proof.
  unfold onFullscreenError.
  destruct (satisfyMediaRequest_frame "fullscreen" event w) as (Hk & _ & Hh & _).
  destruct (satisfyMediaRequest "fullscreen" event w) as [w1 e1].
  cbn in *. destruct (fromProvider e1); cbn.
  - easy.
  - rewrite handled_app, app_nil_r. easy.
Qed.

(** Neither fullscreen call hands an event to [handle]. *)
Lemma enterFullscreen_handled
    (target : option FullscreenTarget) (o : Outcomes) (w : World) :
  handled (trace (fst (enterFullscreen target o w))) = handled (trace w).
Proof.
  unfold enterFullscreen.
  destruct (throwIfFullscreenNotSupported _ _); [reflexivity|].
  destruct (match fullscreenFor _ w with Some a => fs_active a | None => false end);
    [reflexivity|].
  destruct (if so_supported (orientation w) then fullscreenOrientation w else None).
  - destruct (lockResult o); cbn; rewrite ?handled_app; cbn; now rewrite ?app_nil_r.
  - cbn. rewrite handled_app. cbn. now rewrite app_nil_r.
Qed.

Lemma exitFullscreen_handled
    (target : option FullscreenTarget) (o : Outcomes) (w : World) :
  handled (trace (fst (exitFullscreen target o w))) = handled (trace w).
Proof.
  unfold exitFullscreen.
  destruct (throwIfFullscreenNotSupported _ _); [reflexivity|].
  destruct (negb _); [reflexivity|].
  destruct (so_locked (orientation w)).
  - destruct (unlockResult o); cbn; rewrite ?handled_app; cbn; now rewrite ?app_nil_r.
  - cbn. rewrite handled_app. cbn. now rewrite app_nil_r.
Qed.

Lemma onFullscreenRequest_catch_handled (e : Thrown) (w : World) :
  ∃ errorEvent,
    handled (trace (onFullscreenRequest_catch e w))
    = handled (trace w) ++ [errorEvent]
    ∧ kind errorEvent = VdsFullscreenError (coerceToError e).
Proof.
  unfold onFullscreenRequest_catch, fresh, handler_handle.
  cbn [kind createEvent listeners].
  match goal with
  | |- context [onFullscreenError ?d ?ev ?w0] =>
      destruct (onFullscreenError_handled d ev w0) as (Hk & Hh);
      destruct (onFullscreenError d ev w0) as [w1 e1]
  end.
  cbn in *. exists e1. rewrite handled_app, Hh. cbn. easy.
Qed.

Lemma onPlayRequest_catch_handled (e : Thrown) (w : World) :
  ∃ errorEvent,
    handled (trace (onPlayRequest_catch e w)) = handled (trace w) ++ [errorEvent]
    ∧ kind errorEvent = VdsPlayFail (coerceToError e) None.
Proof.
  unfold onPlayRequest_catch, fresh, handler_handle.
  cbn [kind createEvent listeners].
  match goal with
  | |- context [trackEvent onPlayFail ?ev ?w0] =>
      destruct (onPlayFail_handled ev w0) as (Hk & Hh);
      destruct (trackEvent onPlayFail ev w0) as [w1 e1]
  end.
  cbn in *. exists e1. rewrite handled_app, Hh. cbn. easy.
Qed.

(** C8: when the provider rejects [pause()], the request manager deletes
    the pending "pause" record and at most logs the failure: nothing is
    handed to the state manager, nothing is dispatched and the state is
    not written.  A rejected [play()] and a failed fullscreen enter or exit
    each hand the state manager one failure event whose detail is the
    coerced original error. *)
Theorem pause_rejection_is_absorbed
    (event : RequestEvent) (o : Outcomes) (e : Thrown) (w : World) :
  (paused (media w) = false →
   pauseResult o = Rejected e →
   let w' := onPauseRequest event o w in
   queue w' !! "pause" = None
   ∧ trace w' = trace w ++ [Enqueue "pause" event; CallPause; Delete "pause"]
                 ++ (if DEV && hasLogger then [LogError "pause-fail" e] else [])
   ∧ handled (trace w') = handled (trace w)
   ∧ dispatchedOnProvider (trace w') = dispatchedOnProvider (trace w)
   ∧ media w' = media w)
  ∧ (paused (media w) = true →
     playResult o = Rejected e →
     ∃ errorEvent,
       handled (trace (onPlayRequest event o w)) = handled (trace w) ++ [errorEvent]
       ∧ kind errorEvent = VdsPlayFail (coerceToError e) None)
  ∧ (∀ detail,
       snd (enterFullscreen detail o (_enqueue "fullscreen" event w)) = Rejected e →
       ∃ errorEvent,
         handled (trace (onEnterFullscreenRequest event detail o w))
         = handled (trace w) ++ [errorEvent]
         ∧ kind errorEvent = VdsFullscreenError (coerceToError e))
  ∧ (∀ detail,
       snd (exitFullscreen detail o (_enqueue "fullscreen" event w)) = Rejected e →
       ∃ errorEvent,
         handled (trace (onExitFullscreenRequest event detail o w))
         = handled (trace w) ++ [errorEvent]
         ∧ kind errorEvent = VdsFullscreenError (coerceToError e)).
Proof.
  split; [|split; [|split]].
  - intros Hpaused Hres w'. subst w'.
    unfold onPauseRequest, onPauseRequest_catch. rewrite Hpaused, Hres.
    destruct (DEV && hasLogger); cbn.
    + rewrite lookup_delete_eq. rewrite <- !app_assoc. cbn.
      rewrite !handled_app, !dispatchedOnProvider_app. cbn.
      now rewrite !app_nil_r.
    + rewrite lookup_delete_eq. rewrite <- !app_assoc. cbn.
      rewrite !handled_app, !dispatchedOnProvider_app. cbn.
      now rewrite !app_nil_r.
  - intros Hpaused Hres. unfold onPlayRequest. rewrite Hpaused, Hres. cbn [negb].
    destruct (onPlayRequest_catch_handled e (emit CallPlay (_enqueue "play" event w)))
      as (errorEvent & Hh & Hk).
    exists errorEvent. split; [|exact Hk].
    rewrite Hh. cbn. rewrite !handled_app. cbn. now rewrite !app_nil_r.
  - intros detail Hrej. unfold onEnterFullscreenRequest.
    pose proof (enterFullscreen_handled detail o (_enqueue "fullscreen" event w)) as Hcall.
    destruct (enterFullscreen detail o (_enqueue "fullscreen" event w)) as [w2 r].
    cbn in Hrej, Hcall. subst r.
    destruct (onFullscreenRequest_catch_handled e w2) as (errorEvent & Hh & Hk).
    exists errorEvent. split; [|exact Hk].
    rewrite Hh, Hcall. cbn. rewrite handled_app. cbn. now rewrite app_nil_r.
  - intros detail Hrej. unfold onExitFullscreenRequest.
    pose proof (exitFullscreen_handled detail o (_enqueue "fullscreen" event w)) as Hcall.
    destruct (exitFullscreen detail o (_enqueue "fullscreen" event w)) as [w2 r].
    cbn in Hrej, Hcall. subst r.
    destruct (onFullscreenRequest_catch_handled e w2) as (errorEvent & Hh & Hk).
    exists errorEvent. split; [|exact Hk].
    rewrite Hh, Hcall. cbn. rewrite handled_app. cbn. now rewrite app_nil_r.
Qed.

(** ** Idle detector *)

(** C3, as the code has it: an input received while idle tracking is not
    paused arms the timer, and when the timer fires after the configured
    delay its callback runs [$idle.set(false)]: the idling flag is false
    afterwards, whatever it was before, and the timer is spent. *)
Theorem idle_timer_clears_idling (event : User.InputEvent) (u : User.MediaUser) :
  User.paused u = false →
  let armed := User.handleIdleChange event u in
  let fired := User.elapse (Z.max 0 (User.delay u)) armed in
  User.idleTimeout armed = Some ((User.clock u + Z.max 0 (User.delay u))%Z, event)
  ∧ User.idling fired = false
  ∧ User.idleTimeout fired = None.
Proof.
  intros Hp armed fired. subst armed fired.
  destruct u as [idling0 paused0 delay0 trigger0 timeout0 clock0 dispatched0].
  cbn in Hp. subst paused0.
  unfold User.handleIdleChange. cbn [User.paused User.set_idleTimeout
    User.clock User.delay User.idleTimeout].
  split; [reflexivity|].
  unfold User.elapse. cbn [User.paused User.set_idleTimeout User.set_clock
    User.clock User.delay User.idleTimeout User.idling User.triggerEvent
    User.dispatched].
  rewrite Z.leb_refl.
  unfold User.idleTimerCallback, User.idle_set.
  destruct idling0; split; reflexivity.
Qed.

(** ** Stepping the state manager *)

Ltac break_if :=
  match goal with
  | |- context [if ?c then _ else _] => destruct c eqn:?
  | |- context [match ?x with Some _ => _ | None => _ end] => destruct x eqn:?
  | |- context [match ?x with O => _ | S _ => _ end] => destruct x eqn:?
  | |- context [let '(_, _) := ?x in _] => destruct x eqn:?
  end.

Ltac unfold_handlers :=
  unfold trackEvent, onCanLoad, onSourcesChange, onSourceChange,
    onMediaTypeChange, onViewTypeChange, onLoadStart, onAbort, onError,
    onLoadedMetadata, onLoadedData, onCanPlay, onCanPlayThrough,
    onDurationChange, onProgress, onAutoplay, onAutoplayFail, onPause, onPlay,
    onPlayFail, onPlaying, onTimeUpdate, onVolumeChange, onSeeking, onSeeked,
    onWaiting, onEnded, onFullscreenChange, onFullscreenError,
    satisfyMediaRequest, _serve, resetTracking, stopWaiting, dispatchEvent,
    attachCanLoadEventListeners, attachLoadStartEventListeners,
    attachCanPlayListeners, looping, replaying, seekingRequest,
    isReplay_set, isLooping_set, tracked, emit, upd.

(** A property kept by every listener of a list is kept by the dispatch
    through that list. *)
Lemma runListeners_keeps (P : World → Prop) (ls : list (Tier * Handler)) :
  (∀ t h, In (t, h) ls → ∀ event w, P w → P (fst (h event w))) →
  ∀ event w, P w → P (fst (runListeners ls event w)).
Proof.
  induction ls as [|[t h] rest IH]; intros Hall event w Hw; cbn.
  - exact Hw.
  - destruct (stopped event); [exact Hw|].
    destruct (attached t w).
    + pose proof (Hall t h (or_introl eq_refl) event w Hw) as Hstep.
      destruct (h event w) as [w1 e1]. cbn in Hstep.
      apply IH; [|exact Hstep].
      intros t' h' Hin. apply (Hall t' h'). now right.
    + apply IH; [|exact Hw].
      intros t' h' Hin. apply (Hall t' h'). now right.
Qed.

Definition isSourceChange (s : Step) : bool :=
  match s with
  | ProviderEvent event =>
      match kind event with VdsSourceChange _ => true | _ => false end
  | _ => false
  end.

Definition isDisconnect (s : Step) : bool :=
  match s with ProviderDisconnect => true | _ => false end.

(** Apart from source changes, no listener writes [skipInitialSrcChange]
    or [connected]. *)
Lemma listeners_keep_control
    (k : MediaEventKind) (t : Tier) (h : Handler) (event : MediaEvent) (w : World) :
  (∀ d, k ≠ VdsSourceChange d) →
  In (t, h) (listeners k) →
  skipInitialSrcChange (fst (h event w)) = skipInitialSrcChange w
  ∧ connected (fst (h event w)) = connected w.
Proof.
  intros Hk Hin.
  destruct k; cbn [listeners In] in Hin;
    try solve [exfalso; eapply Hk; reflexivity];
    repeat match goal with
           | H : _ ∨ _ |- _ => destruct H
           | H : False |- _ => destruct H
           | H : (_, _) = (_, _) |- _ => injection H as <- <-
           end;
    destruct w; unfold_handlers; cbn;
    repeat (break_if; cbn); split; reflexivity.
Qed.

Lemma fireWaitingEvent_body_control (w : World) :
  skipInitialSrcChange (fireWaitingEvent_body w) = skipInitialSrcChange w
  ∧ connected (fireWaitingEvent_body w) = connected w.
Proof.
  unfold fireWaitingEvent_body. destruct w; unfold_handlers; cbn.
  repeat (break_if; cbn); split; reflexivity.
Qed.

Lemma resetTracking_control (w : World) :
  skipInitialSrcChange (resetTracking w) = skipInitialSrcChange w
  ∧ connected (resetTracking w) = connected w.
Proof.
  destruct w; unfold_handlers; cbn. repeat (break_if; cbn); split; reflexivity.
Qed.

(** A step that is neither a source change nor a disconnect keeps
    [skipInitialSrcChange] and keeps a connected session connected. *)
Lemma step_keeps_control (s : Step) (w : World) :
  isSourceChange s = false →
  isDisconnect s = false →
  skipInitialSrcChange (step s w) = skipInitialSrcChange w
  ∧ (connected w = true → connected (step s w) = true).
Proof.
  intros Hsrc Hdis. destruct s as [event|p| | |]; cbn [step].
  - unfold handle.
    assert (Hk : ∀ d, kind event ≠ VdsSourceChange d).
    { intros d Hd. cbn in Hsrc. now rewrite Hd in Hsrc. }
    pose proof (runListeners_keeps
      (fun w' => skipInitialSrcChange w' = skipInitialSrcChange w
                 ∧ connected w' = connected w)
      (listeners (kind event))) as Hkeep.
    destruct (Hkeep) with (event := event) (w := w) as [Hs Hc].
    + intros t h Hin e0 w0 [Hs0 Hc0].
      destruct (listeners_keep_control (kind event) t h e0 w0 Hk Hin) as [Hs1 Hc1].
      split; congruence.
    + split; reflexivity.
    + split; [exact Hs|]. intros Hconn. now rewrite Hc.
  - split; reflexivity.
  - discriminate Hdis.
  - unfold runResetTimer. destruct (resetTimers w) eqn:Hn.
    + split; [reflexivity|tauto].
    + destruct (resetTracking_control (set_resetTimers n w)) as [Hs Hc].
      rewrite Hs, Hc. split; [reflexivity|tauto].
  - unfold runWaitingTimer. destruct (waitingTimer w).
    + destruct (fireWaitingEvent_body_control (set_waitingTimer false w)) as [Hs Hc].
      rewrite Hs, Hc. split; [reflexivity|tauto].
    + split; [reflexivity|tauto].
Qed.

Definition noBoundary (steps : list Step) : bool :=
  forallb (fun s => negb (isSourceChange s) && negb (isDisconnect s)) steps.

Definition noDisconnect (steps : list Step) : bool :=
  forallb (fun s => negb (isDisconnect s)) steps.

Lemma run_cons (s : Step) (steps : list Step) (w : World) :
  run (s :: steps) w = run steps (step s w).
Proof. reflexivity. Qed.

Lemma run_keeps_control (steps : list Step) (w : World) :
  noBoundary steps = true →
  connected w = true →
  skipInitialSrcChange (run steps w) = skipInitialSrcChange w
  ∧ connected (run steps w) = true.
Proof.
  revert w. induction steps as [|s steps IH]; intros w Hno Hconn.
  - split; [reflexivity|exact Hconn].
  - cbn in Hno. apply andb_prop in Hno as [Hs Hrest].
    apply andb_prop in Hs as [Hsrc Hdis].
    apply negb_true_iff in Hsrc, Hdis.
    destruct (step_keeps_control s w Hsrc Hdis) as [Hskip Hc].
    rewrite run_cons.
    destruct (IH (step s w) Hrest (Hc Hconn)) as [IHs IHc].
    split; [congruence|exact IHc].
Qed.

(** Detaching a provider and attaching the next one gives a session in
    which no source change has been seen. *)
Lemma reattach_awaits_first_source_change (p : Provider) (w : World) :
  connected w = true →
  let w' := onProviderConnect p (onProviderDisconnect w) in
  connected w' = true ∧ skipInitialSrcChange w' = true.
Proof.
  intros Hconn. unfold onProviderConnect, onProviderDisconnect, _reset.
  destruct w. cbn in Hconn. subst. unfold_handlers. simpl.
  destruct withRequestManager0; split; reflexivity.
Qed.

(** What a source-change event delivered to a connected session does. *)
Lemma source_change_step (event : MediaEvent) (detail : string) (w : World) :
  kind event = VdsSourceChange detail →
  stopped event = false →
  connected w = true →
  let w' := step (ProviderEvent event) w in
  connected w' = true
  ∧ skipInitialSrcChange w' = false
  ∧ (skipInitialSrcChange w = true →
     media w' = set_source detail (media w)
     ∧ trackedEvents w'
       = <["vds-source-change" := ref_of event]> (trackedEvents w))
  ∧ (skipInitialSrcChange w = false →
     media w' = softResetMediaState (set_waiting false (set_source detail (media w)))
     ∧ trackedEvents w' = {["vds-source-change" := ref_of event]}
     ∧ replaying w' = false
     ∧ looping w' = false).
Proof.
  intros Hk Hstop Hconn w'. subst w'. cbn [step]. unfold handle. rewrite Hk.
  cbn [listeners]. rewrite runListeners_single, Hstop. cbn [attached].
  rewrite Hconn.
  destruct event as [k id chain req st fp]. cbn in Hk, Hstop. subst k st.
  destruct w. cbn in Hconn. subst.
  unfold_handlers.
  destruct withRequestManager0, skipInitialSrcChange0; simpl;
    rewrite ?appendTriggerEvent_kind, ?ref_of_appendTriggerEvent; simpl;
    repeat split; try (intros; discriminate); intros _;
    repeat split; try reflexivity; apply insert_empty.
Qed.

(** Once a source change has been seen, only a disconnect brings
    [skipInitialSrcChange] back. *)
Lemma step_keeps_skip_cleared (s : Step) (w : World) :
  isDisconnect s = false →
  connected w = true →
  skipInitialSrcChange w = false →
  skipInitialSrcChange (step s w) = false ∧ connected (step s w) = true.
Proof.
  intros Hdis Hconn Hskip.
  destruct (isSourceChange s) eqn:Hsrc.
  - destruct s as [event| | | |]; try discriminate Hsrc.
    cbn in Hsrc. destruct (kind event) eqn:Hk; try discriminate Hsrc.
    destruct (stopped event) eqn:Hstop.
    + cbn [step]. unfold handle. rewrite Hk. cbn [listeners].
      rewrite runListeners_single, Hstop. cbn. easy.
    + destruct (source_change_step event detail w Hk Hstop Hconn) as (Hc & Hs & _).
      easy.
  - destruct (step_keeps_control s w Hsrc Hdis) as [Hs Hc].
    split; [congruence|auto].
Qed.

Lemma run_keeps_skip_cleared (steps : list Step) (w : World) :
  noDisconnect steps = true →
  connected w = true →
  skipInitialSrcChange w = false →
  skipInitialSrcChange (run steps w) = false ∧ connected (run steps w) = true.
Proof.
  revert w. induction steps as [|s steps IH]; intros w Hno Hconn Hskip.
  - easy.
  - cbn in Hno. apply andb_prop in Hno as [Hdis Hrest].
    apply negb_true_iff in Hdis.
    destruct (step_keeps_skip_cleared s w Hdis Hconn Hskip) as [Hs Hc].
    rewrite run_cons. now apply IH.
Qed.

(** C4: in a session whose provider has just been attached, the first
    source-change event only writes [source]: the rest of the state is
    kept and so is every tracked event, the source change itself being
    added to them.  Every later source-change event of the same attachment
    soft-resets the state and drops every event tracked so far, leaving
    the new source change as the only tracked event. *)
Theorem source_change_is_reset_boundary_after_first
    (w0 : World) (before between : list Step)
    (first next : MediaEvent) (src1 src2 : string) :
  connected w0 = true →
  skipInitialSrcChange w0 = true →
  noBoundary before = true →
  kind first = VdsSourceChange src1 → stopped first = false →
  noDisconnect between = true →
  kind next = VdsSourceChange src2 → stopped next = false →
  let w1 := run before w0 in
  let w2 := step (ProviderEvent first) w1 in
  let w3 := run between w2 in
  let w4 := step (ProviderEvent next) w3 in
  (media w2 = set_source src1 (media w1)
   ∧ trackedEvents w2 = <["vds-source-change" := ref_of first]> (trackedEvents w1))
  ∧ (media w4 = softResetMediaState (set_waiting false (set_source src2 (media w3)))
     ∧ trackedEvents w4 = {["vds-source-change" := ref_of next]}
     ∧ ∀ type, type ≠ "vds-source-change" → trackedEvents w4 !! type = None).
Proof.
  intros Hconn Hskip Hbefore Hk1 Hs1 Hbetween Hk2 Hs2 w1 w2 w3 w4.
  destruct (run_keeps_control before w0 Hbefore Hconn) as [Hskip1 Hconn1].
  fold w1 in Hskip1, Hconn1. rewrite Hskip in Hskip1.
  destruct (source_change_step first src1 w1 Hk1 Hs1 Hconn1)
    as (Hconn2 & Hskip2 & Hfirst & _).
  fold w2 in Hconn2, Hskip2, Hfirst.
  destruct (run_keeps_skip_cleared between w2 Hbetween Hconn2 Hskip2)
    as [Hskip3 Hconn3].
  fold w3 in Hskip3, Hconn3.
  destruct (source_change_step next src2 w3 Hk2 Hs2 Hconn3)
    as (_ & _ & _ & Hnext).
  fold w4 in Hnext.
  split.
  - exact (Hfirst Hskip1).
  - destruct (Hnext Hskip3) as (Hm & Ht & _). repeat split; [exact Hm|exact Ht|].
    intros type Hne. rewrite Ht. now apply lookup_singleton_ne.
Qed.

(** ** Ended implies paused *)

(** The invariant of the data model: [ended] implies [paused && !playing]. *)
Definition endedImpliesPaused (m : MediaState) : Prop :=
  ended m = true → paused m = true ∧ playing m = false.

Lemma set_waiting_keeps_invariant (v : bool) (m : MediaState) :
  endedImpliesPaused m → endedImpliesPaused (set_waiting v m).
Proof. unfold endedImpliesPaused. destruct m; cbn. tauto. Qed.

Lemma resetTracking_keeps_invariant (w : World) :
  endedImpliesPaused (media w) → endedImpliesPaused (media (resetTracking w)).
Proof. rewrite resetTracking_media. apply set_waiting_keeps_invariant. Qed.

Lemma fireWaitingEvent_body_keeps_invariant (w : World) :
  endedImpliesPaused (media w) →
  endedImpliesPaused (media (fireWaitingEvent_body w)).
Proof.
  unfold fireWaitingEvent_body, endedImpliesPaused.
  destruct w as [m]; destruct m; unfold_handlers; simpl.
  repeat (break_if; simpl); tauto.
Qed.

Lemma onSourceChange_keeps_invariant (detail : string) (event : MediaEvent) (w : World) :
  (∀ m, endedImpliesPaused m → endedImpliesPaused (softResetMediaState m)) →
  endedImpliesPaused (media w) →
  endedImpliesPaused (media (fst (trackEvent (onSourceChange detail) event w))).
Proof.
  intros Hsoft Hinv.
  unfold trackEvent, onSourceChange.
  match goal with |- context [if ?c then _ else _] => destruct c end.
  - unfold endedImpliesPaused in *. destruct w as [m]; destruct m; simpl in *. tauto.
  - cbn [fst]. unfold upd at 1. cbn [media set_media set_trackedEvents].
    apply Hsoft. apply resetTracking_keeps_invariant.
    unfold endedImpliesPaused in *. destruct w as [m]; destruct m; simpl in *. tauto.
Qed.

(** Every listener keeps the invariant. *)
Lemma listeners_keep_invariant
    (k : MediaEventKind) (t : Tier) (h : Handler) (event : MediaEvent) (w : World) :
  (∀ m, endedImpliesPaused m → endedImpliesPaused (softResetMediaState m)) →
  In (t, h) (listeners k) →
  endedImpliesPaused (media w) →
  endedImpliesPaused (media (fst (h event w))).
Proof.
  intros Hsoft Hin Hinv.
  destruct k; cbn [listeners In] in Hin;
    repeat match goal with
           | H : _ ∨ _ |- _ => destruct H
           | H : False |- _ => destruct H
           | H : (_, _) = (_, _) |- _ => injection H as <- <-
           end;
    try (now apply onSourceChange_keeps_invariant);
    unfold endedImpliesPaused in *;
    destruct w as [m]; destruct m; unfold_handlers; simpl in *;
    repeat (break_if; simpl); try tauto; try (intros; discriminate);
    try (intros Hended; rewrite Hended in *; simpl in *; discriminate).
Qed.

Lemma onProviderDisconnect_media (w : World) :
  media (onProviderDisconnect w)
  = if connected w
    then set_viewType "unknown" (softResetMediaState (set_waiting false (media w)))
    else media w.
Proof.
  unfold onProviderDisconnect, _reset. destruct w. unfold_handlers. simpl.
  destruct connected0; [|reflexivity].
  destruct withRequestManager0; reflexivity.
Qed.

Lemma step_keeps_invariant (s : Step) (w : World) :
  (∀ m, endedImpliesPaused m → endedImpliesPaused (softResetMediaState m)) →
  endedImpliesPaused (media w) →
  endedImpliesPaused (media (step s w)).
Proof.
  intros Hsoft Hinv. destruct s as [event|p| | |]; cbn [step].
  - unfold handle.
    apply (runListeners_keeps (fun w' => endedImpliesPaused (media w'))); [|exact Hinv].
    intros t h Hin e0 w0 H0. now apply (listeners_keep_invariant (kind event) t h).
  - exact Hinv.
  - rewrite onProviderDisconnect_media.
    destruct (connected w); [|exact Hinv].
    assert (Hreset : endedImpliesPaused
                       (softResetMediaState (set_waiting false (media w)))).
    { apply Hsoft, set_waiting_keeps_invariant, Hinv. }
    revert Hreset. unfold endedImpliesPaused.
    destruct (softResetMediaState (set_waiting false (media w))). cbn. tauto.
  - unfold runResetTimer. destruct (resetTimers w); [exact Hinv|].
    now apply resetTracking_keeps_invariant.
  - unfold runWaitingTimer. destruct (waitingTimer w); [|exact Hinv].
    now apply fireWaitingEvent_body_keeps_invariant.
Qed.

(** C7: the invariant "[ended] implies [paused && !playing]" survives
    every step of the state manager (an engine event reaching its
    listeners, a provider attach or detach, a timer), so it holds in every
    state reached from a state in which it holds, given that the soft
    reset of the store keeps it. *)
Theorem ended_implies_paused_invariant (w0 : World) (steps : list Step) :
  (∀ m, endedImpliesPaused m → endedImpliesPaused (softResetMediaState m)) →
  endedImpliesPaused (media w0) →
  ∀ event : MediaEvent,
    let w := run steps w0 in
    let w' := fst (handle event w) in
    endedImpliesPaused (media w)
    ∧ (ended (media w') = true → paused (media w') = true ∧ playing (media w') = false).
Proof.
  intros Hsoft Hinv event.
  assert (Hrun : ∀ ss w, endedImpliesPaused (media w) →
                         endedImpliesPaused (media (run ss w))).
  { induction ss as [|s ss IH]; intros w Hw; [exact Hw|].
    rewrite run_cons. apply IH. now apply step_keeps_invariant. }
  cbv zeta. split.
  - now apply Hrun.
  - apply (step_keeps_invariant (ProviderEvent event) (run steps w0) Hsoft).
    now apply Hrun.
Qed.

(** ** Ad break round trip *)

(** The position and played ranges the controller holds for the restore. *)
Definition snapshot (a : AdsController) : float * option TimeRanges :=
  (previousPlaybackPosition a, previousPlayedTimeranges a).

Lemma _notify_durationChange_media (d : float) (trigger : option EventRef) (w : World) :
  media (_notify (VdsDurationChange d) trigger w)
  = set_duration (if is_nan d then 0%float else d) (media w).
Proof.
  unfold _notify, handler_handle. cbn [kind createEvent listeners].
  unfold onDurationChange, emit, upd. destruct w. simpl.
  now destruct (is_nan d).
Qed.

Lemma _notify_timeUpdate_media
    (t : float) (r : TimeRanges) (trigger : option EventRef) (w : World) :
  media (_notify (VdsTimeUpdate t r) trigger w)
  = set_waiting false (set_played r (set_currentTime t (media w))).
Proof.
  unfold _notify, handler_handle. cbn [kind createEvent listeners].
  unfold onTimeUpdate, emit, upd. destruct w. reflexivity.
Qed.

Lemma _notify_adEnded_media (trigger : option EventRef) (w : World) :
  media (_notify VdsAdEnded trigger w) = media w.
Proof. destruct w. reflexivity. Qed.

(** What [_onAdComplete] leaves in the store. *)
Lemma _onAdComplete_media (w : World) (a : AdsController) :
  let w' := fst (_onAdComplete (w, a)) in
  currentTime (media w') = previousPlaybackPosition a
  ∧ played (media w')
    = default (TimeRange 0%float 0%float) (previousPlayedTimeranges a)
  ∧ duration (media w')
    = (if is_nan (seekableEnd (media w)) then 0%float else seekableEnd (media w))
  ∧ snd (_onAdComplete (w, a)) = a.
Proof.
  unfold _onAdComplete. cbn [fst snd].
  rewrite _notify_adEnded_media, _notify_timeUpdate_media,
    _notify_durationChange_media.
  destruct (media w). cbn. easy.
Qed.

(** A linear ad start takes the snapshot from the store. *)
Lemma _onAdStart_snapshot (adEvent : AdEvent) (ad : Ad) (w : World) (a : AdsController) :
  getAd adEvent = Some ad →
  isLinear ad = true →
  snapshot (snd (_onAdStart adEvent (w, a)))
  = (currentTime (media w), Some (played (media w))).
Proof.
  intros Had Hlin. unfold _onAdStart, _onResized. rewrite Had, Hlin.
  cbn [adsManager set_previousPlayedTimeranges set_previousPlaybackPosition
       set_playingNonLinear].
  destruct (adsManager a); reflexivity.
Qed.

(** Only the start of a linear ad writes the snapshot. *)
Lemma adStep_keeps_snapshot (s : AdStep) (st : World * AdsController) :
  isLinearAdStart s = false →
  snapshot (snd (adStep s st)) = snapshot (snd st).
Proof.
  intros Hs. destruct st as [w a]. destruct s as [adEvent|s]; [|reflexivity].
  cbn in Hs. cbn [adStep]. unfold onAdEvent.
  destruct (ad_type adEvent);
    unfold _onAdBuffering, _onAdProgress, _onAdComplete, _onContentPauseRequested,
      _onContentResumeRequested, _onAdLoaded, _onAdClick, _onAdSkip, _onAdStart,
      _onAdComplete, _onAdLinearChanged, _onResized;
    try (destruct (getAd adEvent) as [ad|]; [rewrite Hs|]);
    repeat (break_if; cbn); reflexivity.
Qed.

Lemma runAds_keeps_snapshot (steps : list AdStep) (st : World * AdsController) :
  forallb (fun s => negb (isLinearAdStart s)) steps = true →
  snapshot (snd (runAds steps st)) = snapshot (snd st).
Proof.
  revert st. induction steps as [|s steps IH]; intros st Hall; [reflexivity|].
  cbn in Hall. apply andb_prop in Hall as [Hs Hrest].
  apply negb_true_iff in Hs.
  change (runAds (s :: steps) st) with (runAds steps (adStep s st)).
  rewrite (IH _ Hrest). now apply adStep_keeps_snapshot.
Qed.

(** C1, as the code has it: a linear ad start snapshots the content
    position and the played ranges; whatever the SDK and the engine report
    until the ad completes or is skipped, the completion restores
    [currentTime] and [played] to the snapshot.  The duration it writes is
    the store's [seekableEnd] read at completion (0 when that is NaN), not
    a duration saved before the ad. *)
Theorem ad_break_restores_position
    (adEvent done : AdEvent) (ad : Ad) (during : list AdStep)
    (w : World) (a : AdsController) :
  ad_type adEvent = start →
  getAd adEvent = Some ad →
  isLinear ad = true →
  forallb (fun s => negb (isLinearAdStart s)) during = true →
  ad_type done = complete ∨ ad_type done = skip →
  let s1 := onAdEvent adEvent (w, a) in
  let s2 := runAds during s1 in
  let s3 := onAdEvent done s2 in
  currentTime (media (fst s3)) = currentTime (media w)
  ∧ played (media (fst s3)) = played (media w)
  ∧ duration (media (fst s3))
    = (if is_nan (seekableEnd (media (fst s2))) then 0%float
       else seekableEnd (media (fst s2))).
Proof.
  intros Hstart Had Hlin Hduring Hdone s1 s2 s3.
  assert (Hsnap : snapshot (snd s2) = (currentTime (media w), Some (played (media w)))).
  { subst s2. rewrite (runAds_keeps_snapshot during s1 Hduring).
    subst s1. unfold onAdEvent. rewrite Hstart.
    now apply (_onAdStart_snapshot adEvent ad). }
  assert (Hs3 : s3 = _onAdComplete s2).
  { subst s3. unfold onAdEvent, _onAdSkip. now destruct Hdone as [-> | ->]. }
  rewrite Hs3. destruct s2 as [w2 a2]. cbn [fst snd] in *.
  destruct (_onAdComplete_media w2 a2) as (Ht & Hp & Hd & _).
  unfold snapshot in Hsnap. injection Hsnap as Hpos Hranges.
  rewrite Ht, Hp, Hd, Hpos, Hranges. repeat split.
Qed.

(** * Further properties *)

(** ** Requests that change nothing *)

(** X1: a request leaves the session exactly as it was when no provider is
    attached, and when the requested state already holds: mute while
    muted, unmute while not muted, play while not paused, pause while
    paused, start-loading once loading is allowed, and a volume equal to
    the current one. *)
Theorem request_without_effect (event : RequestEvent) (o : Outcomes) (w : World) :
  provider w = None
  ∨ (request event = MediaMuteRequest ∧ muted (media w) = true)
  ∨ (request event = MediaUnmuteRequest ∧ muted (media w) = false)
  ∨ (request event = MediaPlayRequest ∧ paused (media w) = false)
  ∨ (request event = MediaPauseRequest ∧ paused (media w) = true)
  ∨ (request event = MediaStartLoading ∧ canLoad (media w) = true)
  ∨ (∃ v, request event = MediaVolumeChangeRequest v
          ∧ (volume (media w) =? v)%float = true) →
  onRequest event o w = w.
Proof.
  intros H. unfold onRequest. destruct (provider w) eqn:Hp; [|reflexivity].
  destruct H as [H|[[Hr Hg]|[[Hr Hg]|[[Hr Hg]|[[Hr Hg]|[[Hr Hg]|(v & Hr & Hg)]]]]]];
    try discriminate H; rewrite Hr.
  - unfold onMuteRequest. now rewrite Hg.
  - unfold onUnmuteRequest. now rewrite Hg.
  - unfold onPlayRequest. now rewrite Hg.
  - unfold onPauseRequest. now rewrite Hg.
  - unfold onStartLoading. now rewrite Hg.
  - unfold onVolumeChangeRequest. now rewrite Hg.
Qed.

(** ** [play()] and [pause()] before playback is ready *)

(** The provider writes and calls recorded in a trace. *)
Definition providerCalls (tr : list Effect) : list Effect :=
  List.filter (fun e => match e with
                   | SetMuted _ | SetVolume _ | SetCurrentTime _
                   | CallPlay | CallPause
                   | CallFullscreenEnter | CallFullscreenExit => true
                   | _ => false
                   end) tr.

Lemma providerCalls_app (tr1 tr2 : list Effect) :
  providerCalls (tr1 ++ tr2) = providerCalls tr1 ++ providerCalls tr2.
Proof. apply List.filter_app. Qed.

(** Handing a play failure to the state manager calls nothing on the
    provider and leaves the state paused. *)
Lemma handler_handle_playFail
    (detail : Thrown) (autoplay : option bool) (id : nat) (w : World) :
  let w' := handler_handle (createEvent (VdsPlayFail detail autoplay) id None) w in
  providerCalls (trace w') = providerCalls (trace w)
  ∧ provider w' = provider w
  ∧ paused (media w') = true
  ∧ playing (media w') = false
  ∧ (withRequestManager w = true → queue w' !! "play" = None)
  ∧ ∃ errorEvent,
      handled (trace w') = handled (trace w) ++ [errorEvent]
      ∧ kind errorEvent = VdsPlayFail detail autoplay.
Proof.
  cbv zeta.
  assert (Hex : ∃ errorEvent,
             handled (trace (handler_handle
                               (createEvent (VdsPlayFail detail autoplay) id None) w))
             = handled (trace w) ++ [errorEvent]
             ∧ kind errorEvent = VdsPlayFail detail autoplay).
  { unfold handler_handle. cbn [kind createEvent listeners].
    match goal with
    | |- context [trackEvent onPlayFail ?ev ?w0] =>
        destruct (onPlayFail_handled ev w0) as (Hk & Hh);
        destruct (trackEvent onPlayFail ev w0) as [w1 e1]
    end.
    cbn [fst snd] in *. exists e1. split; [|exact Hk].
    unfold emit. cbn [trace set_trace]. rewrite handled_app, Hh. reflexivity. }
  repeat split; try exact Hex; clear Hex;
    unfold handler_handle; cbn [kind createEvent listeners];
    destruct w as [m]; destruct m; unfold_handlers; simpl;
    destruct withRequestManager0; simpl; try discriminate;
    destruct (queue0 !! "play") eqn:Hq; simpl;
    rewrite ?providerCalls_app; simpl; rewrite ?app_nil_r;
    try reflexivity; intros _; first [apply lookup_delete_eq | exact Hq].
Qed.

Lemma play_not_ready (o : Outcomes) (w : World) :
  provider w = None ∨ canPlay (media w) = false →
  paused (media w) = true →
  play o w
  = (handler_handle
       (createEvent (VdsPlayFail (coerceToError notReadyError)
                                 (Some (attemptingAutoplay (media w))))
                    (nextEventId w) None)
       (set_nextEventId (S (nextEventId w)) w),
     Rejected notReadyError).
Proof.
  intros Hnot Hpaused. unfold play, fresh. rewrite Hpaused. cbn [negb].
  destruct (provider w); [|reflexivity].
  destruct Hnot as [Hn|Hn]; [discriminate Hn|]. now rewrite Hn.
Qed.

(** X2: [play()] on a paused session without a provider, or before
    [canPlay], rejects with the readiness error; it hands one play-fail
    event carrying that error and the [attemptingAutoplay] flag to the
    state manager, leaves the state paused and never reaches the provider.
    [pause()] on a playing session in the same situation rejects with the
    same error and touches nothing. *)
Theorem play_and_pause_fail_fast_when_not_ready (o : Outcomes) (w : World) :
  provider w = None ∨ canPlay (media w) = false →
  (paused (media w) = true →
   let w' := fst (play o w) in
   snd (play o w) = Rejected notReadyError
   ∧ providerCalls (trace w') = providerCalls (trace w)
   ∧ provider w' = provider w
   ∧ paused (media w') = true
   ∧ playing (media w') = false
   ∧ ∃ errorEvent,
       handled (trace w') = handled (trace w) ++ [errorEvent]
       ∧ kind errorEvent
         = VdsPlayFail (coerceToError notReadyError)
                       (Some (attemptingAutoplay (media w))))
  ∧ (paused (media w) = false → pause o w = (w, Rejected notReadyError)).
Proof.
  intros Hnot. split.
  - intros Hpaused w'. subst w'.
    rewrite (play_not_ready o w Hnot Hpaused). cbn [fst snd].
    pose proof (handler_handle_playFail (coerceToError notReadyError)
                  (Some (attemptingAutoplay (media w))) (nextEventId w)
                  (set_nextEventId (S (nextEventId w)) w)) as H.
    cbv zeta in H. destruct H as (Hc & Hp & Hpa & Hpl & _ & Hh).
    repeat split; assumption.
  - intros Hplaying. unfold pause. rewrite Hplaying.
    destruct (provider w); [|reflexivity].
    destruct Hnot as [Hn|Hn]; [discriminate Hn|]. now rewrite Hn.
Qed.

(** X3: [play()] on a paused, ready session resolves as the provider's
    [play()] does and leaves the store alone.  When the media has ended,
    or its position is 0, the provider's position is first written back to
    0; otherwise the provider is only asked to play. *)
Theorem play_restarts_from_zero_after_end (o : Outcomes) (w : World) (p : Provider) :
  paused (media w) = true →
  provider w = Some p →
  canPlay (media w) = true →
  let w' := fst (play o w) in
  snd (play o w) = playResult o
  ∧ media w' = media w
  ∧ (ended (media w) || (currentTime (media w) =? 0)%float = true →
     trace w' = trace w ++ [SetCurrentTime 0%float; CallPlay]
     ∧ provider w' = Some (provider_set_currentTime 0%float p))
  ∧ (ended (media w) || (currentTime (media w) =? 0)%float = false →
     trace w' = trace w ++ [CallPlay] ∧ provider w' = Some p).
Proof.
  intros Hpaused Hp Hready w'. subst w'.
  unfold play, providerWrite. rewrite Hpaused, Hp, Hready. cbn [negb].
  destruct (ended (media w) || (currentTime (media w) =? 0)%float);
    cbn; rewrite ?Hp; cbn; rewrite <- ?app_assoc;
    repeat split; intros; try discriminate; split; reflexivity.
Qed.

(** ** Loop requests *)

(** X4: a loop request schedules one animation frame.  When that frame
    runs and the replay cannot start (the session is paused and either not
    ready or refused by the provider), both the looping and the replay
    flag are cleared again; when [play()] resolves, both flags stay set
    for the state manager to consume. *)
Theorem loop_flags_follow_play (event : RequestEvent) (o : Outcomes) (w : World) :
  let w' := loopFrame o (onLoopRequest event w) in
  loopFrames w' = loopFrames w
  ∧ (paused (media w) = true →
     (provider w = None ∨ canPlay (media w) = false
      ∨ ∃ e, playResult o = Rejected e) →
     isLooping w' = false ∧ isReplay w' = false)
  ∧ (paused (media w) = false
     ∨ ((∃ p, provider w = Some p) ∧ canPlay (media w) = true
        ∧ playResult o = Fulfilled) →
     isLooping w' = true ∧ isReplay w' = true).
Proof.
  cbv zeta. unfold loopFrame, onLoopRequest.
  cbn [loopFrames set_loopFrames].
  destruct w as [m]. destruct m.
  unfold play, fresh, providerWrite, handler_handle.
  cbn [kind createEvent listeners]. unfold_handlers. simpl.
  split; [|split].
  - repeat (break_if; simpl); reflexivity.
  - intros Hpaused Hrej. subst.
    destruct Hrej as [Hn|[Hn|[e Hn]]]; subst; simpl;
      split; repeat (break_if; simpl); try reflexivity; discriminate.
  - intros [Hplaying | ([p Hp] & Hready & Hres)]; subst; simpl;
      split; repeat (break_if; simpl); try reflexivity; discriminate.
Qed.

(** ** Failed requests and their pending records *)

(** Serving a category empties its slot and attributes the event to the
    record that was pending. *)
Lemma satisfyMediaRequest_serves (request : string) (event : MediaEvent) (w : World) :
  withRequestManager w = true →
  queue (fst (satisfyMediaRequest request event w)) !! request = None
  ∧ (∀ r, queue w !! request = Some r →
          requestEvent (snd (satisfyMediaRequest request event w)) = Some r).
Proof.
  intros Hrm. unfold satisfyMediaRequest, _serve. rewrite Hrm.
  destruct (queue w !! request) eqn:Hq; cbn.
  - split; [apply lookup_delete_eq|]. intros r' [= <-]. reflexivity.
  - split; [exact Hq|]. intros r' Hr. discriminate Hr.
Qed.

Lemma handler_handle_fullscreenError (detail : Thrown) (id : nat) (w : World) :
  withRequestManager w = true →
  let w' := handler_handle (createEvent (VdsFullscreenError detail) id None) w in
  queue w' !! "fullscreen" = None
  ∧ ∃ errorEvent,
      handled (trace w') = handled (trace w) ++ [errorEvent]
      ∧ kind errorEvent = VdsFullscreenError detail
      ∧ (∀ r, queue w !! "fullscreen" = Some r → requestEvent errorEvent = Some r).
Proof.
  intros Hrm. cbv zeta. unfold handler_handle. cbn [kind createEvent listeners].
  unfold onFullscreenError.
  set (ev := createEvent (VdsFullscreenError detail) id None).
  destruct (satisfyMediaRequest_serves "fullscreen" ev w Hrm) as (Hq & Hreq).
  destruct (satisfyMediaRequest_frame "fullscreen" ev w) as (Hk & Hfp & Hh & _).
  destruct (satisfyMediaRequest "fullscreen" ev w) as [w1 e1].
  cbn [fst snd] in *.
  destruct (fromProvider e1); cbn [negb].
  - split; [exact Hq|]. exists e1. unfold emit. cbn [trace set_trace].
    rewrite handled_app, Hh. repeat split; [exact Hk|exact Hreq].
  - unfold dispatchEvent, emit. cbn.
    split; [exact Hq|]. exists e1.
    rewrite !handled_app, Hh. cbn. rewrite app_nil_r.
    repeat split; [exact Hk|exact Hreq].
Qed.

Lemma handler_handle_playFail_attributed
    (detail : Thrown) (autoplay : option bool) (id : nat) (w : World) (r : RequestEvent) :
  withRequestManager w = true →
  queue w !! "play" = Some r →
  ∃ errorEvent,
    handled (trace (handler_handle (createEvent (VdsPlayFail detail autoplay) id None) w))
    = handled (trace w) ++ [errorEvent]
    ∧ kind errorEvent = VdsPlayFail detail autoplay
    ∧ requestEvent errorEvent = Some r.
Proof.
  intros Hrm Hq. unfold handler_handle. cbn [kind createEvent listeners].
  unfold trackEvent, onPlayFail.
  match goal with
  | |- context [satisfyMediaRequest "play" ?ev ?w0] =>
      destruct (satisfyMediaRequest_serves "play" ev w0 Hrm) as (_ & Hreq);
      destruct (satisfyMediaRequest_frame "play" ev w0) as (Hk & _ & Hh & _);
      destruct (satisfyMediaRequest "play" ev w0) as [w1 e1]
  end.
  cbn [fst snd] in *. exists e1. unfold emit. cbn [trace set_trace].
  rewrite handled_app, resetTracking_trace. cbn [trace upd set_media].
  rewrite Hh. cbn. repeat split.
  - rewrite Hk. apply appendTriggerEvent_kind.
  - apply Hreq. exact Hq.
Qed.

(** The fullscreen calls only add to the trace. *)
Lemma enterFullscreen_frame
    (target : option FullscreenTarget) (o : Outcomes) (w : World) :
  queue (fst (enterFullscreen target o w)) = queue w
  ∧ withRequestManager (fst (enterFullscreen target o w)) = withRequestManager w
  ∧ media (fst (enterFullscreen target o w)) = media w.
Proof.
  unfold enterFullscreen.
  destruct (throwIfFullscreenNotSupported _ _); [easy|].
  destruct (match fullscreenFor _ w with Some a => fs_active a | None => false end);
    [easy|].
  destruct (if so_supported (orientation w) then fullscreenOrientation w else None);
    [destruct (lockResult o)|]; easy.
Qed.

Lemma exitFullscreen_frame
    (target : option FullscreenTarget) (o : Outcomes) (w : World) :
  queue (fst (exitFullscreen target o w)) = queue w
  ∧ withRequestManager (fst (exitFullscreen target o w)) = withRequestManager w
  ∧ media (fst (exitFullscreen target o w)) = media w.
Proof.
  unfold exitFullscreen.
  destruct (throwIfFullscreenNotSupported _ _); [easy|].
  destruct (negb _); [easy|].
  destruct (so_locked (orientation w)); [destruct (unlockResult o)|]; easy.
Qed.

(** X5: with the request manager wired into the state manager, a play
    request the provider rejects and a fullscreen request that fails both
    end with an empty slot for their category, and the failure event
    handed to the state manager carries the failed request as its
    [requestEvent]; after the rejected play the state is paused and not
    playing. *)
Theorem failed_request_is_attributed_and_cleared
    (event : RequestEvent) (o : Outcomes) (e : Thrown) (w : World) :
  withRequestManager w = true →
  (paused (media w) = true →
   playResult o = Rejected e →
   let w' := onPlayRequest event o w in
   queue w' !! "play" = None
   ∧ paused (media w') = true
   ∧ playing (media w') = false
   ∧ ∃ errorEvent,
       handled (trace w') = handled (trace w) ++ [errorEvent]
       ∧ kind errorEvent = VdsPlayFail (coerceToError e) None
       ∧ requestEvent errorEvent = Some event)
  ∧ (∀ detail,
       snd (enterFullscreen detail o (_enqueue "fullscreen" event w)) = Rejected e →
       let w' := onEnterFullscreenRequest event detail o w in
       queue w' !! "fullscreen" = None
       ∧ ∃ errorEvent,
           handled (trace w') = handled (trace w) ++ [errorEvent]
           ∧ kind errorEvent = VdsFullscreenError (coerceToError e)
           ∧ requestEvent errorEvent = Some event)
  ∧ (∀ detail,
       snd (exitFullscreen detail o (_enqueue "fullscreen" event w)) = Rejected e →
       let w' := onExitFullscreenRequest event detail o w in
       queue w' !! "fullscreen" = None
       ∧ ∃ errorEvent,
           handled (trace w') = handled (trace w) ++ [errorEvent]
           ∧ kind errorEvent = VdsFullscreenError (coerceToError e)
           ∧ requestEvent errorEvent = Some event).
Proof.
  intros Hrm. split; [|split].
  - intros Hpaused Hres w'. subst w'.
    unfold onPlayRequest, onPlayRequest_catch, fresh. rewrite Hpaused, Hres.
    cbn [negb].
    set (w1 := emit CallPlay (_enqueue "play" event w)).
    assert (Hrm1 : withRequestManager (set_nextEventId (S (nextEventId w1)) w1) = true)
      by exact Hrm.
    assert (Hq1 : queue (set_nextEventId (S (nextEventId w1)) w1) !! "play" = Some event)
      by apply lookup_insert_eq.
    pose proof (handler_handle_playFail (coerceToError e) None (nextEventId w1)
                  (set_nextEventId (S (nextEventId w1)) w1)) as H.
    cbv zeta in H. destruct H as (_ & _ & Hpa & Hpl & Hq & _).
    destruct (handler_handle_playFail_attributed (coerceToError e) None
                (nextEventId w1) _ event Hrm1 Hq1) as (errorEvent & Hh & Hk & Hreq).
    repeat split; [exact (Hq Hrm1)|exact Hpa|exact Hpl|].
    exists errorEvent. repeat split; [|exact Hk|exact Hreq].
    rewrite Hh. subst w1. cbn. rewrite !handled_app. cbn. now rewrite !app_nil_r.
  - intros detail Hrej w'. subst w'. unfold onEnterFullscreenRequest.
    set (w1 := _enqueue "fullscreen" event w) in *.
    destruct (enterFullscreen_frame detail o w1) as (Hq2 & Hrm2 & _).
    pose proof (enterFullscreen_handled detail o w1) as Hh2.
    destruct (enterFullscreen detail o w1) as [w2 r].
    cbn [fst snd] in *. subst r.
    unfold onFullscreenRequest_catch, fresh.
    assert (Hrm3 : withRequestManager (set_nextEventId (S (nextEventId w2)) w2) = true).
    { cbn. now rewrite Hrm2. }
    destruct (handler_handle_fullscreenError (coerceToError e) (nextEventId w2)
                (set_nextEventId (S (nextEventId w2)) w2) Hrm3)
      as (Hq & errorEvent & Hh & Hk & Hreq).
    split; [exact Hq|]. exists errorEvent. repeat split; [|exact Hk|].
    + rewrite Hh. cbn [trace set_nextEventId]. rewrite Hh2. subst w1.
      unfold _enqueue, emit. cbn [trace set_trace set_queue].
      rewrite handled_app. cbn. now rewrite app_nil_r.
    + apply Hreq. cbn [queue set_nextEventId]. rewrite Hq2. subst w1.
      apply lookup_insert_eq.
  - intros detail Hrej w'. subst w'. unfold onExitFullscreenRequest.
    set (w1 := _enqueue "fullscreen" event w) in *.
    destruct (exitFullscreen_frame detail o w1) as (Hq2 & Hrm2 & _).
    pose proof (exitFullscreen_handled detail o w1) as Hh2.
    destruct (exitFullscreen detail o w1) as [w2 r].
    cbn [fst snd] in *. subst r.
    unfold onFullscreenRequest_catch, fresh.
    assert (Hrm3 : withRequestManager (set_nextEventId (S (nextEventId w2)) w2) = true).
    { cbn. now rewrite Hrm2. }
    destruct (handler_handle_fullscreenError (coerceToError e) (nextEventId w2)
                (set_nextEventId (S (nextEventId w2)) w2) Hrm3)
      as (Hq & errorEvent & Hh & Hk & Hreq).
    split; [exact Hq|]. exists errorEvent. repeat split; [|exact Hk|].
    + rewrite Hh. cbn [trace set_nextEventId]. rewrite Hh2. subst w1.
      unfold _enqueue, emit. cbn [trace set_trace set_queue].
      rewrite handled_app. cbn. now rewrite app_nil_r.
    + apply Hreq. cbn [queue set_nextEventId]. rewrite Hq2. subst w1.
      apply lookup_insert_eq.
Qed.

(** ** Fullscreen without support *)

(** The fullscreen and orientation calls recorded in a trace. *)
Definition adapterCalls (tr : list Effect) : list Effect :=
  List.filter (fun e => match e with
                        | CallFullscreenEnter | CallFullscreenExit
                        | CallOrientationLock _ | CallOrientationUnlock => true
                        | _ => false
                        end) tr.

Lemma adapterCalls_app (tr1 tr2 : list Effect) :
  adapterCalls (tr1 ++ tr2) = adapterCalls tr1 ++ adapterCalls tr2.
Proof. apply List.filter_app. Qed.

Lemma onFullscreenRequest_catch_adapterCalls (e : Thrown) (w : World) :
  adapterCalls (trace (onFullscreenRequest_catch e w)) = adapterCalls (trace w).
Proof.
  unfold onFullscreenRequest_catch, fresh, handler_handle.
  cbn [kind createEvent listeners].
  destruct w. unfold_handlers. simpl.
  repeat (break_if; simpl); rewrite ?adapterCalls_app; simpl;
    now rewrite ?app_nil_r.
Qed.

(** X6: when the adapter a fullscreen request resolves to is missing or
    reports no support, entering and exiting reject at once with the
    "no support" error and leave the session untouched; the request
    handlers then hand one fullscreen-error event carrying that error to
    the state manager, and neither a fullscreen adapter nor the
    orientation adapter is ever called. *)
Theorem unsupported_fullscreen_is_refused
    (event : RequestEvent) (detail : option FullscreenTarget) (o : Outcomes)
    (w : World) (error : Thrown) :
  throwIfFullscreenNotSupported (default PreferMedia detail)
    (fullscreenFor (default PreferMedia detail) w) = Some error →
  enterFullscreen detail o w = (w, Rejected error)
  ∧ exitFullscreen detail o w = (w, Rejected error)
  ∧ (∀ request,
       request = onEnterFullscreenRequest event detail o
       ∨ request = onExitFullscreenRequest event detail o →
       adapterCalls (trace (request w)) = adapterCalls (trace w)
       ∧ ∃ errorEvent,
           handled (trace (request w)) = handled (trace w) ++ [errorEvent]
           ∧ kind errorEvent = VdsFullscreenError (coerceToError error)).
Proof.
  intros Hthrow.
  assert (Henter : ∀ w0, fullscreenFor (default PreferMedia detail) w0
                         = fullscreenFor (default PreferMedia detail) w →
                         enterFullscreen detail o w0 = (w0, Rejected error)).
  { intros w0 Hfs. unfold enterFullscreen. cbv zeta. now rewrite Hfs, Hthrow. }
  assert (Hexit : ∀ w0, fullscreenFor (default PreferMedia detail) w0
                        = fullscreenFor (default PreferMedia detail) w →
                        exitFullscreen detail o w0 = (w0, Rejected error)).
  { intros w0 Hfs. unfold exitFullscreen. cbv zeta. now rewrite Hfs, Hthrow. }
  split; [now apply Henter|]. split; [now apply Hexit|].
  intros request [-> | ->].
  - unfold onEnterFullscreenRequest. rewrite Henter by reflexivity.
    rewrite onFullscreenRequest_catch_adapterCalls.
    destruct (onFullscreenRequest_catch_handled error (_enqueue "fullscreen" event w))
      as (errorEvent & Hh & Hk).
    split.
    + unfold _enqueue, emit. cbn [trace set_trace set_queue].
      rewrite adapterCalls_app. cbn. now rewrite app_nil_r.
    + exists errorEvent. split; [|exact Hk]. rewrite Hh.
      unfold _enqueue, emit. cbn [trace set_trace set_queue].
      rewrite handled_app. cbn. now rewrite app_nil_r.
  - unfold onExitFullscreenRequest. rewrite Hexit by reflexivity.
    rewrite onFullscreenRequest_catch_adapterCalls.
    destruct (onFullscreenRequest_catch_handled error (_enqueue "fullscreen" event w))
      as (errorEvent & Hh & Hk).
    split.
    + unfold _enqueue, emit. cbn [trace set_trace set_queue].
      rewrite adapterCalls_app. cbn. now rewrite app_nil_r.
    + exists errorEvent. split; [|exact Hk]. rewrite Hh.
      unfold _enqueue, emit. cbn [trace set_trace set_queue].
      rewrite handled_app. cbn. now rewrite app_nil_r.
Qed.

(** X7: after the effect that maintains [canFullscreen] has run, the
    store's [canFullscreen] says whether the fullscreen adapter or the
    provider's own fullscreen is supported; running the effect again
    changes nothing. *)
Theorem effectCanFullscreen_reflects_support (w : World) :
  let supported :=
    fs_supported (fullscreenAdapter w)
    || match provider w ≫= provider_fullscreen with
       | Some fs => fs_supported fs
       | None => false
       end in
  canFullscreen (media (effectCanFullscreen w)) = supported
  ∧ effectCanFullscreen (effectCanFullscreen w) = effectCanFullscreen w.
Proof.
  cbv zeta.
  set (supp := fun w0 : World =>
         fs_supported (fullscreenAdapter w0)
         || match provider w0 ≫= provider_fullscreen with
            | Some fs => fs_supported fs
            | None => false
            end).
  assert (Hrun : ∀ w0, canFullscreen (media (effectCanFullscreen w0)) = supp w0).
  { intros w0. unfold effectCanFullscreen. fold (supp w0).
    destruct (canLoad (media w0) && Bool.eqb (canFullscreen (media w0)) (supp w0))
      eqn:Hguard.
    - apply andb_prop in Hguard as [_ Heq]. now apply eqb_prop in Heq.
    - destruct w0 as [m0]; destruct m0; reflexivity. }
  assert (Hsupp : supp (effectCanFullscreen w) = supp w).
  { unfold effectCanFullscreen. destruct (_ && _); [reflexivity|].
    destruct w; reflexivity. }
  split; [apply Hrun|].
  unfold effectCanFullscreen at 1. fold (supp (effectCanFullscreen w)).
  rewrite Hsupp, <- (Hrun w), eqb_reflx.
  destruct (canLoad (media (effectCanFullscreen w))); [reflexivity|].
  cbn [andb]. generalize (effectCanFullscreen w). intros w1.
  destruct w1 as [m1]; destruct m1; reflexivity.
Qed.

(** ** From a request to the engine's answer *)

(** A volume-change event delivered to the listeners of the playback
    stage. *)
Lemma handle_volumeChange
    (v : float) (m : bool) (id : nat) (trigger : option EventRef) (w : World) :
  withRequestManager w = true →
  attachedCanPlayListeners w = true →
  let r := handle (createEvent (VdsVolumeChange v m) id trigger) w in
  volume (media (fst r)) = v
  ∧ muted (media (fst r)) = m || (v =? 0)%float
  ∧ queue (fst r) !! "volume" = None
  ∧ requestEvent (snd r) = queue w !! "volume"
  ∧ withRequestManager (fst r) = true
  ∧ attachedCanPlayListeners (fst r) = true.
Proof.
  intros Hrm Htier. cbv zeta. unfold handle.
  cbn [kind createEvent listeners]. rewrite runListeners_single.
  cbn [stopped createEvent attached]. rewrite Htier.
  unfold onVolumeChange, satisfyMediaRequest, _serve.
  destruct w as [m0]. destruct m0. cbn in Hrm, Htier. subst.
  unfold upd, emit. simpl.
  destruct (queue0 !! "volume") eqn:Hq; simpl.
  - repeat split. apply lookup_delete_eq.
  - repeat split. exact Hq.
Qed.

(** What a volume, mute or unmute request that passes its guard leaves
    pending. *)
Lemma volume_request_pending (event : RequestEvent) (o : Outcomes) (w : World) (p : Provider) :
  provider w = Some p →
  (request event = MediaMuteRequest ∧ muted (media w) = false)
  ∨ (request event = MediaUnmuteRequest ∧ muted (media w) = true)
  ∨ (∃ d, request event = MediaVolumeChangeRequest d
          ∧ (volume (media w) =? d)%float = false) →
  queue (onRequest event o w) !! "volume" = Some event
  ∧ withRequestManager (onRequest event o w) = withRequestManager w
  ∧ attachedCanPlayListeners (onRequest event o w) = attachedCanPlayListeners w
  ∧ media (onRequest event o w) = media w.
Proof.
  intros Hp Hreq. unfold onRequest. rewrite Hp.
  destruct Hreq as [[Hr Hg]|[[Hr Hg]|(d & Hr & Hg)]]; rewrite Hr.
  - unfold onMuteRequest, providerWrite. rewrite Hg. cbn. rewrite Hp. cbn.
    repeat split. apply lookup_insert_eq.
  - unfold onUnmuteRequest, providerWrite. rewrite Hg. cbn. rewrite Hp. cbn.
    destruct (volume (media w) =? 0)%float; cbn; repeat split;
      apply lookup_insert_eq.
  - unfold onVolumeChangeRequest, providerWrite. rewrite Hg. cbn. rewrite Hp. cbn.
    destruct ((0 <? d)%float && muted (media w)); cbn; repeat split;
      apply lookup_insert_eq.
Qed.

(** X8: a mute, unmute or volume request that passes its guard leaves one
    pending "volume" record, also when it wrote to the provider twice.
    The next volume-change event of the engine takes that record: it
    carries the request as its [requestEvent], the slot is empty
    afterwards, and the store shows the event's volume with
    [muted = event.muted || volume === 0].  A further volume-change event
    is attributed to no request. *)
Theorem volume_request_is_answered_once
    (event : RequestEvent) (o : Outcomes) (w : World) (p : Provider)
    (v1 v2 : float) (m1 m2 : bool) (id1 id2 : nat) :
  provider w = Some p →
  withRequestManager w = true →
  attachedCanPlayListeners w = true →
  (request event = MediaMuteRequest ∧ muted (media w) = false)
  ∨ (request event = MediaUnmuteRequest ∧ muted (media w) = true)
  ∨ (∃ d, request event = MediaVolumeChangeRequest d
          ∧ (volume (media w) =? d)%float = false) →
  let w1 := onRequest event o w in
  let first := handle (createEvent (VdsVolumeChange v1 m1) id1 None) w1 in
  let second := handle (createEvent (VdsVolumeChange v2 m2) id2 None) (fst first) in
  queue w1 !! "volume" = Some event
  ∧ requestEvent (snd first) = Some event
  ∧ queue (fst first) !! "volume" = None
  ∧ volume (media (fst first)) = v1
  ∧ muted (media (fst first)) = m1 || (v1 =? 0)%float
  ∧ requestEvent (snd second) = None.
Proof.
  intros Hp Hrm Htier Hreq w1 first second.
  destruct (volume_request_pending event o w p Hp Hreq) as (Hq1 & Hrm1 & Ht1 & _).
  fold w1 in Hq1, Hrm1, Ht1. rewrite Hrm in Hrm1. rewrite Htier in Ht1.
  destruct (handle_volumeChange v1 m1 id1 None w1 Hrm1 Ht1)
    as (Hv & Hm & Hq & Hre & Hrm2 & Ht2).
  fold first in Hv, Hm, Hq, Hre, Hrm2, Ht2.
  destruct (handle_volumeChange v2 m2 id2 None (fst first) Hrm2 Ht2)
    as (_ & _ & _ & Hre2 & _).
  fold second in Hre2.
  repeat split; try assumption.
  - now rewrite Hre.
  - now rewrite Hre2.
Qed.


Lemma stopped_appendTriggerEvent (event : MediaEvent) (trigger : option EventRef) :
  stopped (appendTriggerEvent event trigger) = stopped event.
Proof. now destruct trigger. Qed.

Lemma satisfyMediaRequest_stopped (request : string) (event : MediaEvent) (w : World) :
  stopped (snd (satisfyMediaRequest request event w)) = stopped event.
Proof.
  unfold satisfyMediaRequest, _serve.
  destruct (withRequestManager w); [|reflexivity].
  destruct (queue w !! request); reflexivity.
Qed.

(** The engine's "seeked" while a seeking request is the user's last
    word. *)
Lemma handle_seeked_suppressed (t : float) (id : nat) (w : World) :
  withRequestManager w = true →
  attachedCanPlayListeners w = true →
  isSeeking w = true →
  seeking (media w) = true →
  let r := handle (createEvent (VdsSeeked t) id None) w in
  stopped (snd r) = true
  ∧ media (fst r) = media w
  ∧ queue (fst r) = queue w
  ∧ provider (fst r) = provider w
  ∧ withRequestManager (fst r) = true
  ∧ attachedCanPlayListeners (fst r) = true.
Proof.
  intros Hrm Htier Hseeking Hstate. cbv zeta. unfold handle.
  cbn [kind createEvent listeners]. rewrite runListeners_single.
  cbn [stopped createEvent attached]. rewrite Htier.
  unfold trackEvent, onSeeked, seekingRequest.
  cbn [withRequestManager isSeeking set_trackedEvents].
  rewrite Hrm, Hseeking. cbn [andb fst snd].
  destruct w as [m]. destruct m. cbn in *. subst. repeat split.
Qed.

(** The engine's "seeked" once the seek request has been made. *)
Lemma handle_seeked_finishes (t : float) (id : nat) (w : World) (r : RequestEvent) :
  withRequestManager w = true →
  attachedCanPlayListeners w = true →
  isSeeking w = false →
  seeking (media w) = true →
  queue w !! "seeked" = Some r →
  let res := handle (createEvent (VdsSeeked t) id None) w in
  seeking (media (fst res)) = false
  ∧ currentTime (media (fst res)) = t
  ∧ ended (media (fst res))
    = (if (t =? duration (media w))%float then ended (media w) else false)
  ∧ requestEvent (snd res) = Some r
  ∧ queue (fst res) !! "seeked" = None
  ∧ stopped (snd res) = false.
Proof.
  intros Hrm Htier Hseeking Hstate Hq. cbv zeta. unfold handle.
  cbn [kind createEvent listeners]. rewrite runListeners_single.
  cbn [stopped createEvent attached]. rewrite Htier.
  destruct w as [m]. destruct m. cbn in Hrm, Htier, Hseeking, Hstate, Hq. subst.
  unfold trackEvent, onSeeked. unfold_handlers.
  destruct paused0; simpl; destruct (t =? duration0)%float; simpl;
    rewrite Hq; simpl;
    rewrite ?stopped_appendTriggerEvent; simpl;
    repeat split; apply lookup_delete_eq.
Qed.

Lemma onSeekRequest_frame (event : RequestEvent) (detail : float) (w : World) :
  withRequestManager (onSeekRequest event detail w) = withRequestManager w
  ∧ attachedCanPlayListeners (onSeekRequest event detail w)
    = attachedCanPlayListeners w
  ∧ isSeeking (onSeekRequest event detail w) = false
  ∧ seeking (media (onSeekRequest event detail w)) = seeking (media w)
  ∧ queue (onSeekRequest event detail w) !! "seeked" = Some event.
Proof.
  unfold onSeekRequest, providerWrite, _enqueue, emit.
  destruct w as [m]; destruct m. simpl.
  destruct ended0; simpl; destruct provider0; simpl;
    repeat split; apply lookup_insert_eq.
Qed.

(** X9: a seeking request marks the state as seeking, and while it is the
    last word of the user the engine's "seeked" is stopped and changes
    neither the state nor the pending records.  Once the seek request has
    arrived, the next "seeked" finishes the seek: [seeking] is cleared,
    [currentTime] is the event's time, the event carries the seek request
    as its [requestEvent] and the "seeked" slot is empty. *)
Theorem seek_request_finishes_the_seek
    (scrub seek : RequestEvent) (t early late : float) (id1 id2 : nat)
    (w : World) (p : Provider) :
  provider w = Some p →
  withRequestManager w = true →
  attachedCanPlayListeners w = true →
  let w1 := onSeekingRequest scrub w in
  let suppressed := handle (createEvent (VdsSeeked early) id1 None) w1 in
  let w2 := onSeekRequest seek t (fst suppressed) in
  let finished := handle (createEvent (VdsSeeked late) id2 None) w2 in
  seeking (media w1) = true
  ∧ stopped (snd suppressed) = true
  ∧ media (fst suppressed) = media w1
  ∧ queue (fst suppressed) = queue w1
  ∧ seeking (media (fst finished)) = false
  ∧ currentTime (media (fst finished)) = late
  ∧ requestEvent (snd finished) = Some seek
  ∧ queue (fst finished) !! "seeked" = None
  ∧ stopped (snd finished) = false.
Proof.
  intros Hp Hrm Htier w1 suppressed w2 finished.
  assert (H1 : withRequestManager w1 = true ∧ attachedCanPlayListeners w1 = true
               ∧ isSeeking w1 = true ∧ seeking (media w1) = true).
  { subst w1. destruct w as [m]; destruct m. cbn in *. now subst. }
  destruct H1 as (Hrm1 & Ht1 & Hs1 & Hst1).
  destruct (handle_seeked_suppressed early id1 w1 Hrm1 Ht1 Hs1 Hst1)
    as (Hstop & Hmedia & Hqueue & Hprov & Hrm2 & Ht2).
  fold suppressed in Hstop, Hmedia, Hqueue, Hprov, Hrm2, Ht2.
  assert (H2 : withRequestManager w2 = true ∧ attachedCanPlayListeners w2 = true
               ∧ isSeeking w2 = false ∧ seeking (media w2) = true
               ∧ queue w2 !! "seeked" = Some seek).
  { subst w2.
    destruct (onSeekRequest_frame seek t (fst suppressed)) as (E1 & E2 & E3 & E4 & E5).
    rewrite E1, E2, E3, E4, E5, Hmedia. repeat split; assumption. }
  destruct H2 as (Hrm3 & Ht3 & Hs3 & Hst3 & Hq3).
  destruct (handle_seeked_finishes late id2 w2 seek Hrm3 Ht3 Hs3 Hst3 Hq3)
    as (Hf1 & Hf2 & _ & Hf4 & Hf5 & Hf6).
  fold finished in Hf1, Hf2, Hf4, Hf5, Hf6.
  repeat split; assumption.
Qed.

(** ** Replay after a seek from the end *)







(** ** Listener stages *)

(** An event none of whose listeners is installed passes untouched. *)
Lemma handle_unattached (event : MediaEvent) (w : World) :
  (∀ t h, In (t, h) (listeners (kind event)) → attached t w = false) →
  handle event w = (w, event).
Proof.
  unfold handle. generalize (listeners (kind event)).
  induction l as [|[t h] rest IH]; intros Hall; cbn; [reflexivity|].
  destruct (stopped event); [reflexivity|].
  rewrite (Hall t h (or_introl eq_refl)).
  apply IH. intros t' h' Hin. apply (Hall t' h'). now right.
Qed.

(** X11: detaching the provider empties the request queue and the tracked
    events, removes the three staged listener groups and makes the next
    source change a first one again.  Until a provider is attached again,
    no engine event and no request changes the session (fullscreen events
    of the target apart). *)
Theorem detached_session_is_inert (w : World) (event : MediaEvent) :
  connected w = true →
  (∀ d, kind event ≠ VdsFullscreenChange d) →
  (∀ d, kind event ≠ VdsFullscreenError d) →
  let w' := onProviderDisconnect w in
  handle event w' = (w', event)
  ∧ (∀ request o, onRequest request o w' = w')
  ∧ (withRequestManager w = true → queue w' = ∅)
  ∧ trackedEvents w' = ∅
  ∧ skipInitialSrcChange w' = true
  ∧ waitingTimer w' = false.
Proof.
  intros Hconn Hfc Hfe w'.
  assert (Hflags : connected w' = false ∧ attachedCanLoadListeners w' = false
                   ∧ attachedLoadStartListeners w' = false
                   ∧ attachedCanPlayListeners w' = false
                   ∧ provider w' = None
                   ∧ (withRequestManager w = true → queue w' = ∅)
                   ∧ trackedEvents w' = ∅
                   ∧ skipInitialSrcChange w' = true
                   ∧ waitingTimer w' = false).
  { subst w'. unfold onProviderDisconnect, _reset.
    destruct w. cbn in Hconn. subst. unfold_handlers. simpl.
    destruct withRequestManager0; simpl; repeat split; intros; discriminate. }
  destruct Hflags as (Hc & H1 & H2 & H3 & Hp & Hq & Ht & Hs & Hw).
  repeat split; try assumption.
  - apply handle_unattached. intros t h Hin.
    destruct (kind event) eqn:Hk; cbn [listeners In] in Hin;
      try solve [exfalso; eapply Hfc; reflexivity];
      try solve [exfalso; eapply Hfe; reflexivity];
      repeat match goal with
             | H : _ ∨ _ |- _ => destruct H
             | H : False |- _ => destruct H
             | H : (_, _) = (_, _) |- _ => injection H as <- _
             end; cbn [attached]; assumption.
  - intros request o. unfold onRequest. now rewrite Hp.
Qed.

Lemma handle_canLoad_stage (id : nat) (w : World) :
  connected w = true →
  let w1 := fst (handle (createEvent VdsCanLoad id None) w) in
  attachedCanLoadListeners w1 = true
  ∧ attachedLoadStartListeners w1 = attachedLoadStartListeners w
  ∧ attachedCanPlayListeners w1 = attachedCanPlayListeners w
  ∧ connected w1 = true
  ∧ canLoad (media w1) = true.
Proof.
  intros Hconn. cbv zeta. unfold handle. cbn [kind createEvent listeners].
  rewrite runListeners_single. cbn [stopped createEvent attached]. rewrite Hconn.
  destruct w as [m]. destruct m. cbn in Hconn. subst.
  unfold trackEvent, onCanLoad. unfold_handlers.
  destruct withRequestManager0, attachedCanLoadListeners0; simpl;
    try destruct (queue0 !! "load"); simpl; repeat split.
Qed.

Lemma handle_loadStart_stage (id : nat) (w : World) :
  attachedCanLoadListeners w = true →
  let w1 := fst (handle (createEvent VdsLoadStart id None) w) in
  attachedCanLoadListeners w1 = true
  ∧ attachedLoadStartListeners w1 = true
  ∧ attachedCanPlayListeners w1 = attachedCanPlayListeners w
  ∧ connected w1 = connected w.
Proof.
  intros H1. cbv zeta. unfold handle. cbn [kind createEvent listeners].
  rewrite runListeners_single. cbn [stopped createEvent attached]. rewrite H1.
  destruct w as [m]. destruct m. cbn in H1. subst.
  unfold trackEvent, onLoadStart. unfold_handlers.
  destruct attachedLoadStartListeners0; simpl; repeat split.
Qed.

Lemma handle_canPlay_stage (d : float) (id : nat) (w : World) :
  attachedLoadStartListeners w = true →
  let w1 := fst (handle (createEvent (VdsCanPlay d) id None) w) in
  attachedCanLoadListeners w1 = attachedCanLoadListeners w
  ∧ attachedLoadStartListeners w1 = true
  ∧ attachedCanPlayListeners w1 = true
  ∧ canPlay (media w1) = true
  ∧ duration (media w1) = d.
Proof.
  intros H2. cbv zeta. unfold handle. cbn [kind createEvent listeners].
  rewrite runListeners_single. cbn [stopped createEvent attached]. rewrite H2.
  destruct w as [m]. destruct m. cbn in H2. subst.
  unfold trackEvent, onCanPlay. unfold_handlers.
  destruct attachedCanPlayListeners0; simpl; repeat split.
Qed.

(** X12: in a connected session with none of the staged groups installed,
    engine events of the later stages are ignored; can-load, load-start
    and can-play, in this order, install the three groups one after the
    other, and a can-play arriving before load-start is ignored. *)
Theorem listener_stages_unlock_in_order
    (w : World) (id1 id2 id3 : nat) (d : float) (event : MediaEvent) :
  connected w = true →
  attachedCanLoadListeners w = false →
  attachedLoadStartListeners w = false →
  attachedCanPlayListeners w = false →
  (∀ t h, In (t, h) (listeners (kind event)) →
          t = CanLoadTier ∨ t = LoadStartTier ∨ t = CanPlayTier) →
  let stages w0 := (attachedCanLoadListeners w0, attachedLoadStartListeners w0,
                    attachedCanPlayListeners w0) in
  let w1 := fst (handle (createEvent VdsCanLoad id1 None) w) in
  let w2 := fst (handle (createEvent VdsLoadStart id2 None) w1) in
  let w3 := fst (handle (createEvent (VdsCanPlay d) id3 None) w2) in
  handle event w = (w, event)
  ∧ stages w1 = (true, false, false)
  ∧ canLoad (media w1) = true
  ∧ fst (handle (createEvent (VdsCanPlay d) id3 None) w1)  = w1
  ∧ stages w2 = (true, true, false)
  ∧ stages w3 = (true, true, true)
  ∧ canPlay (media w3) = true
  ∧ duration (media w3) = d.
Proof.
  intros Hconn H1 H2 H3 Hlater stages w1 w2 w3.
  destruct (handle_canLoad_stage id1 w Hconn) as (A1 & A2 & A3 & A4 & A5).
  fold w1 in A1, A2, A3, A4, A5.
  destruct (handle_loadStart_stage id2 w1 A1) as (B1 & B2 & B3 & B4).
  fold w2 in B1, B2, B3, B4.
  destruct (handle_canPlay_stage d id3 w2 B2) as (C1 & C2 & C3 & C4 & C5).
  fold w3 in C1, C2, C3, C4, C5.
  subst stages. cbv beta.
  split.
  { apply handle_unattached. intros t h Hin.
    destruct (Hlater t h Hin) as [-> | [-> | ->]]; assumption. }
  split; [congruence|]. split; [exact A5|]. split.
  { rewrite handle_unattached; [reflexivity|].
    cbn [kind createEvent listeners In]. intros t h [[= <- _]|[]].
    cbn [attached]. congruence. }
  repeat split; congruence.
Qed.

(** ** What a run of the state manager keeps *)

Lemma run_keeps (P : World → Prop) (ok : Step → bool) :
  (∀ s w, ok s = true → P w → P (step s w)) →
  ∀ steps w, forallb ok steps = true → P w → P (run steps w).
Proof.
  intros Hstep. induction steps as [|s steps IH]; intros w Hall Hw; [exact Hw|].
  cbn in Hall. apply andb_prop in Hall as [Hs Hrest].
  rewrite run_cons. apply IH; [exact Hrest|]. now apply Hstep.
Qed.

(** The "started" notifications dispatched so far. *)
Definition startedCount (tr : list Effect) : nat :=
  length (List.filter
            (fun e => match kind e with VdsStarted => true | _ => false end)
            (dispatchedOnProvider tr)).

Lemma startedCount_app (tr1 tr2 : list Effect) :
  startedCount (tr1 ++ tr2) = startedCount tr1 + startedCount tr2.
Proof.
  unfold startedCount.
  now rewrite dispatchedOnProvider_app, List.filter_app, length_app.
Qed.

Lemma startedCount_single (e : Effect) :
  startedCount [e]
  = match e with
    | Dispatch ev => match kind ev with VdsStarted => 1 | _ => 0 end
    | _ => 0
    end.
Proof. destruct e; try reflexivity. unfold startedCount. cbn. now destruct (kind event). Qed.

(** The notifications dispatched plus the one still owed. *)
Definition startedBudget (w : World) : nat :=
  startedCount (trace w) + Nat.b2n (negb (started (media w))).

Lemma listeners_keep_startedBudget
    (k : MediaEventKind) (t : Tier) (h : Handler) (event : MediaEvent) (w : World) :
  (∀ d, k ≠ VdsSourceChange d) →
  In (t, h) (listeners k) →
  (startedBudget (fst (h event w)) <= startedBudget w)%nat.
Proof.
  intros Hk Hin. unfold startedBudget.
  destruct k; cbn [listeners In] in Hin;
    try solve [exfalso; eapply Hk; reflexivity];
    repeat match goal with
           | H : _ ∨ _ |- _ => destruct H
           | H : False |- _ => destruct H
           | H : (_, _) = (_, _) |- _ => injection H as <- <-
           end;
    destruct w as [m]; destruct m; unfold_handlers; destruct started0; simpl;
    repeat (break_if; simpl);
    rewrite ?startedCount_app, ?startedCount_single; simpl; lia.
Qed.

Lemma step_keeps_startedBudget (s : Step) (w : World) (n : nat) :
  negb (isSourceChange s) && negb (isDisconnect s) = true →
  (startedBudget w <= n)%nat →
  (startedBudget (step s w) <= n)%nat.
Proof.
  intros Hok Hw. apply andb_prop in Hok as [Hsrc Hdis].
  apply negb_true_iff in Hsrc, Hdis.
  destruct s as [event|p| | |]; cbn [step].
  - unfold handle.
    assert (Hk : ∀ d, kind event ≠ VdsSourceChange d).
    { intros d Hd. cbn in Hsrc. now rewrite Hd in Hsrc. }
    apply (runListeners_keeps (fun w' => (startedBudget w' <= n)%nat)); [|exact Hw].
    intros t h Hin e0 w0 H0.
    pose proof (listeners_keep_startedBudget (kind event) t h e0 w0 Hk Hin). lia.
  - exact Hw.
  - discriminate Hdis.
  - unfold runResetTimer. destruct (resetTimers w); [exact Hw|].
    unfold startedBudget in *.
    rewrite resetTracking_trace, resetTracking_media.
    destruct w as [m]; destruct m; exact Hw.
  - unfold runWaitingTimer. destruct (waitingTimer w); [|exact Hw].
    unfold fireWaitingEvent_body, startedBudget in *.
    destruct w as [m]; destruct m; unfold_handlers; destruct started0; simpl in *;
      repeat (break_if; simpl);
      rewrite ?startedCount_app, ?startedCount_single; simpl; lia.
Qed.

(** X13: between two reset boundaries (source changes and detaches), the
    state manager dispatches "started" at most once, and not at all when
    the state already shows [started]. *)
Theorem started_is_dispatched_at_most_once (steps : list Step) (w : World) :
  noBoundary steps = true →
  (startedCount (trace (run steps w))
   <= startedCount (trace w) + (if started (media w) then 0 else 1))%nat.
Proof.
  intros Hno.
  pose proof (run_keeps (fun w' => (startedBudget w' <= startedBudget w)%nat)
                (fun s => negb (isSourceChange s) && negb (isDisconnect s))
                (fun s w0 Hok H0 => step_keeps_startedBudget s w0 _ Hok H0)
                steps w Hno (le_n _)) as Hrun.
  unfold startedBudget in Hrun.
  destruct (started (media w)), (started (media (run steps w))); cbn in Hrun; lia.
Qed.

(** ** Further invariants of the state *)

(** [playing] and [paused] are never both true. *)
Definition playingExcludesPaused (m : MediaState) : Prop :=
  playing m = true → paused m = false.

(** A volume of 0 shows as muted. *)
Definition silentIsMuted (m : MediaState) : Prop :=
  (volume m =? 0)%float = true → muted m = true.

Lemma listeners_keep_both_invariants
    (k : MediaEventKind) (t : Tier) (h : Handler) (event : MediaEvent) (w : World) :
  (∀ d, k ≠ VdsSourceChange d) →
  In (t, h) (listeners k) →
  (playingExcludesPaused (media w) →
   playingExcludesPaused (media (fst (h event w))))
  ∧ (silentIsMuted (media w) → silentIsMuted (media (fst (h event w)))).
Proof.
  intros Hk Hin. unfold playingExcludesPaused, silentIsMuted.
  destruct k; cbn [listeners In] in Hin;
    try solve [exfalso; eapply Hk; reflexivity];
    repeat match goal with
           | H : _ ∨ _ |- _ => destruct H
           | H : False |- _ => destruct H
           | H : (_, _) = (_, _) |- _ => injection H as <- <-
           end;
    destruct w as [m]; destruct m; unfold_handlers; simpl;
    repeat (break_if; simpl); split; try tauto; try (intros; discriminate);
    try (intros _ Hzero; rewrite Hzero; apply orb_true_r).
Qed.

(** An invariant of the store kept by the soft reset is kept by every
    step, once every listener other than the source change keeps it. *)
Lemma step_keeps_media_invariant (P : MediaState → Prop) (s : Step) (w : World) :
  (∀ m, P m → P (softResetMediaState m)) →
  (∀ v m, P m → P (set_waiting v m)) →
  (∀ v m, P m → P (set_source v m)) →
  (∀ v m, P m → P (set_viewType v m)) →
  (∀ m, P m → P (set_playing false (set_waiting true m))) →
  (∀ k t h event w0, (∀ d, k ≠ VdsSourceChange d) → In (t, h) (listeners k) →
                     P (media w0) → P (media (fst (h event w0)))) →
  P (media w) → P (media (step s w)).
Proof.
  intros Hsoft Hwait Hsrc Hview Hfire Hlis Hw.
  destruct s as [event|p| | |]; cbn [step].
  - unfold handle.
    apply (runListeners_keeps (fun w' => P (media w'))); [|exact Hw].
    intros t h Hin e0 w0 H0.
    destruct (kind event) eqn:Hkind;
      try (apply (Hlis (kind event) t h e0 w0);
           [rewrite Hkind; discriminate | now rewrite Hkind | exact H0]).
    cbn [listeners In] in Hin. destruct Hin as [[= <- <-]|[]].
    unfold trackEvent, onSourceChange.
    match goal with |- context [if ?c then _ else _] => destruct c end.
    + cbn. now apply Hsrc.
    + cbn [fst]. unfold upd at 1. cbn [media set_media set_trackedEvents].
      apply Hsoft. rewrite resetTracking_media. apply Hwait.
      cbn. now apply Hsrc.
  - exact Hw.
  - rewrite onProviderDisconnect_media. destruct (connected w); [|exact Hw].
    apply Hview, Hsoft, Hwait, Hw.
  - unfold runResetTimer. destruct (resetTimers w); [exact Hw|].
    rewrite resetTracking_media. now apply Hwait.
  - unfold runWaitingTimer. destruct (waitingTimer w); [|exact Hw].
    unfold fireWaitingEvent_body.
    cbn [lastWaitingEvent set_waitingTimer].
    destruct (lastWaitingEvent w); [|exact Hw].
    assert (Hm : ∀ w0 : World,
               media (if connected w0 then w0 else w0) = media w0)
      by (intros w0; now destruct (connected w0)).
    destruct w as [m]. unfold upd, emit. simpl in *.
    destruct connected0; simpl; now apply Hfire.
Qed.

(** X14: [playing] and [paused] are never both true: every step of the
    state manager (an engine event reaching its listeners, an attach or a
    detach, a timer) keeps this, provided the soft reset of the store
    does. *)
Theorem playing_excludes_paused_invariant (w0 : World) (steps : list Step) :
  (∀ m, playingExcludesPaused m → playingExcludesPaused (softResetMediaState m)) →
  playingExcludesPaused (media w0) →
  playing (media (run steps w0)) = true → paused (media (run steps w0)) = false.
Proof.
  intros Hsoft H0.
  change (playingExcludesPaused (media (run steps w0))).
  apply (run_keeps (fun w => playingExcludesPaused (media w)) (fun _ => true));
    [|now apply forallb_forall|exact H0].
  intros s w _ Hw. apply step_keeps_media_invariant; try assumption.
  - intros v m. unfold playingExcludesPaused. destruct m; cbn. tauto.
  - intros v m. unfold playingExcludesPaused. destruct m; cbn. tauto.
  - intros v m. unfold playingExcludesPaused. destruct m; cbn. tauto.
  - intros m. unfold playingExcludesPaused. destruct m; cbn. discriminate.
  - intros k t h event w1 Hk Hin.
    apply (listeners_keep_both_invariants k t h event w1 Hk Hin).
Qed.

(** X15: a store that shows volume 0 shows [muted]: every step of the
    state manager keeps this, provided the soft reset of the store does.
    A mute request can therefore not meet an unmuted state at volume 0
    through the state manager. *)
Theorem silent_is_muted_invariant (w0 : World) (steps : list Step) :
  (∀ m, silentIsMuted m → silentIsMuted (softResetMediaState m)) →
  silentIsMuted (media w0) →
  (volume (media (run steps w0)) =? 0)%float = true →
  muted (media (run steps w0)) = true.
Proof.
  intros Hsoft H0.
  change (silentIsMuted (media (run steps w0))).
  apply (run_keeps (fun w => silentIsMuted (media w)) (fun _ => true));
    [|now apply forallb_forall|exact H0].
  intros s w _ Hw. apply step_keeps_media_invariant; try assumption.
  - intros v m. unfold silentIsMuted. destruct m; cbn. tauto.
  - intros v m. unfold silentIsMuted. destruct m; cbn. tauto.
  - intros v m. unfold silentIsMuted. destruct m; cbn. tauto.
  - intros m. unfold silentIsMuted. destruct m; cbn. tauto.
  - intros k t h event w1 Hk Hin.
    apply (listeners_keep_both_invariants k t h event w1 Hk Hin).
Qed.

(** ** Which events write which fields *)

Definition writesVolume (k : MediaEventKind) : bool :=
  match k with VdsVolumeChange _ _ => true | _ => false end.

Definition writesCurrentTime (k : MediaEventKind) : bool :=
  match k with
  | VdsTimeUpdate _ _ | VdsSeeking _ | VdsSeeked _ => true
  | _ => false
  end.

Definition writesDuration (k : MediaEventKind) : bool :=
  match k with
  | VdsCanPlay _ | VdsCanPlayThrough _ | VdsDurationChange _ => true
  | _ => false
  end.

Lemma listeners_write_their_fields
    (k : MediaEventKind) (t : Tier) (h : Handler) (event : MediaEvent) (w : World) :
  (∀ d, k ≠ VdsSourceChange d) →
  In (t, h) (listeners k) →
  (writesVolume k = false →
   volume (media (fst (h event w))) = volume (media w)
   ∧ muted (media (fst (h event w))) = muted (media w))
  ∧ (writesCurrentTime k = false →
     currentTime (media (fst (h event w))) = currentTime (media w))
  ∧ (writesDuration k = false →
     duration (media (fst (h event w))) = duration (media w)).
Proof.
  intros Hk Hin.
  destruct k; cbn [listeners In] in Hin;
    try solve [exfalso; eapply Hk; reflexivity];
    repeat match goal with
           | H : _ ∨ _ |- _ => destruct H
           | H : False |- _ => destruct H
           | H : (_, _) = (_, _) |- _ => injection H as <- <-
           end;
    destruct w as [m]; destruct m; unfold_handlers; simpl;
    repeat (break_if; simpl); repeat split; try reflexivity;
    intros; discriminate.
Qed.

(** X16: the state manager writes [volume] and [muted] only on a
    volume-change event, [currentTime] only on a time-update, seeking or
    seeked event, and [duration] only on a can-play, can-play-through or
    duration-change event (the soft reset of a source change apart);
    neither of its timers writes any of them. *)
Theorem fields_are_written_by_their_events_only (event : MediaEvent) (w : World) :
  (∀ d, kind event ≠ VdsSourceChange d) →
  let w' := step (ProviderEvent event) w in
  (writesVolume (kind event) = false →
   volume (media w') = volume (media w) ∧ muted (media w') = muted (media w))
  ∧ (writesCurrentTime (kind event) = false →
     currentTime (media w') = currentTime (media w))
  ∧ (writesDuration (kind event) = false →
     duration (media w') = duration (media w))
  ∧ (∀ timer, timer = ResetTimerFires ∨ timer = WaitingTimerFires →
       volume (media (step timer w)) = volume (media w)
       ∧ muted (media (step timer w)) = muted (media w)
       ∧ currentTime (media (step timer w)) = currentTime (media w)
       ∧ duration (media (step timer w)) = duration (media w)).
Proof.
  intros Hk w'. subst w'. cbn [step]. unfold handle.
  repeat split.
  - revert H.
    apply (runListeners_keeps
             (fun w0 => writesVolume (kind event) = false →
                        volume (media w0) = volume (media w))); [|reflexivity].
    intros t h Hin e0 w0 H0 Hw.
    destruct (listeners_write_their_fields (kind event) t h e0 w0 Hk Hin)
      as (Hv & _). destruct (Hv Hw) as [-> _]. now apply H0.
  - revert H.
    apply (runListeners_keeps
             (fun w0 => writesVolume (kind event) = false →
                        muted (media w0) = muted (media w))); [|reflexivity].
    intros t h Hin e0 w0 H0 Hw.
    destruct (listeners_write_their_fields (kind event) t h e0 w0 Hk Hin)
      as (Hv & _). destruct (Hv Hw) as [_ ->]. now apply H0.
  - apply (runListeners_keeps
             (fun w0 => writesCurrentTime (kind event) = false →
                        currentTime (media w0) = currentTime (media w)));
      [|reflexivity].
    intros t h Hin e0 w0 H0 Hw.
    destruct (listeners_write_their_fields (kind event) t h e0 w0 Hk Hin)
      as (_ & Hc & _). rewrite (Hc Hw). now apply H0.
  - apply (runListeners_keeps
             (fun w0 => writesDuration (kind event) = false →
                        duration (media w0) = duration (media w)));
      [|reflexivity].
    intros t h Hin e0 w0 H0 Hw.
    destruct (listeners_write_their_fields (kind event) t h e0 w0 Hk Hin)
      as (_ & _ & Hd). rewrite (Hd Hw). now apply H0.
  - destruct H as [-> | ->]; cbn [step];
      unfold runResetTimer, runWaitingTimer, fireWaitingEvent_body;
      destruct w as [m]; destruct m; unfold_handlers; simpl;
      repeat (break_if; simpl); reflexivity.
  - destruct H as [-> | ->]; cbn [step];
      unfold runResetTimer, runWaitingTimer, fireWaitingEvent_body;
      destruct w as [m]; destruct m; unfold_handlers; simpl;
      repeat (break_if; simpl); reflexivity.
  - destruct H as [-> | ->]; cbn [step];
      unfold runResetTimer, runWaitingTimer, fireWaitingEvent_body;
      destruct w as [m]; destruct m; unfold_handlers; simpl;
      repeat (break_if; simpl); reflexivity.
  - destruct H as [-> | ->]; cbn [step];
      unfold runResetTimer, runWaitingTimer, fireWaitingEvent_body;
      destruct w as [m]; destruct m; unfold_handlers; simpl;
      repeat (break_if; simpl); reflexivity.
Qed.

(** ** A state manager without a request manager *)

Lemma listeners_without_request_manager
    (k : MediaEventKind) (t : Tier) (h : Handler) (event : MediaEvent) (w : World) :
  In (t, h) (listeners k) →
  withRequestManager w = false →
  withRequestManager (fst (h event w)) = false
  ∧ queue (fst (h event w)) = queue w
  ∧ isSeeking (fst (h event w)) = isSeeking w
  ∧ isLooping (fst (h event w)) = isLooping w
  ∧ isReplay (fst (h event w)) = isReplay w
  ∧ requestEvent (snd (h event w)) = requestEvent event.
Proof.
  intros Hin Hrm.
  destruct k; cbn [listeners In] in Hin;
    repeat match goal with
           | H : _ ∨ _ |- _ => destruct H
           | H : False |- _ => destruct H
           | H : (_, _) = (_, _) |- _ => injection H as <- <-
           end;
    destruct w as [m]; destruct m; cbn in Hrm; subst;
    destruct event; unfold_handlers; unfold appendTriggerEvent,
      stopImmediatePropagation; simpl;
    repeat (break_if; simpl); repeat split;
    simpl in *; congruence.
Qed.

(** X17: a state manager created without a request manager never serves
    or resets the request queue and never writes the seeking, looping or
    replay flag, whatever the steps it takes. *)
Theorem state_manager_alone_leaves_requests (steps : list Step) (w : World) :
  withRequestManager w = false →
  queue (run steps w) = queue w
  ∧ isSeeking (run steps w) = isSeeking w
  ∧ isLooping (run steps w) = isLooping w
  ∧ isReplay (run steps w) = isReplay w.
Proof.
  intros Hrm.
  pose proof (run_keeps
    (fun w' => withRequestManager w' = false ∧ queue w' = queue w
               ∧ isSeeking w' = isSeeking w ∧ isLooping w' = isLooping w
               ∧ isReplay w' = isReplay w)
    (fun _ => true)) as Hrun.
  destruct (Hrun) with (steps := steps) (w := w) as (_ & H); try easy.
  - intros s w0 _ (Hrm0 & Hq & Hs & Hl & Hr).
    destruct s as [event|p| | |]; cbn [step].
    + unfold handle.
      apply (runListeners_keeps
               (fun w' => withRequestManager w' = false ∧ queue w' = queue w
                          ∧ isSeeking w' = isSeeking w ∧ isLooping w' = isLooping w
                          ∧ isReplay w' = isReplay w)); [|easy].
      intros t h Hin e0 w1 (Hrm1 & Hq1 & Hs1 & Hl1 & Hr1).
      destruct (listeners_without_request_manager (kind event) t h e0 w1 Hin Hrm1)
        as (A & B & C & D & E & _).
      repeat split; congruence.
    + easy.
    + unfold onProviderDisconnect, _reset.
      destruct w0 as [m]; cbn in *; subst. unfold_handlers. simpl.
      destruct connected0; simpl; easy.
    + unfold runResetTimer.
      destruct w0 as [m]; cbn in *; subst. unfold_handlers. simpl.
      destruct resetTimers0; simpl; easy.
    + unfold runWaitingTimer, fireWaitingEvent_body.
      destruct w0 as [m]; cbn in *; subst. unfold_handlers. simpl.
      repeat (break_if; simpl); easy.
  - now apply forallb_forall.
Qed.

(** ** The debounced waiting event *)






Lemma resetTracking_clears_waiting (w : World) :
  waitingTimer (resetTracking w) = false
  ∧ lastWaitingEvent (resetTracking w) = None
  ∧ waiting (media (resetTracking w)) = false.
Proof.
  destruct w as [m]; destruct m.
  unfold resetTracking, stopWaiting, isReplay_set, isLooping_set, upd. simpl.
  repeat (break_if; simpl); repeat split.
Qed.

Lemma looping_set_trackedEvents (t : gmap string EventRef) (w : World) :
  looping (set_trackedEvents t w) = looping w.
Proof. destruct w; reflexivity. Qed.

(** X19: a pause, an end of playback or a failed play cancels a pending
    waiting event: outside a loop, once one of them is handled no timer
    is armed, the store does not show waiting, and the firing of the
    waiting timer changes nothing. *)
Theorem pending_waiting_is_cancelled (event : MediaEvent) (w : World) :
  (kind event = VdsPause ∨ kind event = VdsEnded
   ∨ ∃ detail autoplay, kind event = VdsPlayFail detail autoplay) →
  stopped event = false →
  attachedCanPlayListeners w = true →
  looping w = false →
  let w' := step (ProviderEvent event) w in
  waitingTimer w' = false
  ∧ lastWaitingEvent w' = None
  ∧ waiting (media w') = false
  ∧ step WaitingTimerFires w' = w'.
Proof.
  intros Hk Hs Ha Hl w'. subst w'.
  assert (Hreset : ∃ w0, step (ProviderEvent event) w = resetTracking w0).
  { cbn [step]. unfold handle.
    destruct event as [k i c r s f]; cbn [kind stopped] in *. subst s.
    destruct Hk as [-> | [-> | (d & a & ->)]];
      cbn [listeners runListeners stopped attached]; rewrite Ha.
    - unfold trackEvent, onPause. rewrite looping_set_trackedEvents, Hl.
      match goal with
      | |- context [satisfyMediaRequest ?q ?e ?w1] =>
          destruct (satisfyMediaRequest q e w1) as [w2 e2]
      end.
      cbn [fst]. eexists. reflexivity.
    - unfold onEnded. rewrite Hl. cbn [fst]. eexists. reflexivity.
    - unfold trackEvent, onPlayFail.
      match goal with
      | |- context [satisfyMediaRequest ?q ?e ?w1] =>
          destruct (satisfyMediaRequest q e w1) as [w2 e2]
      end.
      cbn [fst]. eexists. reflexivity. }
  destruct Hreset as [w0 ->].
  destruct (resetTracking_clears_waiting w0) as (Ht & Hlast & Hw).
  repeat split; try assumption.
  cbn [step]. unfold runWaitingTimer. now rewrite Ht.
Qed.

(** ** Play requests and loop restarts *)





Lemma handle_play_looping (id : nat) (w : World) :
  attachedCanPlayListeners w = true →
  looping w = true →
  let r := handle (createEvent VdsPlay id None) w in
  stopped (snd r) = true
  ∧ fst r = set_trackedEvents
              (<["vds-play" := ref_of (createEvent VdsPlay id None)]> (trackedEvents w)) w.
Proof.
  intros Htier Hloop. cbv zeta. unfold handle.
  cbn [kind createEvent listeners]. rewrite runListeners_single.
  cbn [stopped createEvent attached]. rewrite Htier.
  unfold trackEvent, onPlay. rewrite looping_set_trackedEvents, Hloop.
  cbn [orb fst snd stopImmediatePropagation stopped]. split; reflexivity.
Qed.

Lemma handle_playing_looping (id : nat) (w : World) :
  attachedCanPlayListeners w = true →
  looping w = true →
  let r := handle (createEvent VdsPlaying id None) w in
  stopped (snd r) = true
  ∧ playing (media (fst r)) = true
  ∧ paused (media (fst r)) = false
  ∧ ended (media (fst r)) = false
  ∧ started (media (fst r)) = started (media w)
  ∧ looping (fst r) = false
  ∧ trace (fst r) = trace w
  ∧ replaying (step ResetTimerFires (fst r)) = false.
Proof.
  intros Htier Hloop. cbv zeta. unfold handle.
  cbn [kind createEvent listeners]. rewrite runListeners_single.
  cbn [stopped createEvent attached]. rewrite Htier.
  destruct w as [m]. destruct m. unfold looping in Hloop.
  cbn in Htier, Hloop. apply andb_true_iff in Hloop as [-> ->]. subst.
  unfold trackEvent, onPlaying, looping, tracked, upd.
  cbn [set_trackedEvents withRequestManager isLooping andb set_resetTimers set_media
       media].
  cbn [fst snd stopImmediatePropagation stopped set_isLooping media trace
       withRequestManager isLooping andb
       Media.set_paused Media.set_playing Media.set_seeking Media.set_ended
       Media.playing Media.paused Media.ended Media.started].
  repeat split.
Qed.

(** X21: the restart of a loop is silent.  While the looping flag is set,
    the engine's play event is kept from other listeners and writes
    nothing to the store; the playing event that follows is kept from
    other listeners as well, shows the media playing and not ended, and
    clears the looping flag.  Neither dispatches an event on the
    provider, so a loop announces no "replay" and no "started"; the
    replay flag is cleared when the deferred reset runs. *)
Theorem loop_restart_is_silent (id1 id2 : nat) (w : World) :
  attachedCanPlayListeners w = true →
  looping w = true →
  let r1 := handle (createEvent VdsPlay id1 None) w in
  let r2 := handle (createEvent VdsPlaying id2 None) (fst r1) in
  stopped (snd r1) = true
  ∧ media (fst r1) = media w
  ∧ stopped (snd r2) = true
  ∧ playing (media (fst r2)) = true
  ∧ paused (media (fst r2)) = false
  ∧ ended (media (fst r2)) = false
  ∧ started (media (fst r2)) = started (media w)
  ∧ looping (fst r2) = false
  ∧ trace (fst r2) = trace w
  ∧ replaying (step ResetTimerFires (fst r2)) = false.
Proof.
  intros Htier Hloop. cbv zeta.
  destruct (handle_play_looping id1 w Htier Hloop) as (A1 & A2).
  generalize dependent (handle (createEvent VdsPlay id1 None) w).
  intros r1 A1 A2.
  assert (Hm : media (fst r1) = media w) by (rewrite A2; now destruct w).
  assert (Ht : trace (fst r1) = trace w) by (rewrite A2; now destruct w).
  assert (Htier1 : attachedCanPlayListeners (fst r1) = true)
    by (rewrite A2; now destruct w).
  assert (Hloop1 : looping (fst r1) = true)
    by (rewrite A2; now rewrite looping_set_trackedEvents).
  destruct (handle_playing_looping id2 (fst r1) Htier1 Hloop1)
    as (B1 & B2 & B3 & B4 & B5 & B6 & B7 & B8).
  rewrite Hm in B5. rewrite Ht in B7.
  repeat split; assumption.
Qed.

(** ** The idle detector over time *)

Inductive UserStep : Type :=
| UserInput (event : User.InputEvent)
| TimePasses (ms : Z)
| MediaPaused (mediaPaused : bool)
| TrackingPaused (v : bool).

Definition userStep (s : UserStep) (u : User.MediaUser) : User.MediaUser :=
  match s with
  | UserInput event => User.handleIdleChange event u
  | TimePasses ms => User.elapse ms u
  | MediaPaused mediaPaused => User.effectMediaPaused mediaPaused u
  | TrackingPaused v => User.paused_set v u
  end.

Definition userRun (steps : list UserStep) (u : User.MediaUser) : User.MediaUser :=
  fold_left (fun u s => userStep s u) steps u.

Definition resumesTracking (s : UserStep) : bool :=
  match s with TrackingPaused false => true | _ => false end.

(** X22: while idle tracking is paused the detector is inert: from a
    paused, idle detector with no pending timer, inputs, the passing of
    time, pauses of the media and repeated pause requests arm no timer,
    dispatch no idle change and leave the detector idle; only resuming
    the tracking ends this. *)
Theorem paused_tracking_is_inert (steps : list UserStep) (u : User.MediaUser) :
  User.paused u = true →
  User.idling u = true →
  User.idleTimeout u = None →
  forallb (fun s => negb (resumesTracking s)) steps = true →
  let u' := userRun steps u in
  User.paused u' = true
  ∧ User.idling u' = true
  ∧ User.idleTimeout u' = None
  ∧ User.dispatched u' = User.dispatched u
  ∧ User.triggerEvent u' = User.triggerEvent u.
Proof.
  revert u. induction steps as [|s steps IH]; intros u Hp Hi Ht Hs; cbv zeta.
  - repeat split; assumption.
  - cbn [forallb] in Hs. apply andb_true_iff in Hs as [Hs Hrest].
    unfold userRun. cbn [fold_left]. fold (userRun steps (userStep s u)).
    assert (Hstep : userStep s u = User.set_clock (User.clock (userStep s u)) u).
    { destruct u as [i p d t to c ds]. cbn in Hp, Hi, Ht. subst.
      destruct s as [e|ms|[|]|[|]]; try discriminate Hs; reflexivity. }
    specialize (IH (userStep s u)). rewrite Hstep in IH |- *.
    destruct u as [i p d t to c ds]. cbn in Hp, Hi, Ht. subst.
    now apply IH.
Qed.

(** X23: pausing the tracking ends a pending timer only when it changes
    the idle state.  On a detector that is not idle, the pause makes it
    idle, dispatches one idle change with no trigger and leaves no timer.
    On a detector that is idle already, nothing is dispatched and a
    pending timer stays armed: when its deadline passes, the detector
    stops idling and dispatches that change with the input as trigger,
    although the tracking is still paused. *)
Theorem pausing_keeps_the_timer_of_an_idle_detector
    (u : User.MediaUser) (deadline : Z) (event : User.InputEvent) :
  User.paused u = false →
  let u' := User.paused_set true u in
  (User.idling u = false →
   User.idling u' = true
   ∧ User.idleTimeout u' = None
   ∧ User.dispatched u' = User.dispatched u ++ [(true, None)])
  ∧ (User.idling u = true →
     User.idleTimeout u = Some (deadline, event) →
     User.dispatched u' = User.dispatched u
     ∧ User.idleTimeout u' = Some (deadline, event)
     ∧ ∀ ms, (deadline <= User.clock u + ms)%Z →
         User.paused (User.elapse ms u') = true
         ∧ User.idling (User.elapse ms u') = false
         ∧ User.dispatched (User.elapse ms u')
           = User.dispatched u ++ [(false, Some event)]).
Proof.
  intros Hp. cbv zeta.
  destruct u as [i p d t to c ds]. cbn in Hp. subst p.
  split.
  - cbn. intros ->. repeat split.
  - cbn. intros -> ->. repeat split.
    all: unfold User.elapse; cbn;
      apply Z.leb_le in H; rewrite H; reflexivity.
Qed.


(** ** Ads: overlays, progress and completion *)

Definition adIsLinear (adEvent : AdEvent) : bool :=
  match getAd adEvent with
  | Some ad => isLinear ad
  | None => false
  end.

Lemma handled_emit_resize (margin : Z) (w : World) :
  handled (trace (emit (AdsManagerResize margin) w)) = handled (trace w).
Proof.
  unfold emit, handled. destruct w. simpl.
  rewrite flat_map_app. simpl. now rewrite app_nil_r.
Qed.

(** X25: the ad container is resized to leave the control bar free
    exactly while a non-linear ad is showing.  On a start or
    linear-changed event of the SDK the controller records whether the ad
    is an overlay (no ad counts as one) and, with an ads manager, resizes
    it with a bottom margin of 50 for an overlay and of 0 for a linear
    ad.  An overlay leaves the store and the saved content position
    untouched and notifies nothing. *)
Theorem overlay_ads_leave_the_content_alone
    (adEvent : AdEvent) (w : World) (a : AdsController) :
  ad_type adEvent = start ∨ ad_type adEvent = linearChanged →
  let s' := onAdEvent adEvent (w, a) in
  playingNonLinear (snd s') = negb (adIsLinear adEvent)
  ∧ (adsManager a = true →
     last (trace (fst s'))
     = Some (AdsManagerResize (if adIsLinear adEvent then 0 else 50)%Z))
  ∧ (adIsLinear adEvent = false →
     media (fst s') = media w
     ∧ snapshot (snd s') = snapshot a
     ∧ handled (trace (fst s')) = handled (trace w)
     ∧ (adsManager a = false → trace (fst s') = trace w)).
Proof.
  intros Hk. cbv zeta. unfold onAdEvent, adIsLinear.
  destruct Hk as [-> | ->]; unfold _onAdStart, _onAdLinearChanged, _onResized;
    destruct (getAd adEvent) as [ad|]; try destruct (isLinear ad);
    cbn [adsManager set_previousPlayedTimeranges set_previousPlaybackPosition
         set_playingNonLinear playingNonLinear negb];
    destruct (adsManager a); cbn [fst snd playingNonLinear set_playingNonLinear];
    (split; [reflexivity|]);
    (split; [intros Hm; try discriminate Hm; unfold emit; cbn [trace set_trace];
             try (destruct w; apply last_snoc)
            |intros Hl; try discriminate Hl;
             rewrite ?handled_emit_resize;
             repeat split; try (intros Hm; discriminate Hm);
             try (destruct w; reflexivity)]).
  all: try (destruct (upd _ _); cbn; apply last_snoc).
Qed.

Lemma _notify_play_duration (trigger : option EventRef) (w : World) :
  duration (media (_notify VdsPlay trigger w)) = duration (media w).
Proof.
  unfold _notify, handler_handle. cbn [kind createEvent listeners].
  set (event := createEvent VdsPlay (nextEventId w) trigger).
  set (w0 := set_nextEventId (S (nextEventId w)) w).
  assert (Hd : duration (media (fst (trackEvent onPlay event w0)))
               = duration (media w0)).
  { apply (listeners_write_their_fields VdsPlay CanPlayTier (trackEvent onPlay)).
    - intros d. discriminate.
    - cbn. now left.
    - reflexivity. }
  destruct (trackEvent onPlay event w0) as [w1 e1]. cbn [fst] in Hd.
  transitivity (duration (media w1)); [now destruct w1|].
  rewrite Hd. subst w0. now destruct w.
Qed.

(** X26: while a linear ad plays, the store shows the ad's own timeline.
    The start of a linear ad writes the ad's duration to the store (0 for
    NaN); a progress event that follows writes as current time that
    duration minus the remaining time the ads manager reports (nothing is
    subtracted without an ads manager, or when it reports NaN or 0),
    gives the played range from 0 to that time, and keeps the saved
    content position. *)
Theorem ad_progress_shows_the_ads_timeline
    (adEvent progress : AdEvent) (ad : Ad) (w : World) (a : AdsController) :
  ad_type adEvent = start →
  getAd adEvent = Some ad →
  isLinear ad = true →
  ad_type progress = adProgress →
  let adDuration := if is_nan (getDuration ad) then 0%float else getDuration ad in
  let remaining :=
    if adsManager a then or_zero (getRemainingTime progress) else 0%float in
  let s1 := onAdEvent adEvent (w, a) in
  let s2 := onAdEvent progress s1 in
  duration (media (fst s1)) = adDuration
  ∧ adStarted (media (fst s1)) = true
  ∧ currentTime (media (fst s2)) = (adDuration - remaining)%float
  ∧ played (media (fst s2)) = TimeRange 0%float (adDuration - remaining)%float
  ∧ duration (media (fst s2)) = adDuration
  ∧ snapshot (snd s2) = (currentTime (media w), Some (played (media w))).
Proof.
  intros Hstart Had Hlin Hprog. cbv zeta.
  assert (Hs1 : duration (media (fst (onAdEvent adEvent (w, a))))
                = (if is_nan (getDuration ad) then 0%float else getDuration ad)
                ∧ adStarted (media (fst (onAdEvent adEvent (w, a)))) = true
                ∧ adsManager (snd (onAdEvent adEvent (w, a))) = adsManager a
                ∧ snapshot (snd (onAdEvent adEvent (w, a)))
                  = (currentTime (media w), Some (played (media w)))).
  { unfold onAdEvent. rewrite Hstart.
    split; [|split; [|split]].
    - unfold _onAdStart, _onResized. rewrite Had, Hlin.
      cbn [adsManager set_previousPlayedTimeranges set_previousPlaybackPosition
           set_playingNonLinear].
      match goal with
      | |- context [upd (set_adStarted true) ?w0] =>
          assert (Hd : duration (media (upd (set_adStarted true) w0))
                       = duration (media w0)) by (destruct w0 as [m]; now destruct m);
          generalize dependent (upd (set_adStarted true) w0)
      end.
      intros w1 Hd.
      transitivity (duration (media w1)).
      { destruct (adsManager a); cbn [fst]; [now destruct w1|reflexivity]. }
      rewrite Hd, _notify_play_duration, _notify_durationChange_media.
      now destruct (media w).
    - unfold _onAdStart, _onResized. rewrite Had, Hlin.
      cbn [adsManager set_previousPlayedTimeranges set_previousPlaybackPosition
           set_playingNonLinear].
      match goal with
      | |- context [upd (set_adStarted true) ?w0] =>
          assert (Hd : adStarted (media (upd (set_adStarted true) w0)) = true)
            by (destruct w0 as [m]; now destruct m);
          generalize dependent (upd (set_adStarted true) w0)
      end.
      intros w1 Hd.
      destruct (adsManager a); cbn [fst]; [now destruct w1|assumption].
    - unfold _onAdStart, _onResized. rewrite Had, Hlin.
      cbn [adsManager set_previousPlayedTimeranges set_previousPlaybackPosition
           set_playingNonLinear].
      destruct (adsManager a) eqn:Hm; cbn [snd adsManager]; assumption.
    - now apply (_onAdStart_snapshot adEvent ad). }
  destruct Hs1 as (Hd1 & Hstarted1 & Hm1 & Hsnap1).
  destruct (onAdEvent adEvent (w, a)) as [w1 a1]. cbn [fst snd] in *.
  unfold onAdEvent. rewrite Hprog. unfold _onAdProgress. cbn [fst snd].
  rewrite _notify_timeUpdate_media, Hm1, Hd1.
  split; [reflexivity|]. split; [assumption|].
  destruct (media w1). cbn in *. subst. repeat split. assumption.
Qed.

(** X27: the completion handler also runs for ads that never took the
    content's place.  When an ad completes or is skipped and no linear ad
    has started since the controller was created, there are no saved
    played ranges: the store's current time becomes the controller's
    initial position and its played range the range from 0 to 0, wherever
    the content was. *)
Theorem completion_without_linear_start_rewinds
    (done : AdEvent) (during : list AdStep) (position : float)
    (w : World) (a : AdsController) :
  snapshot a = (position, None) →
  forallb (fun s => negb (isLinearAdStart s)) during = true →
  ad_type done = complete ∨ ad_type done = skip →
  let s2 := runAds during (w, a) in
  let s3 := onAdEvent done s2 in
  currentTime (media (fst s3)) = position
  ∧ played (media (fst s3)) = TimeRange 0%float 0%float.
Proof.
  intros Hsnap Hduring Hdone s2 s3.
  assert (Hsnap2 : snapshot (snd s2) = (position, None)).
  { subst s2. now rewrite (runAds_keeps_snapshot during (w, a) Hduring). }
  assert (Hs3 : s3 = _onAdComplete s2).
  { subst s3. unfold onAdEvent, _onAdSkip. now destruct Hdone as [-> | ->]. }
  rewrite Hs3. destruct s2 as [w2 a2]. cbn [fst snd] in *.
  destruct (_onAdComplete_media w2 a2) as (Ht & Hp & _).
  unfold snapshot in Hsnap2. injection Hsnap2 as Hpos Hranges.
  rewrite Ht, Hp, Hpos, Hranges. split; reflexivity.
Qed.

(** A linear ad break, from its start to its completion. *)
Definition adBreak (adEvent done : AdEvent) (during : list AdStep)
    (st : World * AdsController) : World * AdsController :=
  onAdEvent done (runAds during (onAdEvent adEvent st)).

Definition isLinearBreak (adEvent done : AdEvent) (during : list AdStep) : bool :=
  isLinearAdStart (SdkEvent adEvent)
  && forallb (fun s => negb (isLinearAdStart s)) during
  && match ad_type done with complete | skip => true | _ => false end.

Lemma adBreak_restores (adEvent done : AdEvent) (during : list AdStep)
    (st : World * AdsController) :
  isLinearBreak adEvent done during = true →
  currentTime (media (fst (adBreak adEvent done during st)))
  = currentTime (media (fst st))
  ∧ played (media (fst (adBreak adEvent done during st))) = played (media (fst st)).
Proof.
  unfold isLinearBreak, adBreak. intros Hb.
  apply andb_true_iff in Hb as [Hb Hdone]. apply andb_true_iff in Hb as [Hstart Hduring].
  destruct st as [w a]. cbn [fst].
  cbn [isLinearAdStart] in Hstart.
  destruct (ad_type adEvent) eqn:Hty; try discriminate Hstart.
  destruct (getAd adEvent) as [ad|] eqn:Had; try discriminate Hstart.
  assert (Hsnap : snapshot (snd (runAds during (onAdEvent adEvent (w, a))))
                  = (currentTime (media w), Some (played (media w)))).
  { rewrite (runAds_keeps_snapshot during _ Hduring).
    unfold onAdEvent. rewrite Hty. now apply (_onAdStart_snapshot adEvent ad). }
  destruct (runAds during (onAdEvent adEvent (w, a))) as [w2 a2].
  cbn [snd] in Hsnap.
  assert (Hs3 : onAdEvent done (w2, a2) = _onAdComplete (w2, a2)).
  { unfold onAdEvent, _onAdSkip. destruct (ad_type done); try discriminate Hdone;
      reflexivity. }
  rewrite Hs3.
  destruct (_onAdComplete_media w2 a2) as (Ht & Hp & _).
  unfold snapshot in Hsnap. injection Hsnap as Hpos Hranges.
  rewrite Ht, Hp, Hpos, Hranges. split; reflexivity.
Qed.

(** X28: in a pod of linear ads, each of them started after the one
    before has completed or was skipped, the store shows after every ad
    the content position and the played ranges from before the pod. *)
Theorem ad_pod_restores_position
    (pod : list (AdEvent * list AdStep * AdEvent)) (st : World * AdsController) :
  forallb (fun '(adEvent, during, done) => isLinearBreak adEvent done during) pod
  = true →
  let st' := fold_left (fun st '(adEvent, during, done) =>
                          adBreak adEvent done during st) pod st in
  currentTime (media (fst st')) = currentTime (media (fst st))
  ∧ played (media (fst st')) = played (media (fst st)).
Proof.
  revert st. induction pod as [|[[adEvent during] done] pod IH]; intros st Hall.
  - split; reflexivity.
  - cbn [forallb] in Hall. apply andb_true_iff in Hall as [Hb Hrest].
    cbn [fold_left]. cbv zeta in IH.
    destruct (IH (adBreak adEvent done during st) Hrest) as [Ht Hp].
    destruct (adBreak_restores adEvent done during st Hb) as [Ht1 Hp1].
    split; congruence.
Qed.

(** ** The DOM type of an ad event *)

Import Stdlib.Strings.Ascii.

(** [type.replace(/_/g, '-')].  A string is a sequence of bytes here; the
    byte of the underscore occurs in no other character's encoding. *)
Fixpoint toDOMEventType (type : string) : string :=
  match type with
  | EmptyString => EmptyString
  | String c rest =>
      String (if Ascii.eqb c "_" then "-"%char else c) (toDOMEventType rest)
  end.

Fixpoint occurs (c : Ascii.ascii) (s : string) : bool :=
  match s with
  | EmptyString => false
  | String c' rest => Ascii.eqb c c' || occurs c rest
  end.

(** X29: the DOM event type under which an ad event is dispatched has the
    length of the mapped name and contains no underscore; converting it
    again changes nothing, a name without underscore is kept as it is,
    and a name with one is never dispatched under that name. *)
Theorem toDOMEventType_has_no_underscore (type : string) :
  occurs "_" (toDOMEventType type) = false
  ∧ String.length (toDOMEventType type) = String.length type
  ∧ toDOMEventType (toDOMEventType type) = toDOMEventType type
  ∧ (occurs "_" type = false → toDOMEventType type = type)
  ∧ (occurs "_" type = true → toDOMEventType type ≠ type).
Proof.
  assert (Hnone : ∀ s, occurs "_" (toDOMEventType s) = false).
  { induction s as [|c s IH]; [reflexivity|]. cbn [toDOMEventType occurs].
    rewrite IH, orb_false_r.
    destruct (Ascii.eqb c "_") eqn:Hc; [reflexivity|].
    now rewrite Ascii.eqb_sym. }
  assert (Hfix : ∀ s, occurs "_" s = false → toDOMEventType s = s).
  { induction s as [|c s IH]; [reflexivity|]. cbn [toDOMEventType occurs].
    intros Ho. apply orb_false_iff in Ho as [Hc Hs].
    rewrite Ascii.eqb_sym in Hc. rewrite Hc. now rewrite IH. }
  repeat split.
  - apply Hnone.
  - induction type as [|c s IH]; [reflexivity|]. cbn. now rewrite IH.
  - apply Hfix, Hnone.
  - apply Hfix.
  - intros Ho Heq. rewrite <- Heq, Hnone in Ho. discriminate Ho.
Qed.

End Player.

(** * The properties on concrete sessions *)

(** ** Seek requests: a duration of 10 and a request for 9.9 *)

Lemma onSeekRequest_spans_to_end_witness :
  provider_currentTime
    <$> provider (onSeekRequest (aRequest (MediaSeekRequest 9.9%float) 1) 9.9%float
                    (aSession (set_duration 10%float mediaAtRest)))
  = Some 10%float.
Proof.
  exact (proj1 (onSeekRequest_spans_to_end
                  (aRequest (MediaSeekRequest 9.9%float) 1) 9.9%float
                  (aSession (set_duration 10%float mediaAtRest))
                  (aProvider (set_duration 10%float mediaAtRest)) eq_refl)
               eq_refl).
Defined.

(** ** Ended while looping *)

Lemma onEnded_suppressed_while_looping_witness :
  let w := set_isLooping true (aSession (set_playing true (set_paused false mediaAtRest))) in
  ended (media (fst (onEnded (anEvent VdsEnded 1) w))) = false
  ∧ fst (handle softResetAtRest (anEvent VdsEnded 1) w) = w.
Proof.
  cbv zeta.
  pose proof (onEnded_suppressed_while_looping softResetAtRest (anEvent VdsEnded 1)
    (set_isLooping true (aSession (set_playing true (set_paused false mediaAtRest))))
    eq_refl) as (_ & _ & Hended & _ & Hhandle).
  split; [exact Hended | exact (Hhandle eq_refl)].
Defined.

(** ** Volume requests: muted at volume 0.5, a request for 0.8 *)

Lemma onVolumeChangeRequest_unmutes_witness :
  let m := set_muted true (set_volume 0.5%float mediaAtRest) in
  let event := aRequest (MediaVolumeChangeRequest 0.8%float) 1 in
  let w' := onVolumeChangeRequest event 0.8%float (aSession m) in
  enqueued "volume" (trace w') = [event; event]
  ∧ provider_muted <$> provider w' = Some false
  ∧ provider_volume <$> provider w' = Some 0.8%float.
Proof.
  cbv zeta.
  pose proof (proj1 (onVolumeChangeRequest_unmutes
    (aRequest (MediaVolumeChangeRequest 0.8%float) 1) 0.8%float
    (aSession (set_muted true (set_volume 0.5%float mediaAtRest)))
    (aProvider (set_muted true (set_volume 0.5%float mediaAtRest))) eq_refl)
    eq_refl eq_refl eq_refl) as (_ & Henq & Hprov & _).
  cbv zeta in Henq, Hprov. rewrite Henq, Hprov. repeat split.
Defined.


(** ** Mute at volume 0, unmute at volume 0 *)

Lemma mute_once_unmute_restores_volume_witness :
  let event := aRequest MediaUnmuteRequest 1 in
  let w' := onUnmuteRequest event
              (aSession (set_muted true (set_volume 0%float mediaAtRest))) in
  enqueued "volume" (trace w') = [event; event]
  ∧ provider_muted <$> provider w' = Some false
  ∧ provider_volume <$> provider w' = Some 0.25%float.
Proof.
  cbv zeta.
  pose proof (proj2 (mute_once_unmute_restores_volume
    (aRequest MediaUnmuteRequest 1)
    (aSession (set_muted true (set_volume 0%float mediaAtRest)))
    (aProvider (set_muted true (set_volume 0%float mediaAtRest))) eq_refl)
    eq_refl eq_refl) as (Henq & _ & Hm & Hv).
  cbv zeta in Henq, Hm, Hv. rewrite Henq, Hm, Hv. repeat split.
Defined.

(** A mute request at [muted = false], [volume = 0]: one record is
    enqueued and the provider's volume stays 0, also once the provider has
    reported the change back. *)
Lemma mute_at_volume_zero_counterexample :
  let event := aRequest MediaMuteRequest 1 in
  let w := aSession (set_volume 0%float mediaAtRest) in
  let w' := onMuteRequest event w in
  let echoed := fst (handle softResetAtRest
                       (anEvent (VdsVolumeChange 0%float true) 2) w') in
  (enqueued "volume" (trace w') = [event]
   ∧ provider_muted <$> provider w' = Some true
   ∧ provider_volume <$> provider w' = Some 0%float
   ∧ muted (media echoed) = true
   ∧ (volume (media echoed) =? 0.25)%float = false)
  ∧ ¬ (length (enqueued "volume" (trace w')) = 2
       ∧ provider_muted <$> provider w' = Some true
       ∧ provider_volume <$> provider w' = Some 0.25%float).
Proof.
  cbv zeta. split.
  - repeat split.
  - intros (Hlen & _). vm_compute in Hlen. discriminate Hlen.
Qed.

(** ** Idle detector: idling, then a pointer move and 2000ms of silence *)

Lemma idle_timer_clears_idling_witness :
  User.idling
    (User.elapse 2000
       (User.handleIdleChange aPointerMove
          (User.set_idling true User.useMediaUser)))
  = false.
Proof.
  exact (proj1 (proj2 (idle_timer_clears_idling aPointerMove
                         (User.set_idling true User.useMediaUser) eq_refl))).
Defined.

(** ** Source changes: two of them within one attachment *)

Lemma source_change_is_reset_boundary_after_first_witness :
  let w1 := run softResetAtRest [ProviderEvent (anEvent VdsCanLoad 1)]
              (aSession (set_volume 0.5%float mediaAtRest)) in
  let first := anEvent (VdsSourceChange "a.mp4") 2 in
  let w2 := step softResetAtRest (ProviderEvent first) w1 in
  let w3 := run softResetAtRest
              [ProviderEvent (anEvent VdsPlay 3); ProviderEvent (anEvent VdsPlaying 4)]
              w2 in
  let next := anEvent (VdsSourceChange "b.mp4") 5 in
  let w4 := step softResetAtRest (ProviderEvent next) w3 in
  (media w2 = set_source "a.mp4" (media w1)
   ∧ trackedEvents w2 = <["vds-source-change" := ref_of first]> (trackedEvents w1))
  ∧ (media w4 = softResetAtRest (set_waiting false (set_source "b.mp4" (media w3)))
     ∧ trackedEvents w4 = {["vds-source-change" := ref_of next]}
     ∧ ∀ type, type ≠ "vds-source-change" → trackedEvents w4 !! type = None).
Proof.
  exact (source_change_is_reset_boundary_after_first softResetAtRest
           (aSession (set_volume 0.5%float mediaAtRest))
           [ProviderEvent (anEvent VdsCanLoad 1)]
           [ProviderEvent (anEvent VdsPlay 3); ProviderEvent (anEvent VdsPlaying 4)]
           (anEvent (VdsSourceChange "a.mp4") 2)
           (anEvent (VdsSourceChange "b.mp4") 5)
           "a.mp4" "b.mp4"
           eq_refl eq_refl eq_refl eq_refl eq_refl eq_refl eq_refl eq_refl).
Defined.

(** ** Ended implies paused: play, playing, ended, then a seek back *)

Lemma softResetAtRest_keeps_invariant (m : MediaState) :
  endedImpliesPaused m → endedImpliesPaused (softResetAtRest m).
Proof. intros _. unfold endedImpliesPaused. cbn. discriminate. Qed.

Lemma ended_implies_paused_invariant_witness :
  let w := run softResetAtRest
             [ProviderEvent (anEvent VdsPlay 1); ProviderEvent (anEvent VdsPlaying 2);
              ProviderEvent (anEvent VdsEnded 3)]
             (aSession mediaAtRest) in
  let w' := fst (handle softResetAtRest (anEvent VdsWaiting 4) w) in
  endedImpliesPaused (media w)
  ∧ (ended (media w') = true → paused (media w') = true ∧ playing (media w') = false).
Proof.
  refine (ended_implies_paused_invariant softResetAtRest (aSession mediaAtRest)
            [ProviderEvent (anEvent VdsPlay 1); ProviderEvent (anEvent VdsPlaying 2);
             ProviderEvent (anEvent VdsEnded 3)]
            softResetAtRest_keeps_invariant _ (anEvent VdsWaiting 4)).
  unfold endedImpliesPaused. cbn. discriminate.
Defined.

(** ** A rejected pause, play and fullscreen enter *)

Lemma pause_rejection_is_absorbed_witness :
  let e := ErrorObject "NotAllowedError" in
  let event := aRequest MediaPauseRequest 1 in
  let w := aSession contentAt42 in
  let w' := onPauseRequest true true event (rejectEverything e) w in
  queue w' !! "pause" = None
  ∧ trace w' = [Enqueue "pause" event; CallPause; Delete "pause";
                LogError "pause-fail" e]
  ∧ handled (trace w') = []
  ∧ dispatchedOnProvider (trace w') = []
  ∧ media w' = media w.
Proof.
  exact (proj1 (pause_rejection_is_absorbed softResetAtRest true true
                  (aRequest MediaPauseRequest 1)
                  (rejectEverything (ErrorObject "NotAllowedError"))
                  (ErrorObject "NotAllowedError")
                  (aSession contentAt42))
               eq_refl eq_refl).
Defined.

(** ** An ad break at 42s of a content of 100s, seekable up to 80s *)

Lemma ad_break_restores_position_witness :
  let w := aSession contentAt42 in
  let s1 := onAdEvent softResetAtRest seekableEndOfRanges (anAdEvent start 1 30%float)
              (w, set_adsManager true newAdsController) in
  let s2 := runAds softResetAtRest seekableEndOfRanges
              [SdkEvent (anAdEvent adProgress 2 10%float)] s1 in
  let s3 := onAdEvent softResetAtRest seekableEndOfRanges
              (anAdEvent complete 3 0%float) s2 in
  currentTime (media (fst s3)) = 42%float
  ∧ played (media (fst s3)) = [(0%float, 42%float)]
  ∧ duration (media (fst s3)) = 80%float.
Proof.
  cbv zeta.
  pose proof (ad_break_restores_position softResetAtRest seekableEndOfRanges
                (anAdEvent start 1 30%float) (anAdEvent complete 3 0%float) aLinearAd
                [SdkEvent (anAdEvent adProgress 2 10%float)]
                (aSession contentAt42) (set_adsManager true newAdsController)
                eq_refl eq_refl eq_refl eq_refl (or_introl eq_refl))
    as (Ht & Hp & Hd).
  rewrite Ht, Hp, Hd. vm_compute. repeat split.
Defined.

(** The same ad break: the duration was 100 before the ad and is 80, the
    seekable end, after it. *)
Lemma ad_break_duration_counterexample :
  let w := aSession contentAt42 in
  let s1 := onAdEvent softResetAtRest seekableEndOfRanges (anAdEvent start 1 30%float)
              (w, set_adsManager true newAdsController) in
  let s2 := runAds softResetAtRest seekableEndOfRanges
              [SdkEvent (anAdEvent adProgress 2 10%float)] s1 in
  let s3 := onAdEvent softResetAtRest seekableEndOfRanges
              (anAdEvent complete 3 0%float) s2 in
  (duration (media w) = 100%float
   ∧ duration (media (fst s3)) = 80%float
   ∧ (duration (media (fst s3)) =? duration (media w))%float = false)
  ∧ ¬ (currentTime (media (fst s3)) = currentTime (media w)
       ∧ played (media (fst s3)) = played (media w)
       ∧ duration (media (fst s3)) = duration (media w)).
Proof.
  cbv zeta. split.
  - vm_compute. repeat split.
  - intros (_ & _ & Hd).
    apply (f_equal (fun x => (x =? 100)%float)) in Hd.
    vm_compute in Hd. discriminate Hd.
Qed.

(** * The further properties on concrete sessions *)

(** Every awaited call is fulfilled. *)
Definition fulfilEverything : Outcomes :=
  {| playResult := Fulfilled; pauseResult := Fulfilled;
     lockResult := Fulfilled; unlockResult := Fulfilled;
     enterResult := Fulfilled; exitResult := Fulfilled |}.

(** Paused media that is ready for playback. *)
Definition readyAtRest : MediaState := set_canPlay true mediaAtRest.

(** ** Requests *)

Lemma request_without_effect_witness :
  let w := aSession (set_muted true mediaAtRest) in
  onRequest softResetAtRest true true (aRequest MediaMuteRequest 1)
    fulfilEverything w = w.
Proof.
  exact (request_without_effect softResetAtRest true true
           (aRequest MediaMuteRequest 1) fulfilEverything
           (aSession (set_muted true mediaAtRest))
           (or_intror (or_introl (conj eq_refl eq_refl)))).
Defined.

Lemma play_and_pause_fail_fast_when_not_ready_witness :
  let w := aSession mediaAtRest in
  snd (play softResetAtRest true fulfilEverything w) = Rejected (notReadyError true)
  ∧ providerCalls (trace (fst (play softResetAtRest true fulfilEverything w))) = [].
Proof.
  cbv zeta.
  pose proof (proj1 (play_and_pause_fail_fast_when_not_ready softResetAtRest true
                       fulfilEverything (aSession mediaAtRest) (or_intror eq_refl))
                    eq_refl) as (Hr & Hc & _).
  split; [exact Hr | exact Hc].
Defined.

Lemma play_restarts_from_zero_after_end_witness :
  let w := aSession (set_ended true (set_currentTime 100%float readyAtRest)) in
  trace (fst (play softResetAtRest true fulfilEverything w))
  = [SetCurrentTime 0%float; CallPlay].
Proof.
  cbv zeta.
  pose proof (play_restarts_from_zero_after_end softResetAtRest true fulfilEverything
                (aSession (set_ended true (set_currentTime 100%float readyAtRest)))
                _ eq_refl eq_refl eq_refl) as (_ & _ & Hz & _).
  exact (proj1 (Hz eq_refl)).
Defined.

Lemma failed_request_is_attributed_and_cleared_witness :
  let event := aRequest MediaPlayRequest 1 in
  let w' := onPlayRequest softResetAtRest event
              (rejectEverything (OtherValue "NotAllowedError"))
              (aSession readyAtRest) in
  queue w' !! "play" = None
  ∧ ∃ errorEvent,
      handled (trace w') = [errorEvent]
      ∧ kind errorEvent = VdsPlayFail (ErrorObject "NotAllowedError") None
      ∧ requestEvent errorEvent = Some event.
Proof.
  cbv zeta.
  pose proof (proj1 (failed_request_is_attributed_and_cleared softResetAtRest true
                       (aRequest MediaPlayRequest 1)
                       (rejectEverything (OtherValue "NotAllowedError"))
                       (OtherValue "NotAllowedError")
                       (aSession readyAtRest) eq_refl)
                    eq_refl eq_refl) as (Hq & _ & _ & Hex).
  split; [exact Hq | exact Hex].
Defined.

(** A session whose player cannot go fullscreen. *)
Definition withoutFullscreen (w : World) : World :=
  set_fullscreenAdapter {| fs_supported := false; fs_active := false |} w.

Lemma unsupported_fullscreen_is_refused_witness :
  let w := withoutFullscreen (aSession readyAtRest) in
  let event := aRequest (MediaEnterFullscreenRequest (Some TargetMedia)) 1 in
  let error := ErrorObject "[vidstack] no fullscreen support" in
  enterFullscreen false (Some TargetMedia) fulfilEverything w = (w, Rejected error)
  ∧ adapterCalls
      (trace (onEnterFullscreenRequest softResetAtRest false event (Some TargetMedia)
                fulfilEverything w)) = [].
Proof.
  cbv zeta.
  pose proof (unsupported_fullscreen_is_refused softResetAtRest false
                (aRequest (MediaEnterFullscreenRequest (Some TargetMedia)) 1)
                (Some TargetMedia) fulfilEverything
                (withoutFullscreen (aSession readyAtRest))
                (ErrorObject "[vidstack] no fullscreen support") eq_refl)
    as (He & _ & Hreq).
  split; [exact He|].
  exact (proj1 (Hreq _ (or_introl eq_refl))).
Defined.

Lemma volume_request_is_answered_once_witness :
  let event := aRequest (MediaVolumeChangeRequest 0.5%float) 1 in
  let w1 := onRequest softResetAtRest true true event fulfilEverything
              (aSession readyAtRest) in
  let first := handle softResetAtRest
                 (createEvent (VdsVolumeChange 0.5%float false) 2 None) w1 in
  let second := handle softResetAtRest
                  (createEvent (VdsVolumeChange 0.5%float true) 3 None) (fst first) in
  requestEvent (snd first) = Some event
  ∧ requestEvent (snd second) = None.
Proof.
  cbv zeta.
  pose proof (volume_request_is_answered_once softResetAtRest true true
                (aRequest (MediaVolumeChangeRequest 0.5%float) 1) fulfilEverything
                (aSession readyAtRest) _ 0.5%float 0.5%float false true 2 3
                eq_refl eq_refl eq_refl
                (or_intror (or_intror (ex_intro _ 0.5%float (conj eq_refl eq_refl)))))
    as (_ & Hfirst & _ & _ & _ & Hsecond).
  split; [exact Hfirst | exact Hsecond].
Defined.

Lemma seek_request_finishes_the_seek_witness :
  let scrub := aRequest (MediaSeekingRequest 30%float) 1 in
  let seek := aRequest (MediaSeekRequest 30%float) 2 in
  let w1 := onSeekingRequest scrub (aSession contentAt42) in
  let suppressed := handle softResetAtRest (createEvent (VdsSeeked 20%float) 3 None) w1 in
  let w2 := onSeekRequest seek 30%float (fst suppressed) in
  let finished := handle softResetAtRest (createEvent (VdsSeeked 30%float) 4 None) w2 in
  stopped (snd suppressed) = true
  ∧ currentTime (media (fst finished)) = 30%float
  ∧ requestEvent (snd finished) = Some seek.
Proof.
  cbv zeta.
  pose proof (seek_request_finishes_the_seek softResetAtRest
                (aRequest (MediaSeekingRequest 30%float) 1)
                (aRequest (MediaSeekRequest 30%float) 2)
                30%float 20%float 30%float 3 4 (aSession contentAt42) _
                eq_refl eq_refl eq_refl)
    as (_ & Hs & _ & _ & _ & Ht & Hr & _).
  split; [exact Hs|]. split; [exact Ht | exact Hr].
Defined.

(** Content that played to its end at 100s. *)
Definition contentEnded : MediaState :=
  set_ended true
    (set_paused true
       (set_playing false (set_currentTime 100%float contentAt42))).


(** ** The state manager *)

Lemma detached_session_is_inert_witness :
  let w' := onProviderDisconnect softResetAtRest (aSession contentAt42) in
  handle softResetAtRest (anEvent VdsPlay 1) w' = (w', anEvent VdsPlay 1)
  ∧ queue w' = ∅.
Proof.
  cbv zeta.
  pose proof (detached_session_is_inert softResetAtRest true true
                (aSession contentAt42) (anEvent VdsPlay 1) eq_refl
                (fun d H => eq_ind VdsPlay
                   (fun k => match k with VdsPlay => True | _ => False end) I _ H)
                (fun d H => eq_ind VdsPlay
                   (fun k => match k with VdsPlay => True | _ => False end) I _ H))
    as (Hh & _ & Hq & _).
  split; [exact Hh | exact (Hq eq_refl)].
Defined.

(** A session with a provider attached and no listener group installed
    yet. *)
Definition aFreshSession (m : MediaState) : World :=
  set_attachedCanLoadListeners false
    (set_attachedLoadStartListeners false
       (set_attachedCanPlayListeners false (aSession m))).

Lemma listener_stages_unlock_in_order_witness :
  let w := aFreshSession mediaAtRest in
  let w1 := fst (handle softResetAtRest (createEvent VdsCanLoad 1 None) w) in
  let w2 := fst (handle softResetAtRest (createEvent VdsLoadStart 2 None) w1) in
  let w3 := fst (handle softResetAtRest (createEvent (VdsCanPlay 60%float) 3 None) w2) in
  handle softResetAtRest (anEvent VdsPlaying 4) w = (w, anEvent VdsPlaying 4)
  ∧ canPlay (media w3) = true
  ∧ duration (media w3) = 60%float.
Proof.
  cbv zeta.
  assert (Htiers : ∀ t h, In (t, h) (listeners softResetAtRest (kind (anEvent VdsPlaying 4))) →
                          t = CanLoadTier ∨ t = LoadStartTier ∨ t = CanPlayTier).
  { intros t h [Hin|[]]. injection Hin as <- _. right. now right. }
  pose proof (listener_stages_unlock_in_order softResetAtRest
                (aFreshSession mediaAtRest) 1 2 3 60%float (anEvent VdsPlaying 4)
                eq_refl eq_refl eq_refl eq_refl Htiers)
    as (Hh & _ & _ & _ & _ & _ & Hc & Hd).
  split; [exact Hh|]. split; [exact Hc | exact Hd].
Defined.

Lemma started_is_dispatched_at_most_once_witness :
  let steps := [ProviderEvent (anEvent VdsPlay 1); ProviderEvent (anEvent VdsPlaying 2);
                ProviderEvent (anEvent VdsPause 3);
                ProviderEvent (anEvent VdsPlay 4); ProviderEvent (anEvent VdsPlaying 5)] in
  (startedCount (trace (run softResetAtRest steps (aSession readyAtRest))) <= 1)%nat.
Proof.
  exact (started_is_dispatched_at_most_once softResetAtRest
           [ProviderEvent (anEvent VdsPlay 1); ProviderEvent (anEvent VdsPlaying 2);
            ProviderEvent (anEvent VdsPause 3);
            ProviderEvent (anEvent VdsPlay 4); ProviderEvent (anEvent VdsPlaying 5)]
           (aSession readyAtRest) eq_refl).
Defined.

Lemma softResetAtRest_keeps_playingExcludesPaused (m : MediaState) :
  playingExcludesPaused m → playingExcludesPaused (softResetAtRest m).
Proof. intros _. unfold playingExcludesPaused. cbn. discriminate. Qed.

Lemma softResetAtRest_keeps_silentIsMuted (m : MediaState) :
  silentIsMuted m → silentIsMuted (softResetAtRest m).
Proof. intros H. exact H. Qed.

Lemma playing_excludes_paused_invariant_witness :
  let steps := [ProviderEvent (anEvent VdsPlay 1); ProviderEvent (anEvent VdsPlaying 2)] in
  paused (media (run softResetAtRest steps (aSession readyAtRest))) = false.
Proof.
  cbv zeta.
  refine (playing_excludes_paused_invariant softResetAtRest (aSession readyAtRest)
            [ProviderEvent (anEvent VdsPlay 1); ProviderEvent (anEvent VdsPlaying 2)]
            softResetAtRest_keeps_playingExcludesPaused _ eq_refl).
  unfold playingExcludesPaused. cbn. discriminate.
Defined.

Lemma silent_is_muted_invariant_witness :
  let steps := [ProviderEvent (anEvent (VdsVolumeChange 0%float false) 1);
                ProviderEvent (anEvent VdsPlay 2)] in
  muted (media (run softResetAtRest steps (aSession readyAtRest))) = true.
Proof.
  cbv zeta.
  refine (silent_is_muted_invariant softResetAtRest (aSession readyAtRest)
            [ProviderEvent (anEvent (VdsVolumeChange 0%float false) 1);
             ProviderEvent (anEvent VdsPlay 2)]
            softResetAtRest_keeps_silentIsMuted _ eq_refl).
  unfold silentIsMuted. cbn. discriminate.
Defined.

Lemma fields_are_written_by_their_events_only_witness :
  let w := aSession contentAt42 in
  let w' := step softResetAtRest (ProviderEvent (anEvent VdsPause 1)) w in
  volume (media w') = 1%float
  ∧ currentTime (media w') = 42%float
  ∧ duration (media w') = 100%float.
Proof.
  cbv zeta.
  pose proof (fields_are_written_by_their_events_only softResetAtRest
                (anEvent VdsPause 1) (aSession contentAt42)
                (fun d H => eq_ind VdsPause
                   (fun k => match k with VdsPause => True | _ => False end) I _ H))
    as (Hv & Ht & Hd & _).
  split; [exact (proj1 (Hv eq_refl))|]. split; [exact (Ht eq_refl) | exact (Hd eq_refl)].
Defined.

Lemma state_manager_alone_leaves_requests_witness :
  let w := set_isReplay true (set_withRequestManager false (aSession contentEnded)) in
  let steps := [ProviderEvent (anEvent VdsPlay 1); ProviderEvent (anEvent VdsPlaying 2);
                ResetTimerFires] in
  isReplay (run softResetAtRest steps w) = true.
Proof.
  cbv zeta.
  exact (proj2 (proj2 (proj2
    (state_manager_alone_leaves_requests softResetAtRest
       [ProviderEvent (anEvent VdsPlay 1); ProviderEvent (anEvent VdsPlaying 2);
        ResetTimerFires]
       (set_isReplay true (set_withRequestManager false (aSession contentEnded)))
       eq_refl)))).
Defined.


Lemma pending_waiting_is_cancelled_witness :
  let w := fst (handle softResetAtRest (anEvent VdsWaiting 1) (aSession contentAt42)) in
  let w' := step softResetAtRest (ProviderEvent (anEvent VdsPause 2)) w in
  waitingTimer w = true
  ∧ waitingTimer w' = false
  ∧ step softResetAtRest WaitingTimerFires w' = w'.
Proof.
  cbv zeta.
  pose proof (pending_waiting_is_cancelled softResetAtRest (anEvent VdsPause 2)
                (fst (handle softResetAtRest (anEvent VdsWaiting 1)
                        (aSession contentAt42)))
                (or_introl eq_refl) eq_refl eq_refl eq_refl)
    as (Ht & _ & _ & Hf).
  split; [reflexivity|]. split; [exact Ht | exact Hf].
Defined.


Lemma loop_restart_is_silent_witness :
  let w := set_isReplay true (set_isLooping true (aSession contentEnded)) in
  let r1 := handle softResetAtRest (createEvent VdsPlay 1 None) w in
  let r2 := handle softResetAtRest (createEvent VdsPlaying 2 None) (fst r1) in
  stopped (snd r1) = true
  ∧ stopped (snd r2) = true
  ∧ playing (media (fst r2)) = true
  ∧ trace (fst r2) = [].
Proof.
  cbv zeta.
  pose proof (loop_restart_is_silent softResetAtRest 1 2
                (set_isReplay true (set_isLooping true (aSession contentEnded)))
                eq_refl eq_refl)
    as (H1 & _ & H2 & H3 & _ & _ & _ & _ & H4 & _).
  split; [exact H1|]. split; [exact H2|]. split; [exact H3 | exact H4].
Defined.

(** ** The idle detector *)

(** A connected detector whose tracking is paused. *)
Definition aPausedUser : User.MediaUser :=
  User.onConnect (User.setup true User.useMediaUser).

Lemma paused_tracking_is_inert_witness :
  let steps := [UserInput aPointerMove; TimePasses 5000; MediaPaused true;
                UserInput aPointerMove; TimePasses 5000] in
  User.idling (userRun steps aPausedUser) = true
  ∧ User.dispatched (userRun steps aPausedUser) = [(true, None)].
Proof.
  cbv zeta.
  pose proof (paused_tracking_is_inert
                [UserInput aPointerMove; TimePasses 5000; MediaPaused true;
                 UserInput aPointerMove; TimePasses 5000]
                aPausedUser eq_refl eq_refl eq_refl eq_refl)
    as (_ & Hi & _ & Hd & _).
  split; [exact Hi | exact Hd].
Defined.

Lemma pausing_keeps_the_timer_of_an_idle_detector_witness :
  let u := User.handleIdleChange aPointerMove
             (User.set_idling true User.useMediaUser) in
  let u' := User.paused_set true u in
  User.idleTimeout u' = Some (2000%Z, aPointerMove)
  ∧ User.paused (User.elapse 2000 u') = true
  ∧ User.idling (User.elapse 2000 u') = false.
Proof.
  cbv zeta.
  pose proof (proj2 (pausing_keeps_the_timer_of_an_idle_detector
                       (User.handleIdleChange aPointerMove
                          (User.set_idling true User.useMediaUser))
                       2000%Z aPointerMove eq_refl)
                    eq_refl eq_refl) as (_ & Ht & Hlater).
  split; [exact Ht|].
  destruct (Hlater 2000%Z ltac:(cbn; lia)) as (Hp & Hi & _).
  split; [exact Hp | exact Hi].
Defined.


(** ** Ads *)

(** An overlay on content at 42s, with an ads manager. *)
Definition anOverlay : Ad := {| isLinear := false; getDuration := 15%float |}.

Definition anOverlayEvent (t : AdEventType) (id : nat) : AdEvent :=
  {| ad_type := t; getAd := Some anOverlay; ad_id := id;
     getRemainingTime := 0%float |}.

Definition withAdsManager : AdsController := set_adsManager true newAdsController.

Lemma overlay_ads_leave_the_content_alone_witness :
  let s' := onAdEvent softResetAtRest seekableEndOfRanges (anOverlayEvent start 1)
              (aSession contentAt42, withAdsManager) in
  playingNonLinear (snd s') = true
  ∧ trace (fst s') = [AdsManagerResize 50]
  ∧ media (fst s') = contentAt42.
Proof.
  cbv zeta.
  pose proof (overlay_ads_leave_the_content_alone softResetAtRest seekableEndOfRanges
                (anOverlayEvent start 1) (aSession contentAt42) withAdsManager
                (or_introl eq_refl))
    as (Hn & _ & Hrest).
  destruct (Hrest eq_refl) as (Hm & _).
  split; [exact Hn|]. split; [reflexivity | exact Hm].
Defined.

Lemma ad_progress_shows_the_ads_timeline_witness :
  let s1 := onAdEvent softResetAtRest seekableEndOfRanges (anAdEvent start 1 30%float)
              (aSession contentAt42, withAdsManager) in
  let s2 := onAdEvent softResetAtRest seekableEndOfRanges
              (anAdEvent adProgress 2 10%float) s1 in
  duration (media (fst s1)) = 30%float
  ∧ currentTime (media (fst s2)) = 20%float
  ∧ played (media (fst s2)) = TimeRange 0%float 20%float
  ∧ snapshot (snd s2) = (42%float, Some [(0%float, 42%float)]).
Proof.
  cbv zeta.
  pose proof (ad_progress_shows_the_ads_timeline softResetAtRest seekableEndOfRanges
                (anAdEvent start 1 30%float) (anAdEvent adProgress 2 10%float)
                aLinearAd (aSession contentAt42) withAdsManager
                eq_refl eq_refl eq_refl eq_refl)
    as (Hd & _ & Ht & Hp & _ & Hs).
  split; [exact Hd|]. split; [exact Ht|]. split; [exact Hp | exact Hs].
Defined.

Lemma completion_without_linear_start_rewinds_witness :
  let s2 := runAds softResetAtRest seekableEndOfRanges
              [SdkEvent (anOverlayEvent loaded 1); SdkEvent (anOverlayEvent start 2)]
              (aSession contentAt42, withAdsManager) in
  let s3 := onAdEvent softResetAtRest seekableEndOfRanges (anOverlayEvent complete 3) s2 in
  currentTime (media (fst s3)) = 0%float
  ∧ played (media (fst s3)) = TimeRange 0%float 0%float.
Proof.
  exact (completion_without_linear_start_rewinds softResetAtRest seekableEndOfRanges
           (anOverlayEvent complete 3)
           [SdkEvent (anOverlayEvent loaded 1); SdkEvent (anOverlayEvent start 2)]
           0%float (aSession contentAt42) withAdsManager
           eq_refl eq_refl (or_introl eq_refl)).
Defined.

Lemma ad_pod_restores_position_witness :
  let pod := [(anAdEvent start 1 30%float,
               [SdkEvent (anAdEvent adProgress 2 10%float)],
               anAdEvent complete 3 0%float);
              (anAdEvent start 4 30%float,
               [SdkEvent (anAdEvent adProgress 5 20%float)],
               anAdEvent skip 6 20%float)] in
  let st' := fold_left (fun st '(adEvent, during, done) =>
                          adBreak softResetAtRest seekableEndOfRanges
                            adEvent done during st)
               pod (aSession contentAt42, withAdsManager) in
  currentTime (media (fst st')) = 42%float
  ∧ played (media (fst st')) = [(0%float, 42%float)].
Proof.
  exact (ad_pod_restores_position softResetAtRest seekableEndOfRanges
           [(anAdEvent start 1 30%float,
             [SdkEvent (anAdEvent adProgress 2 10%float)],
             anAdEvent complete 3 0%float);
            (anAdEvent start 4 30%float,
             [SdkEvent (anAdEvent adProgress 5 20%float)],
             anAdEvent skip 6 20%float)]
           (aSession contentAt42, withAdsManager) eq_refl).
Defined.
